(** * Expense tracker: budgets, expenses and monthly reports

    A shallow embedding of the route handlers of [app.py] and of the four
    tables of [models.py], with the properties of the specification stated
    and proved (or refuted) against it.

    Conventions of the embedding:
    - a Python [float] is a primitive binary64 float ([PrimFloat.float]);
    - a [datetime.date] is a record of three integers, built through
      [date_new], which performs the range check of the Python constructor
      ([None] stands for the [ValueError] it raises);
    - a table is the list of its rows in insertion (rowid) order, so that
      [.first()] is the first row that satisfies the filter; the store is
      the SQLite database of the default configuration: keys are 64-bit
      integers, and a float column cannot hold NaN;
    - text is kept as its UTF-8 bytes;
    - a handler is a function from the store and the request to an
      [Outcome]: the response, the flashed messages and the store as
      committed when the request ends. *)

From Stdlib Require Import ZArith List String Ascii Bool Lia DecimalString.
From Stdlib Require Import Floats.
From Stdlib Require Import Sorted Permutation QArith.
Import ListNotations.

Local Open Scope Z_scope.
Local Open Scope bool_scope.

(* ===================================================================== *)
(** ** Calendar dates ([datetime.date]) *)
(* ===================================================================== *)

Record date : Type := mkDate { year : Z; month : Z; day : Z }.

Definition MINYEAR : Z := 1.
Definition MAXYEAR : Z := 9999.

Definition is_leap (y : Z) : bool :=
  ((y mod 4 =? 0) && negb (y mod 100 =? 0)) || (y mod 400 =? 0).

Definition days_in_month (y m : Z) : Z :=
  if m =? 2 then (if is_leap y then 29 else 28)
  else if (m =? 4) || (m =? 6) || (m =? 9) || (m =? 11) then 30
  else 31.

(** The check made by [date(y, m, d)]. *)
Definition valid_ymd (y m d : Z) : bool :=
  (MINYEAR <=? y) && (y <=? MAXYEAR) &&
  (1 <=? m) && (m <=? 12) &&
  (1 <=? d) && (d <=? days_in_month y m).

Definition valid_date (d : date) : bool := valid_ymd (year d) (month d) (day d).

(** [date(y, m, d)]: [None] is the [ValueError] of an out-of-range field. *)
Definition date_new (y m d : Z) : option date :=
  if valid_ymd y m d then Some (mkDate y m d) else None.

(** [d.replace(day=1)]; never raises on a valid date (see
    [replace_day1_valid]). *)
Definition replace_day1 (d : date) : date := mkDate (year d) (month d) 1.

(** Dates compare as the tuples (year, month, day). *)
Definition date_ltb (a b : date) : bool :=
  (year a <? year b) ||
  ((year a =? year b) &&
   ((month a <? month b) || ((month a =? month b) && (day a <? day b)))).

Definition date_eqb (a b : date) : bool :=
  (year a =? year b) && (month a =? month b) && (day a =? day b).

Definition date_leb (a b : date) : bool := date_ltb a b || date_eqb a b.

(** [_next_month] (app.py):
<<
    if d.month == 12:
        return date(d.year + 1, 1, 1)
    return date(d.year, d.month + 1, 1)
>> *)
Definition _next_month (d : date) : option date :=
  if month d =? 12 then date_new (year d + 1) 1 1
  else date_new (year d) (month d + 1) 1.

(** [n] successive applications of [_next_month]; an exception raised by
    one of them ends the computation. *)
Fixpoint next_month_iter (n : nat) (d : date) : option date :=
  match n with
  | O => Some d
  | S k => match _next_month d with
           | Some d' => next_month_iter k d'
           | None => None
           end
  end.

(** The month [m] one year later. *)
Definition shift_year (m : date) : date := mkDate (year m + 1) (month m) (day m).

(* ===================================================================== *)
(** ** The tables of [models.py] *)
(* ===================================================================== *)

Module User.
Record t : Type := mk { id : Z; name : string; email : option string }.
End User.

Module Category.
Record t : Type := mk { id : Z; name : string; user_id : Z }.
End Category.

Module Budget.
Record t : Type :=
  mk { id : Z; user_id : Z; category_id : Z; month : date; amount : float }.
End Budget.

Module Expense.
Record t : Type :=
  mk { id : Z; user_id : Z; category_id : Z; date : date; amount : float;
       description : option string }.
End Expense.

(** The database: each table is the list of its rows in rowid order. *)
Record Store : Type := mkStore {
  users : list User.t;
  categories : list Category.t;
  budgets : list Budget.t;
  expenses : list Expense.t
}.

(** The key given to an inserted row of an integer primary key: one more
    than the largest key of the table. *)
Definition next_id {A : Type} (id : A -> Z) (rows : list A) : Z :=
  1 + fold_right Z.max 0 (map id rows).

(** The keys of the store are 64-bit signed integers; a larger integer (the
    URL takes any natural number) cannot be bound to a query: the driver
    raises [OverflowError]. *)
Definition MAX_KEY : Z := 2 ^ 63 - 1.

(** [User.query.get_or_404(user_id)]: the user of that key, the 404 abort
    when there is none, or the [OverflowError] of a key too large. *)
Inductive Lookup : Type :=
| Found (user : User.t)
| Missing
| Overflow.

Definition get_or_404 (s : Store) (user_id : Z) : Lookup :=
  if user_id <=? MAX_KEY then
    match find (fun u => User.id u =? user_id) (users s) with
    | Some u => Found u
    | None => Missing
    end
  else Overflow.

(** The user that [get_or_404] returns, when it returns one. *)
Definition get_user (s : Store) (user_id : Z) : option User.t :=
  match get_or_404 s user_id with
  | Found u => Some u
  | Missing | Overflow => None
  end.

(** [Category.query.filter_by(user_id=...).all()] *)
Definition categories_of (s : Store) (user_id : Z) : list Category.t :=
  filter (fun c => Category.user_id c =? user_id) (categories s).

(** The filter of
    [Budget.query.filter_by(user_id=..., category_id=..., month=...)]. *)
Definition budget_matches (user_id category_id : Z) (m : date) (b : Budget.t) : bool :=
  (Budget.user_id b =? user_id) && (Budget.category_id b =? category_id) &&
  date_eqb (Budget.month b) m.

(** [....first()] of that query. *)
Definition find_budget (bs : list Budget.t) (user_id category_id : Z) (m : date)
  : option Budget.t :=
  find (budget_matches user_id category_id m) bs.

(* ===================================================================== *)
(** ** Floats: truthiness and the SUM aggregate *)
(* ===================================================================== *)

(** A [SUM] over a float column as a running sum: NULL on no row, otherwise
    the float sum of the rows, accumulated in table order from [0.0]. It is
    the aggregate of the concrete environment [py] below; the handlers take
    the aggregate of the store from their environment. *)
Definition float_sum (xs : list float) : float :=
  fold_left PrimFloat.add xs 0%float.

Definition sql_sum (xs : list float) : option float :=
  match xs with
  | [] => None
  | _ => Some (float_sum xs)
  end.

(** [x or 0.0] for [x] a float or [None]: [None] and both zeros are falsy,
    every other float (NaN included) is truthy. *)
Definition or_zero (x : option float) : float :=
  match x with
  | None => 0%float
  | Some v => if PrimFloat.eqb v 0%float then 0%float else v
  end.

(** The filter of the three [func.sum(Expense.amount)] queries: the user,
    optionally the category, and [lo <= date < hi]. *)
Definition expense_matches (user_id : Z) (category_id : option Z) (lo hi : date)
    (e : Expense.t) : bool :=
  (Expense.user_id e =? user_id) &&
  match category_id with
  | Some c => Expense.category_id e =? c
  | None => true
  end &&
  date_leb lo (Expense.date e) && date_ltb (Expense.date e) hi.

(* ===================================================================== *)
(** ** Budget status *)
(* ===================================================================== *)

Inductive Status : Type := exceeded | near_limit | ok.

(** The classification of [monthly_report]:
<<
    remaining = budget_amount - spent
    if remaining < 0:                                   "exceeded"
    elif budget_amount > 0 and remaining <= 0.1 * budget_amount:
                                                        "near_limit"
    else:                                               "ok"
>> *)
Definition BudgetStatus (spent budget_amount : float) : Status :=
  let remaining := PrimFloat.sub budget_amount spent in
  if PrimFloat.ltb remaining 0%float then exceeded
  else if PrimFloat.ltb 0%float budget_amount &&
          PrimFloat.leb remaining (PrimFloat.mul 0x1.999999999999ap-4%float budget_amount)
       then near_limit
       else ok.

(* ===================================================================== *)
(** ** Requests, responses and the Python built-ins the handlers call *)
(* ===================================================================== *)

(** [request.args] and [request.form]: the submitted fields in order;
    [.get] returns the first value of a key. *)
Definition Form : Type := list (string * string).

Fixpoint form_get (f : Form) (key : string) : option string :=
  match f with
  | [] => None
  | (k, v) :: rest => if String.eqb k key then Some v else form_get rest key
  end.

Inductive Method : Type := GET | POST.

Record Request : Type := mkRequest { method : Method; args : Form; form : Form }.

(** The built-ins whose results the handlers branch on. The theorems hold
    for every such environment; [py] below is a concrete one.
    - [py_float s] is [float(s)], [None] for its [ValueError];
    - [strptime_Ym s] is [datetime.strptime(s, "%Y-%m").date()] and
      [strptime_Ymd s] is [datetime.strptime(s, "%Y-%m-%d").date()],
      [None] for [ValueError];
    - [today] is [date.today()];
    - [key_of_text s] is the integer a text parameter denotes when the
      store compares it with an integer key, [None] when it denotes none;
    - [db_sum xs] is the [SUM] aggregate of the store over the floats [xs],
      given in table order; [None] is NULL. How it adds floats (the order,
      the rounding) is the store's business. *)
Record PyEnv : Type := mkEnv {
  py_float : string -> option float;
  strptime_Ym : string -> option date;
  strptime_Ymd : string -> option date;
  today : date;
  key_of_text : string -> option Z;
  db_sum : list float -> option float
}.

(** [db.session.query(db.func.sum(Expense.amount)).filter(...).scalar() or 0.0] *)
Definition sum_expenses (env : PyEnv) (es : list Expense.t) (user_id : Z)
    (category_id : option Z) (lo hi : date) : float :=
  or_zero (db_sum env (map Expense.amount
                           (filter (expense_matches user_id category_id lo hi) es))).

(** MonthlySpend of the specification: the bounds are [m] and
    [_next_month(m)]; [None] when [_next_month] raises. *)
Definition MonthlySpend (env : PyEnv) (s : Store) (user_id : Z)
    (category_id : option Z) (m : date) : option float :=
  match _next_month m with
  | Some hi => Some (sum_expenses env (expenses s) user_id category_id m hi)
  | None => None
  end.

(** The number of a byte. *)
Definition code (c : ascii) : Z := Z.of_nat (nat_of_ascii c).

(** The characters of a text: in UTF-8 a character is a byte that is not a
    continuation byte ([10xxxxxx]) and the continuation bytes after it. *)
Definition is_continuation (c : ascii) : bool := (128 <=? code c) && (code c <=? 191).

Fixpoint chars (s : string) : list string :=
  match s with
  | EmptyString => []
  | String c rest =>
      match chars rest with
      | (String d _ as following) :: more =>
          if is_continuation d then String c following :: more
          else String c EmptyString :: following :: more
      | more => String c EmptyString :: more
      end
  end.

(** The code point of a character ([-1] for bytes that are none). *)
Definition code_point (ch : string) : Z :=
  match ch with
  | String a EmptyString => if code a <? 128 then code a else -1
  | String a (String b EmptyString) =>
      if (194 <=? code a) && (code a <=? 223)
      then (code a - 192) * 64 + (code b - 128) else -1
  | String a (String b (String c EmptyString)) =>
      if (224 <=? code a) && (code a <=? 239)
      then (code a - 224) * 4096 + (code b - 128) * 64 + (code c - 128) else -1
  | String a (String b (String c (String d EmptyString))) =>
      if (240 <=? code a) && (code a <=? 244)
      then (code a - 240) * 262144 + (code b - 128) * 4096
           + (code c - 128) * 64 + (code d - 128)
      else -1
  | _ => -1
  end.

(** The white space of [str.strip()] and [str.isspace()]: the ASCII
    controls and the space, NEL, the no-break space, and the spaces and
    separators of Unicode. *)
Definition is_space_point (n : Z) : bool :=
  ((9 <=? n) && (n <=? 13)) || ((28 <=? n) && (n <=? 32)) ||
  (n =? 133) || (n =? 160) || (n =? 5760) ||
  ((8192 <=? n) && (n <=? 8202)) ||
  (n =? 8232) || (n =? 8233) || (n =? 8239) || (n =? 8287) || (n =? 12288).

Definition is_space (ch : string) : bool := is_space_point (code_point ch).

Fixpoint drop_spaces (l : list string) : list string :=
  match l with
  | ch :: rest => if is_space ch then drop_spaces rest else l
  | [] => []
  end.

(** [s.strip()] *)
Definition strip (s : string) : string :=
  String.concat EmptyString (rev (drop_spaces (rev (drop_spaces (chars s))))).

(** Truthiness of a [str]: the empty string is falsy. *)
Definition nonempty (s : string) : bool :=
  match s with EmptyString => false | _ => true end.

Inductive Severity : Type := error | warning | info | success.

(** The flashed messages. The two budget alerts carry the number that the
    source formats with [:.2f]. *)
Inductive Message : Type :=
| MsgUserDeleted                                  (* "User deleted." *)
| MsgInvalidMonth                                 (* "Invalid month format." *)
| MsgInvalidBudgetAmount (category_name : string) (* "Invalid budget amount for {name}." *)
| MsgBudgetsSaved                                 (* "Budgets saved." *)
| MsgAmountNotPositive                            (* "Amount must be a positive number." *)
| MsgInvalidDate                                  (* "Invalid date." *)
| MsgInvalidCategory                              (* "Invalid category." *)
| MsgBudgetExceeded (category_name : string) (over : float)
    (* "Budget exceeded for {name} by {abs(remaining):.2f}." *)
| MsgNearLimit (category_name : string) (remaining : float)
    (* "Only {remaining:.2f} left in {name} budget (10% or less remaining)." *)
| MsgExpenseRecorded.                             (* "Expense recorded." *)

Definition Flash : Type := (Message * Severity)%type.

(** One entry of [per_category] in [monthly_report]. *)
Record ReportRow : Type := mkRow {
  row_category : Category.t;
  row_budget : float;
  row_spent : float;
  row_remaining : float;
  row_status : Status
}.

(** Targets of [redirect(url_for(...))]. The month of [manage_budgets] is
    the date that the source renders with [strftime("%Y-%m")]. *)
Inductive Endpoint : Type :=
| to_index
| to_manage_budgets (user_id : Z) (month : option date)
| to_create_expense (user_id : Z)
| to_list_expenses (user_id : Z).

(** The templates with their arguments. A dict is the list of its items. *)
Inductive Page : Type :=
| budgets_html (user : User.t) (categories : list Category.t) (month : date)
    (existing_budgets : list (Z * Budget.t))
| create_expense_html (user : User.t) (categories : list Category.t) (today : date)
| expenses_html (user : User.t) (expenses : list Expense.t)
    (categories : list (Z * Category.t))
| monthly_report_html (user : User.t) (month : date) (total_spent : float)
    (per_category : list ReportRow).

Inductive Response : Type :=
| Redirect (target : Endpoint)
| Render (page : Page)
| NotFound       (* abort(404) of get_or_404 *)
| ServerError.   (* an exception that no handler catches *)

(** What a request leaves behind: the response, the messages flashed, and
    the committed store. *)
Record Outcome : Type := mkOutcome {
  response : Response;
  flashes : list Flash;
  store : Store
}.

(** [d[k] = v] on a dict kept as the list of its items. *)
Fixpoint dict_set {V : Type} (d : list (Z * V)) (k : Z) (v : V) : list (Z * V) :=
  match d with
  | [] => [(k, v)]
  | (k', v') :: rest => if k' =? k then (k, v) :: rest else (k', v') :: dict_set rest k v
  end.

Definition dict_of {A : Type} (key : A -> Z) (rows : list A) : list (Z * A) :=
  fold_left (fun d r => dict_set d (key r) r) rows [].

(** [str(n)] for an integer. *)
Definition str_of_Z (n : Z) : string := DecimalString.NilZero.string_of_int (Z.to_int n).


(* ===================================================================== *)
(** ** [delete_user] *)
(* ===================================================================== *)

(** A database session: what other connections see ([committed]) and the
    state inside the open transaction ([working]). *)
Record Txn : Type := mkTxn { committed : Store; working : Store }.

Definition begin (s : Store) : Txn := mkTxn s s.

(** The statements that [delete_user] issues. *)
Inductive Stmt : Type :=
| DeleteExpensesOf (user_id : Z)    (* Expense.query.filter_by(user_id=...).delete() *)
| DeleteBudgetsOf (user_id : Z)     (* Budget.query.filter_by(user_id=...).delete() *)
| DeleteCategoriesOf (user_id : Z)  (* Category.query.filter_by(user_id=...).delete() *)
| DeleteUserRow (user_id : Z)       (* db.session.delete(user) *)
| Commit.                           (* db.session.commit() *)

Definition exec_working (st : Stmt) (w : Store) : Store :=
  match st with
  | DeleteExpensesOf u =>
      mkStore (users w) (categories w) (budgets w)
              (filter (fun e => negb (Expense.user_id e =? u)) (expenses w))
  | DeleteBudgetsOf u =>
      mkStore (users w) (categories w)
              (filter (fun b => negb (Budget.user_id b =? u)) (budgets w))
              (expenses w)
  | DeleteCategoriesOf u =>
      mkStore (users w)
              (filter (fun c => negb (Category.user_id c =? u)) (categories w))
              (budgets w) (expenses w)
  | DeleteUserRow u =>
      mkStore (filter (fun x => negb (User.id x =? u)) (users w))
              (categories w) (budgets w) (expenses w)
  | Commit => w
  end.

Definition exec (t : Txn) (st : Stmt) : Txn :=
  match st with
  | Commit => mkTxn (working t) (working t)
  | _ => mkTxn (committed t) (exec_working st (working t))
  end.

Definition run (sts : list Stmt) (t : Txn) : Txn := fold_left exec sts t.

(** The body of [delete_user] after the user has been found. *)
Definition delete_user_stmts (user : User.t) : list Stmt :=
  [ DeleteExpensesOf (User.id user);
    DeleteBudgetsOf (User.id user);
    DeleteCategoriesOf (User.id user);
    DeleteUserRow (User.id user);
    Commit ].

Definition delete_user (s : Store) (user_id : Z) : Outcome :=
  match get_or_404 s user_id with
  | Overflow => mkOutcome ServerError [] s
  | Missing => mkOutcome NotFound [] s
  | Found user =>
      mkOutcome (Redirect to_index) [(MsgUserDeleted, success)]
                (committed (run (delete_user_stmts user) (begin s)))
  end.

(* ===================================================================== *)
(** ** [manage_budgets] *)
(* ===================================================================== *)

(** The month of the query string, in [manage_budgets] and in
    [monthly_report] alike:
<<
    if month_str:
        try:    month = datetime.strptime(month_str, "%Y-%m").date()
        except ValueError: month = date.today().replace(day=1)
    else:       month = date.today().replace(day=1)
>> *)
Definition month_param (env : PyEnv) (month_str : option string) : date :=
  match month_str with
  | Some str =>
      if nonempty str then
        match strptime_Ym env str with
        | Some m => m
        | None => replace_day1 (today env)
        end
      else replace_day1 (today env)
  | None => replace_day1 (today env)
  end.

(** [f"budget_{category.id}"] *)
Definition budget_field (c : Category.t) : string :=
  String.append "budget_" (str_of_Z (Category.id c)).

Definition set_amount (b : Budget.t) (a : float) : Budget.t :=
  Budget.mk (Budget.id b) (Budget.user_id b) (Budget.category_id b) (Budget.month b) a.

(** The upsert at the end of the loop body: the first budget of the triple
    has its amount assigned (an UPDATE by primary key), or a row is added. *)
Definition upsert_budget (bs : list Budget.t) (user_id category_id : Z) (m : date)
    (a : float) : list Budget.t :=
  match find_budget bs user_id category_id m with
  | Some b => map (fun r => if Budget.id r =? Budget.id b then set_amount r a else r) bs
  | None => bs ++ [Budget.mk (next_id Budget.id bs) user_id category_id m a]
  end.

(** The float that a REAL column gives back for the float stored in it:
    SQLite stores a zero of either sign as the integer 0 and returns
    [0.0]. (A NaN is not stored at all, see [budget_loop].) *)
Definition stored_real (a : float) : float :=
  if PrimFloat.eqb a 0%float then 0%float else a.

(** One iteration of [for category in categories], on the budgets of the
    session and the messages flashed so far. The budgets are kept as the
    store will hold them. *)
Definition budget_step (env : PyEnv) (f : Form) (user_id : Z) (m : date)
    (acc : list Budget.t * list Flash) (c : Category.t) : list Budget.t * list Flash :=
  match form_get f (budget_field c) with
  | None => acc
  | Some raw_value =>
      if nonempty (strip raw_value) then
        match py_float env raw_value with
        | None => (fst acc, snd acc ++ [(MsgInvalidBudgetAmount (Category.name c), error)])
        | Some a =>
            if PrimFloat.ltb a 0%float
            then (fst acc, snd acc ++ [(MsgInvalidBudgetAmount (Category.name c), error)])
            else (upsert_budget (fst acc) user_id (Category.id c) m (stored_real a),
                  snd acc)
        end
      else acc
  end.

(** The amount of a field that passes the checks of the loop: the one
    case in which the iteration queries the budgets and writes to the
    session. [float("nan")] is such an amount, as [nan < 0] is false. *)
Definition accepted_amount (env : PyEnv) (f : Form) (c : Category.t) : option float :=
  match form_get f (budget_field c) with
  | Some raw_value =>
      if nonempty (strip raw_value) then
        match py_float env raw_value with
        | Some a => if PrimFloat.ltb a 0%float then None else Some a
        | None => None
        end
      else None
  | None => None
  end.

(** How the loop and the commit end: the budgets to commit and the
    messages flashed, or an uncaught exception after some messages. *)
Inductive Loop : Type :=
| Saved (saved : list Budget.t) (flashed : list Flash)
| Raised (flashed : list Flash).

(** [for category in categories: ...] followed by [db.session.commit()].
    A budget whose amount is NaN cannot be written: SQLite binds NaN as
    NULL and [amount] is NOT NULL. The write is attempted when the session
    is flushed, which the next query of the loop does, and the commit; it
    raises [IntegrityError], which nothing catches, and nothing of the
    batch is committed. [unflushed_nan] says that the session holds such a
    budget. *)
Fixpoint budget_loop (env : PyEnv) (f : Form) (user_id : Z) (m : date)
    (cats : list Category.t) (acc : list Budget.t * list Flash)
    (unflushed_nan : bool) : Loop :=
  match cats with
  | [] => if unflushed_nan then Raised (snd acc) else Saved (fst acc) (snd acc)
  | c :: rest =>
      match accepted_amount env f c with
      | Some a =>
          if unflushed_nan then Raised (snd acc)
          else budget_loop env f user_id m rest (budget_step env f user_id m acc c)
                           (PrimFloat.is_nan a)
      | None =>
          budget_loop env f user_id m rest (budget_step env f user_id m acc c)
                      unflushed_nan
      end
  end.

(** A field whose amount passes the checks of the loop and is NaN. *)
Definition submits_nan (env : PyEnv) (f : Form) (c : Category.t) : bool :=
  match accepted_amount env f c with
  | Some a => PrimFloat.is_nan a
  | None => false
  end.

(** Some field of the batch submits NaN. *)
Definition batch_raises (env : PyEnv) (f : Form) (cats : list Category.t) : bool :=
  existsb (submits_nan env f) cats.

Definition with_budgets (s : Store) (bs : list Budget.t) : Store :=
  mkStore (users s) (categories s) bs (expenses s).

Definition manage_budgets (env : PyEnv) (s : Store) (user_id : Z) (req : Request)
  : Outcome :=
  match get_or_404 s user_id with
  | Overflow => mkOutcome ServerError [] s
  | Missing => mkOutcome NotFound [] s
  | Found user =>
      let cats := categories_of s (User.id user) in
      let selected_month := month_param env (form_get (args req) "month"%string) in
      match method req with
      | POST =>
          match match form_get (form req) "month"%string with
                | Some month_str => strptime_Ym env month_str
                | None => None      (* TypeError *)
                end with
          | None =>
              mkOutcome (Redirect (to_manage_budgets (User.id user) None))
                        [(MsgInvalidMonth, error)] s
          | Some m =>
              match budget_loop env (form req) (User.id user) m cats
                                (budgets s, []) false with
              | Raised flashed => mkOutcome ServerError flashed s
              | Saved saved flashed =>
                  mkOutcome (Redirect (to_manage_budgets (User.id user) (Some m)))
                            (flashed ++ [(MsgBudgetsSaved, success)])
                            (with_budgets s saved)
              end
          end
      | GET =>
          let existing_budgets :=
            dict_of Budget.category_id
              (filter (fun b => (Budget.user_id b =? User.id user) &&
                                date_eqb (Budget.month b) selected_month)
                      (budgets s)) in
          mkOutcome (Render (budgets_html user cats selected_month existing_budgets)) [] s
      end
  end.

(* ===================================================================== *)
(** ** [create_expense] *)
(* ===================================================================== *)

Definition or_empty (x : option string) : string :=
  match x with Some v => v | None => EmptyString end.

(** The alert flashed after an expense is saved, when a budget exists:
<<
    remaining = budget.amount - total_spent
    if remaining < 0:
        flash(f"Budget exceeded for ... by {abs(remaining):.2f}.", "warning")
    elif budget.amount > 0 and remaining <= 0.1 * budget.amount:
        flash(f"Only {remaining:.2f} left in ...", "info")
>> *)
Definition budget_alert (c : Category.t) (b : Budget.t) (total_spent : float)
  : list Flash :=
  let remaining := PrimFloat.sub (Budget.amount b) total_spent in
  if PrimFloat.ltb remaining 0%float then
    [(MsgBudgetExceeded (Category.name c) (PrimFloat.abs remaining), warning)]
  else if PrimFloat.ltb 0%float (Budget.amount b) &&
          PrimFloat.leb remaining
            (PrimFloat.mul 0x1.999999999999ap-4%float (Budget.amount b))
       then [(MsgNearLimit (Category.name c) remaining, info)]
       else [].

(** [Category.query.filter_by(id=category_id, user_id=user.id).first()],
    where [category_id] is the raw form field (absent: no row matches). *)
Definition find_category (env : PyEnv) (s : Store) (category_id : option string)
    (user_id : Z) : option Category.t :=
  match category_id with
  | None => None
  | Some raw =>
      match key_of_text env raw with
      | None => None
      | Some k =>
          find (fun c => (Category.id c =? k) && (Category.user_id c =? user_id))
               (categories s)
      end
  end.

Definition add_expense (s : Store) (e : Expense.t) : Store :=
  mkStore (users s) (categories s) (budgets s) (expenses s ++ [e]).

Definition create_expense (env : PyEnv) (s : Store) (user_id : Z) (req : Request)
  : Outcome :=
  match get_or_404 s user_id with
  | Overflow => mkOutcome ServerError [] s
  | Missing => mkOutcome NotFound [] s
  | Found user =>
      let cats := categories_of s (User.id user) in
      match method req with
      | POST =>
          let category_id := form_get (form req) "category_id"%string in
          let amount_raw := strip (or_empty (form_get (form req) "amount"%string)) in
          let date_str := or_empty (form_get (form req) "date"%string) in
          let description := strip (or_empty (form_get (form req) "description"%string)) in
          let back := Redirect (to_create_expense (User.id user)) in
          match match py_float env amount_raw with
                | Some a => if PrimFloat.leb a 0%float then None else Some a
                | None => None
                end with
          | None => mkOutcome back [(MsgAmountNotPositive, error)] s
          | Some a =>
          match strptime_Ymd env date_str with
          | None => mkOutcome back [(MsgInvalidDate, error)] s
          | Some expense_date =>
          match find_category env s category_id (User.id user) with
          | None => mkOutcome back [(MsgInvalidCategory, error)] s
          | Some category =>
              (* the commit of a NaN amount raises IntegrityError: SQLite
                 binds NaN as NULL and [amount] is NOT NULL *)
              if PrimFloat.is_nan a then mkOutcome ServerError [] s else
              let expense :=
                Expense.mk (next_id Expense.id (expenses s)) (User.id user)
                           (Category.id category) expense_date a
                           (if nonempty description then Some description else None) in
              let s' := add_expense s expense in
              let month_start := replace_day1 expense_date in
              let done := Redirect (to_list_expenses (User.id user)) in
              match find_budget (budgets s') (User.id user) (Category.id category)
                                month_start with
              | Some budget =>
                  match _next_month month_start with
                  | None => mkOutcome ServerError [] s'
                  | Some month_end =>
                      let total_spent :=
                        sum_expenses env (expenses s') (User.id user)
                                     (Some (Category.id category)) month_start month_end in
                      mkOutcome done
                                (budget_alert category budget total_spent
                                 ++ [(MsgExpenseRecorded, success)]) s'
                  end
              | None => mkOutcome done [(MsgExpenseRecorded, success)] s'
              end
          end end end
      | GET => mkOutcome (Render (create_expense_html user cats (today env))) [] s
      end
  end.

(* ===================================================================== *)
(** ** [list_expenses] *)
(* ===================================================================== *)

(** [ORDER BY date DESC]: insertion into a list in descending date order;
    rows of equal date keep their table order. *)
Fixpoint insert_desc (e : Expense.t) (l : list Expense.t) : list Expense.t :=
  match l with
  | [] => [e]
  | x :: rest =>
      if date_ltb (Expense.date e) (Expense.date x)
      then x :: insert_desc e rest
      else e :: l
  end.

Definition order_by_date_desc (l : list Expense.t) : list Expense.t :=
  fold_right insert_desc [] l.

(** [Expense.query.filter_by(user_id=...).order_by(Expense.date.desc()).limit(50).all()] *)
Definition recent_expenses (s : Store) (user_id : Z) : list Expense.t :=
  firstn 50 (order_by_date_desc
               (filter (fun e => Expense.user_id e =? user_id) (expenses s))).

Definition list_expenses (s : Store) (user_id : Z) : Outcome :=
  match get_or_404 s user_id with
  | Overflow => mkOutcome ServerError [] s
  | Missing => mkOutcome NotFound [] s
  | Found user =>
      mkOutcome (Render (expenses_html user (recent_expenses s (User.id user))
                           (dict_of Category.id (categories_of s (User.id user)))))
                [] s
  end.

(* ===================================================================== *)
(** ** [monthly_report] *)
(* ===================================================================== *)

(** The body of [for category in categories]. *)
Definition report_row (env : PyEnv) (s : Store) (user_id : Z)
    (month_start month_end : date) (c : Category.t) : ReportRow :=
  let spent := sum_expenses env (expenses s) user_id (Some (Category.id c))
                            month_start month_end in
  let budget_amount :=
    match find_budget (budgets s) user_id (Category.id c) month_start with
    | Some b => Budget.amount b
    | None => 0%float
    end in
  mkRow c budget_amount spent (PrimFloat.sub budget_amount spent)
        (BudgetStatus spent budget_amount).

Definition monthly_report (env : PyEnv) (s : Store) (user_id : Z) (req : Request)
  : Outcome :=
  match get_or_404 s user_id with
  | Overflow => mkOutcome ServerError [] s
  | Missing => mkOutcome NotFound [] s
  | Found user =>
      let month_start := month_param env (form_get (args req) "month"%string) in
      match _next_month month_start with
      | None => mkOutcome ServerError [] s
      | Some month_end =>
          let total_spent :=
            sum_expenses env (expenses s) (User.id user) None month_start month_end in
          let per_category :=
            map (report_row env s (User.id user) month_start month_end)
                (categories_of s (User.id user)) in
          mkOutcome (Render (monthly_report_html user month_start total_spent per_category))
                    [] s
      end
  end.

(* ===================================================================== *)
(** ** A concrete environment *)
(* ===================================================================== *)

(** The built-ins on ASCII text, used to run the handlers on concrete
    requests. *)

Definition is_digit (c : ascii) : bool := (48 <=? code c) && (code c <=? 57).

Definition digit (c : ascii) : Z := code c - 48.

Definition in_range (lo hi : Z) (c : ascii) : bool :=
  is_digit c && (lo <=? digit c) && (digit c <=? hi).

(** [%Y]: the regular expression [\d\d\d\d]. *)
Definition parse_Y (s : string) : option (Z * string) :=
  match s with
  | String a (String b (String c (String d rest))) =>
      if is_digit a && is_digit b && is_digit c && is_digit d
      then Some (1000 * digit a + 100 * digit b + 10 * digit c + digit d, rest)
      else None
  | _ => None
  end.

(** [%m]: the regular expression [1[0-2]|0[1-9]|[1-9]]. *)
Definition parse_m (s : string) : option (Z * string) :=
  match s with
  | String a rest =>
      match rest with
      | String b rest' =>
          if (code a =? 49) && in_range 0 2 b then Some (10 + digit b, rest')
          else if (code a =? 48) && in_range 1 9 b then Some (digit b, rest')
          else if in_range 1 9 a then Some (digit a, rest)
          else None
      | EmptyString => if in_range 1 9 a then Some (digit a, rest) else None
      end
  | EmptyString => None
  end.

(** [%d]: the regular expression [3[0-1]|[1-2]\d|0[1-9]|[1-9]| [1-9]]. *)
Definition parse_d (s : string) : option (Z * string) :=
  match s with
  | String a rest =>
      match rest with
      | String b rest' =>
          if (code a =? 51) && in_range 0 1 b then Some (30 + digit b, rest')
          else if in_range 1 2 a && is_digit b then Some (10 * digit a + digit b, rest')
          else if (code a =? 48) && in_range 1 9 b then Some (digit b, rest')
          else if in_range 1 9 a then Some (digit a, rest)
          else if (code a =? 32) && in_range 1 9 b then Some (digit b, rest')
          else None
      | EmptyString => if in_range 1 9 a then Some (digit a, rest) else None
      end
  | EmptyString => None
  end.

(** A literal ["-"] of the format. *)
Definition parse_dash (s : string) : option string :=
  match s with
  | String c rest => if code c =? 45 then Some rest else None
  | EmptyString => None
  end.

(** [datetime.strptime(s, "%Y-%m").date()]: the whole text must match, and
    the fields must make a date (the day is 1). *)
Definition py_strptime_Ym (s : string) : option date :=
  match parse_Y s with
  | Some (y, s1) =>
      match parse_dash s1 with
      | Some s2 =>
          match parse_m s2 with
          | Some (m, EmptyString) => date_new y m 1
          | _ => None
          end
      | None => None
      end
  | None => None
  end.

(** [datetime.strptime(s, "%Y-%m-%d").date()] *)
Definition py_strptime_Ymd (s : string) : option date :=
  match parse_Y s with
  | Some (y, s1) =>
      match parse_dash s1 with
      | Some s2 =>
          match parse_m s2 with
          | Some (m, s3) =>
              match parse_dash s3 with
              | Some s4 =>
                  match parse_d s4 with
                  | Some (d, EmptyString) => date_new y m d
                  | _ => None
                  end
              | None => None
              end
          | None => None
          end
      | None => None
      end
  | None => None
  end.

(** Underscores of a numeric literal: each must stand between two digits. *)
Fixpoint underscores_ok (prev_digit : bool) (s : string) : bool :=
  match s with
  | EmptyString => true
  | String c rest =>
      if code c =? 95 then
        prev_digit &&
        match rest with
        | String d _ => is_digit d
        | EmptyString => false
        end &&
        underscores_ok false rest
      else underscores_ok (is_digit c) rest
  end.

Fixpoint drop_underscores (s : string) : string :=
  match s with
  | EmptyString => EmptyString
  | String c rest =>
      if code c =? 95 then drop_underscores rest else String c (drop_underscores rest)
  end.

Definition lower (c : ascii) : ascii :=
  if (65 <=? code c) && (code c <=? 90)
  then ascii_of_nat (nat_of_ascii c + 32)
  else c.

Fixpoint lower_str (s : string) : string :=
  match s with
  | EmptyString => EmptyString
  | String c rest => String (lower c) (lower_str rest)
  end.

(** A run of digits: its value after [acc], how many there are, the rest. *)
Fixpoint read_digits (s : string) (acc : Z) (n : Z) : Z * Z * string :=
  match s with
  | String c rest =>
      if is_digit c then read_digits rest (10 * acc + digit c) (n + 1)
      else (acc, n, s)
  | EmptyString => (acc, n, s)
  end.

(** An optional sign: [true] for ["-"]. *)
Definition read_sign (s : string) : bool * string :=
  match s with
  | String c rest =>
      if code c =? 45 then (true, rest)
      else if code c =? 43 then (false, rest)
      else (false, s)
  | EmptyString => (false, s)
  end.

(** The binary64 float nearest to [(-1)^neg * m * 10^e] (ties to even). *)
Definition float_of_decimal (neg : bool) (m e : Z) : float :=
  if m =? 0 then (if neg then (-0)%float else 0%float)
  else if 0 <=? e then
    SF2Prim (binary_normalize prec emax ((if neg then - m else m) * 10 ^ e) 0 false)
  else
    let '(q, e', l) := SFdiv_core_binary prec emax m 0 (10 ^ (- e)) 0 in
    SF2Prim (binary_round_aux prec emax neg q e' l).

(** The exponent part, after the mantissa: nothing, or [e], a sign and at
    least one digit, up to the end of the text. *)
Definition read_exponent (s : string) : option Z :=
  match s with
  | EmptyString => Some 0
  | String c rest =>
      if code (lower c) =? 101 then
        let '(neg, s1) := read_sign rest in
        match read_digits s1 0 0 with
        | (v, n, EmptyString) =>
            if 0 <? n then Some (if neg then - v else v) else None
        | _ => None
        end
      else None
  end.

(** [float(s)] on ASCII text: surrounding white space, a sign, then [inf],
    [infinity], [nan] (in any case) or a decimal literal with an optional
    fraction and exponent; [None] is the [ValueError]. *)
Definition py_float_of_string (s : string) : option float :=
  let s0 := strip s in
  if underscores_ok false s0 then
    let '(neg, s1) := read_sign (drop_underscores s0) in
    let word := lower_str s1 in
    if String.eqb word "inf" || String.eqb word "infinity"
    then Some (if neg then neg_infinity else infinity)
    else if String.eqb word "nan" then Some nan
    else
      let '(i, ni, s2) := read_digits s1 0 0 in
      let '(m, nf, s3) :=
        match s2 with
        | String c rest => if code c =? 46 then read_digits rest i 0 else (i, 0, s2)
        | EmptyString => (i, 0, s2)
        end in
      if 0 <? ni + nf then
        match read_exponent s3 with
        | Some x => Some (float_of_decimal neg m (x - nf))
        | None => None
        end
      else None
  else None.

(** The integer that a text parameter denotes for an integer key: an
    optional sign and decimal digits. *)
Definition py_key_of_text (s : string) : option Z :=
  let '(neg, s1) := read_sign s in
  match read_digits s1 0 0 with
  | (v, n, EmptyString) => if 0 <? n then Some (if neg then - v else v) else None
  | _ => None
  end.

(** The environment of a request handled on [d]. *)
Definition py (d : date) : PyEnv :=
  mkEnv py_float_of_string py_strptime_Ym py_strptime_Ymd d py_key_of_text sql_sum.

(* ===================================================================== *)
(** ** The vocabulary of the specification *)
(* ===================================================================== *)

(** The order of dates, as a relation. *)
Definition date_lt (a b : date) : Prop :=
  year a < year b \/
  (year a = year b /\ (month a < month b \/ (month a = month b /\ day a < day b))).

Definition date_le (a b : date) : Prop := date_lt a b \/ a = b.

Definition flt (a b : float) : Prop := PrimFloat.ltb a b = true.
Definition fle (a b : float) : Prop := PrimFloat.leb a b = true.

(** Python's [0.1]. *)
Definition tenth : float := 0x1.999999999999ap-4%float.

(** How [create_expense] reports a status for a category. *)
Definition alert_for (c : Category.t) (remaining : float) (st : Status) : list Flash :=
  match st with
  | exceeded => [(MsgBudgetExceeded (Category.name c) (PrimFloat.abs remaining), warning)]
  | near_limit => [(MsgNearLimit (Category.name c) remaining, info)]
  | ok => []
  end.


(** The expenses that MonthlySpend counts, in the words of the
    specification: those of the user, of the category when one is given,
    dated in [[m, hi)]. *)
Definition counted (user_id : Z) (category_id : option Z) (m hi : date)
    (e : Expense.t) : Prop :=
  Expense.user_id e = user_id /\
  (forall c, category_id = Some c -> Expense.category_id e = c) /\
  date_le m (Expense.date e) /\ date_lt (Expense.date e) hi.

(** Two floats that denote the same number: they are equal, or both are a
    zero (of either sign). *)
Definition same_number (a b : float) : Prop :=
  a = b \/ (PrimFloat.eqb a 0 = true /\ PrimFloat.eqb b 0 = true).

(** At most one budget for each (user, category, month). *)
Definition budgets_for (bs : list Budget.t) (user_id category_id : Z) (m : date)
  : list Budget.t :=
  filter (budget_matches user_id category_id m) bs.

Definition unique_budgets (bs : list Budget.t) : Prop :=
  forall user_id category_id m,
    (List.length (budgets_for bs user_id category_id m) <= 1)%nat.

(** The primary key of the budgets. *)
Definition budget_keys_unique (bs : list Budget.t) : Prop :=
  NoDup (map Budget.id bs).

(** A sequence of upserts, each for a user, a category, a month and an
    amount. *)
Definition upsert_all (ops : list (Z * Z * date * float)) (bs : list Budget.t)
  : list Budget.t :=
  fold_left (fun acc op =>
               match op with
               | (u, c, m, a) => upsert_budget acc u c m a
               end) ops bs.

(** The rows of each table that a user owns. *)
Definition expenses_of (s : Store) (user_id : Z) : list Expense.t :=
  filter (fun e => Expense.user_id e =? user_id) (expenses s).

Definition budgets_of (s : Store) (user_id : Z) : list Budget.t :=
  filter (fun b => Budget.user_id b =? user_id) (budgets s).

(** The fields of the expense form. *)
Definition amount_field (req : Request) : string :=
  strip (or_empty (form_get (form req) "amount"%string)).

Definition date_field (req : Request) : string :=
  or_empty (form_get (form req) "date"%string).

Definition description_field (req : Request) : option string :=
  let d := strip (or_empty (form_get (form req) "description"%string)) in
  if nonempty d then Some d else None.

(** The expense that [create_expense] builds from a valid form. *)
Definition new_expense (s : Store) (user_id : Z) (c : Category.t) (a : float)
    (d : date) (req : Request) : Expense.t :=
  Expense.mk (next_id Expense.id (expenses s)) user_id (Category.id c) d a
             (description_field req).

(** [not_older a b]: the date of [a] is the date of [b] or a later one. *)
Definition not_older (a b : Expense.t) : Prop :=
  date_le (Expense.date b) (Expense.date a).

(** The request without its query string. *)
Definition without_args (req : Request) : Request :=
  mkRequest (method req) [] (form req).

(** The budgets form a table: one budget at most per triple, and a primary
    key. *)
Definition table_ok (bs : list Budget.t) : Prop :=
  unique_budgets bs /\ budget_keys_unique bs.

(** The user and the category have exactly one budget for [m], of amount
    [a]. *)
Definition holds_amount (user_id category_id : Z) (m : date) (a : float)
    (bs : list Budget.t) : Prop :=
  exists b, budgets_for bs user_id category_id m = [b] /\ Budget.amount b = a.

(* ===================================================================== *)
(** ** Sample data *)
(* ===================================================================== *)

Definition alice : User.t := User.mk 1 "Alice" None.
Definition bob : User.t := User.mk 2 "Bob" (Some "bob@example.org"%string).

Definition food : Category.t := Category.mk 1 "Food" 1.
Definition travel : Category.t := Category.mk 2 "Travel" 1.
Definition books : Category.t := Category.mk 3 "Books" 2.

Definition march : date := mkDate 2024 3 1.
Definition april : date := mkDate 2024 4 1.

Definition sample_store : Store :=
  mkStore
    [alice; bob]
    [food; travel; books]
    [ Budget.mk 1 1 1 march 100;
      Budget.mk 2 2 3 march 50 ]
    [ Expense.mk 1 1 1 (mkDate 2024 3 5) 40 None;
      Expense.mk 2 1 1 (mkDate 2024 3 31) 55 (Some "dinner"%string);
      Expense.mk 3 1 2 (mkDate 2024 3 10) 12.5 None;
      Expense.mk 4 1 1 (mkDate 2024 4 1) 7 None;
      Expense.mk 5 2 3 (mkDate 2024 3 7) 20 None ].

(** Requests are handled on 15 June 2024. *)
Definition env0 : PyEnv := py (mkDate 2024 6 15).

(** A budget form for March 2024: 120 for Food, a negative amount for
    Travel. *)
Definition budget_request : Request :=
  mkRequest POST []
    [ ("month", "2024-03"); ("budget_1", "120"); ("budget_2", "-5") ]%string.

(** An expense form: category, amount and date as submitted. *)
Definition expense_request (category_id amount d : string) : Request :=
  mkRequest POST []
    [ ("category_id"%string, category_id); ("amount"%string, amount);
      ("date"%string, d); ("description"%string, "lunch"%string) ].

(** Alice records 30 on Travel, a category without a budget, in March. *)
Definition travel_outcome : Outcome :=
  create_expense env0 sample_store 1 (expense_request "2" "30" "2024-03-12").

(** Alice records 10 on Food, whose March budget is 100. *)
Definition food_outcome : Outcome :=
  create_expense env0 sample_store 1 (expense_request "1" "10" "2024-03-12").

(** Alice submits the amount [nan]. *)
Definition nan_outcome : Outcome :=
  create_expense env0 sample_store 1 (expense_request "1" "nan" "2024-03-12").

(** Sixty expenses of Alice, one a day from 1 January 2024 on (days 1 to 28
    of January, February and March). *)
Definition sixty_expenses : list Expense.t :=
  map (fun i => Expense.mk (Z.of_nat i + 1) 1 1
                  (mkDate 2024 (1 + Z.of_nat i / 28) (1 + Z.of_nat i mod 28)) 1 None)
      (seq 0 60).

Definition busy_store : Store := mkStore [alice] [food] [] sixty_expenses.

(** A report asked for a month that is no month. *)
Definition bad_month_request : Request :=
  mkRequest GET [("month", "2024-13")]%string [].

(* ===================================================================== *)
(** ** [index], [create_user], [dashboard] and [manage_categories] *)
(* ===================================================================== *)

(** The messages, targets and pages of the handlers of users and
    categories. *)
Inductive AccountMessage : Type :=
| MsgNameRequired          (* "Name is required." *)
| MsgUserCreated           (* "User created." *)
| MsgCategoryNameRequired  (* "Category name is required." *)
| MsgCategoryExists        (* "Category with this name already exists." *)
| MsgCategoryCreated.      (* "Category created." *)

Inductive AccountEndpoint : Type :=
| to_home                               (* url_for("index") *)
| to_create_user                        (* url_for("create_user") *)
| to_manage_categories (user_id : Z).   (* url_for("manage_categories", user_id=...) *)

Inductive AccountPage : Type :=
| index_html (users : list User.t)
| create_user_html
| dashboard_html (user : User.t)
| categories_html (user : User.t) (categories : list Category.t).

Inductive AccountResponse : Type :=
| AccountRedirect (target : AccountEndpoint)
| AccountRender (page : AccountPage)
| AccountNotFound       (* abort(404) of get_or_404 *)
| AccountError.         (* an exception that no handler catches *)

Record AccountOutcome : Type := mkAccount {
  account_response : AccountResponse;
  account_flashes : list (AccountMessage * Severity);
  account_store : Store
}.

(** [index]: [User.query.all()] *)
Definition index (s : Store) : AccountOutcome :=
  mkAccount (AccountRender (index_html (users s))) [] s.

(** The [unique=True] of [User.email]: a user already has this address.
    Absent addresses (NULL) never collide. *)
Definition email_taken (s : Store) (e : string) : bool :=
  existsb (fun u => match User.email u with
                    | Some e' => String.eqb e' e
                    | None => false
                    end) (users s).

Definition add_user (s : Store) (u : User.t) : Store :=
  mkStore (users s ++ [u]) (categories s) (budgets s) (expenses s).

(** [create_user]. The commit of a user whose address is taken raises
    [IntegrityError], which nothing catches. *)
Definition create_user (s : Store) (req : Request) : AccountOutcome :=
  match method req with
  | POST =>
      let name := strip (or_empty (form_get (form req) "name"%string)) in
      let email := strip (or_empty (form_get (form req) "email"%string)) in
      if nonempty name then
        let user := User.mk (next_id User.id (users s)) name
                            (if nonempty email then Some email else None) in
        if match User.email user with
           | Some e => email_taken s e
           | None => false
           end
        then mkAccount AccountError [] s
        else mkAccount (AccountRedirect to_home) [(MsgUserCreated, success)]
                       (add_user s user)
      else mkAccount (AccountRedirect to_create_user) [(MsgNameRequired, error)] s
  | GET => mkAccount (AccountRender create_user_html) [] s
  end.

(** [dashboard] *)
Definition dashboard (s : Store) (user_id : Z) : AccountOutcome :=
  match get_or_404 s user_id with
  | Overflow => mkAccount AccountError [] s
  | Missing => mkAccount AccountNotFound [] s
  | Found user => mkAccount (AccountRender (dashboard_html user)) [] s
  end.

(** [Category.query.filter_by(user_id=..., name=...).first()] *)
Definition find_category_named (s : Store) (user_id : Z) (name : string)
  : option Category.t :=
  find (fun c => (Category.user_id c =? user_id) && String.eqb (Category.name c) name)
       (categories s).

Definition add_category (s : Store) (c : Category.t) : Store :=
  mkStore (users s) (categories s ++ [c]) (budgets s) (expenses s).

(** [manage_categories] *)
Definition manage_categories (s : Store) (user_id : Z) (req : Request)
  : AccountOutcome :=
  match get_or_404 s user_id with
  | Overflow => mkAccount AccountError [] s
  | Missing => mkAccount AccountNotFound [] s
  | Found user =>
      match method req with
      | POST =>
          let name := strip (or_empty (form_get (form req) "name"%string)) in
          let back := AccountRedirect (to_manage_categories (User.id user)) in
          if nonempty name then
            match find_category_named s (User.id user) name with
            | Some existing => mkAccount back [(MsgCategoryExists, error)] s
            | None =>
                mkAccount back [(MsgCategoryCreated, success)]
                  (add_category s
                     (Category.mk (next_id Category.id (categories s)) name
                                  (User.id user)))
            end
          else mkAccount back [(MsgCategoryNameRequired, error)] s
      | GET =>
          mkAccount (AccountRender (categories_html user (categories_of s (User.id user))))
                    [] s
      end
  end.

(* ===================================================================== *)
(** ** The routes together *)
(* ===================================================================== *)

(** A request to one of the nine routes of [register_routes]. *)
Inductive Call : Type :=
| call_index
| call_create_user (req : Request)
| call_dashboard (user_id : Z)
| call_delete_user (user_id : Z)
| call_manage_categories (user_id : Z) (req : Request)
| call_manage_budgets (user_id : Z) (req : Request)
| call_create_expense (user_id : Z) (req : Request)
| call_list_expenses (user_id : Z)
| call_monthly_report (user_id : Z) (req : Request).

(** The store that a request leaves, handled in the environment [env]. *)
Definition handle (env : PyEnv) (s : Store) (c : Call) : Store :=
  match c with
  | call_index => account_store (index s)
  | call_create_user req => account_store (create_user s req)
  | call_dashboard u => account_store (dashboard s u)
  | call_delete_user u => store (delete_user s u)
  | call_manage_categories u req => account_store (manage_categories s u req)
  | call_manage_budgets u req => store (manage_budgets env s u req)
  | call_create_expense u req => store (create_expense env s u req)
  | call_list_expenses u => store (list_expenses s u)
  | call_monthly_report u req => store (monthly_report env s u req)
  end.

(** The database that [db.create_all()] makes. *)
Definition empty_store : Store := mkStore [] [] [] [].

(** A history of requests, each with the environment of its day. *)
Definition handle_all (s : Store) (calls : list (PyEnv * Call)) : Store :=
  fold_left (fun acc ec => handle (fst ec) acc (snd ec)) calls s.

(* ===================================================================== *)
(** ** What the routes do to the store, and what they keep *)
(* ===================================================================== *)

(** The store after [delete_user] has found the user. *)
Definition without_user (s : Store) (user_id : Z) : Store :=
  mkStore (filter (fun x => negb (User.id x =? user_id)) (users s))
          (filter (fun c => negb (Category.user_id c =? user_id)) (categories s))
          (filter (fun b => negb (Budget.user_id b =? user_id)) (budgets s))
          (filter (fun e => negb (Expense.user_id e =? user_id)) (expenses s)).

(** [writes env s s']: the change of the store that one request can make. *)
Inductive writes (env : PyEnv) (s : Store) : Store -> Prop :=
| writes_nothing : writes env s s
| writes_user (u : User.t) :
    User.id u = next_id User.id (users s) ->
    nonempty (User.name u) = true ->
    (forall e, User.email u = Some e -> email_taken s e = false) ->
    writes env s (add_user s u)
| writes_category (user : User.t) (c : Category.t) :
    In user (users s) ->
    Category.id c = next_id Category.id (categories s) ->
    Category.user_id c = User.id user ->
    nonempty (Category.name c) = true ->
    find_category_named s (User.id user) (Category.name c) = None ->
    writes env s (add_category s c)
| writes_budgets (user : User.t) (f : Form) (month_str : string) (m : date) :
    In user (users s) ->
    strptime_Ym env month_str = Some m ->
    writes env s
      (with_budgets s
         (fst (fold_left (budget_step env f (User.id user) m)
                         (categories_of s (User.id user)) (budgets s, []))))
| writes_expense (user : User.t) (c : Category.t) (e : Expense.t) (date_str : string) :
    In user (users s) ->
    In c (categories s) ->
    Category.user_id c = User.id user ->
    Expense.id e = next_id Expense.id (expenses s) ->
    Expense.user_id e = User.id user ->
    Expense.category_id e = Category.id c ->
    strptime_Ymd env date_str = Some (Expense.date e) ->
    PrimFloat.leb (Expense.amount e) 0 = false ->
    writes env s (add_expense s e)
| writes_deletion (user : User.t) :
    In user (users s) ->
    writes env s (without_user s (User.id user)).

(** The requests that only read. *)
Definition reads_only (c : Call) : bool :=
  match c with
  | call_index | call_dashboard _ | call_list_expenses _ | call_monthly_report _ _ => true
  | call_create_user req | call_manage_categories _ req
  | call_manage_budgets _ req | call_create_expense _ req =>
      match method req with GET => true | POST => false end
  | call_delete_user _ => false
  end.

(** Primary keys: no two rows of a table share their [id]. *)
Definition keys_unique (s : Store) : Prop :=
  NoDup (map User.id (users s)) /\
  NoDup (map Category.id (categories s)) /\
  NoDup (map Budget.id (budgets s)) /\
  NoDup (map Expense.id (expenses s)).

(** Foreign keys: the owner of a category is a user; the category of a
    budget or of an expense is a category of the same user. *)
Definition owner_exists (s : Store) (c : Category.t) : Prop :=
  exists u, In u (users s) /\ User.id u = Category.user_id c.

Definition category_of_owner (s : Store) (user_id category_id : Z) : Prop :=
  exists c, In c (categories s) /\ Category.id c = category_id /\
            Category.user_id c = user_id.

Definition references_ok (s : Store) : Prop :=
  (forall c, In c (categories s) -> owner_exists s c) /\
  (forall b, In b (budgets s) ->
     category_of_owner s (Budget.user_id b) (Budget.category_id b)) /\
  (forall e, In e (expenses s) ->
     category_of_owner s (Expense.user_id e) (Expense.category_id e)).

(** No user has two categories of one name. *)
Definition names_unique (s : Store) : Prop :=
  NoDup (map (fun c => (Category.user_id c, Category.name c)) (categories s)).

(** The addresses that are present are all different. *)
Definition emails_of (us : list User.t) : list string :=
  flat_map (fun u => match User.email u with Some e => [e] | None => [] end) us.

Definition emails_unique (s : Store) : Prop := NoDup (emails_of (users s)).

(** What the validations let through: names that are not empty, expenses
    whose amount is not [<= 0], budgets whose amount is not [< 0]. *)
Definition validated (s : Store) : Prop :=
  Forall (fun u => nonempty (User.name u) = true) (users s) /\
  Forall (fun c => nonempty (Category.name c) = true) (categories s) /\
  Forall (fun b => PrimFloat.ltb (Budget.amount b) 0 = false) (budgets s) /\
  Forall (fun e => PrimFloat.leb (Expense.amount e) 0 = false) (expenses s).

(** "The month field always stores the first day of the month"
    (models.py). *)
Definition months_normal (s : Store) : Prop :=
  Forall (fun b => day (Budget.month b) = 1) (budgets s).

(** An environment whose [strptime] gives real dates, and for ["%Y-%m"]
    their first day, as Python's does. *)
Definition strptime_sound (env : PyEnv) : Prop :=
  (forall str d, strptime_Ym env str = Some d -> valid_date d = true /\ day d = 1) /\
  (forall str d, strptime_Ymd env str = Some d -> valid_date d = true).

(** A history from the empty database: Alice signs up, makes the category
    Food, budgets 100 for it in March 2024 and records an expense of 40. *)
Definition sample_history : list (PyEnv * Call) :=
  [ (env0, call_create_user
             (mkRequest POST [] [("name", " Alice "); ("email", "")]%string));
    (env0, call_manage_categories 1 (mkRequest POST [] [("name", "Food")]%string));
    (env0, call_manage_budgets 1
             (mkRequest POST [] [("month", "2024-03"); ("budget_1", "100")]%string));
    (env0, call_create_expense 1 (expense_request "1" "40" "2024-03-05")) ].

(** The items that the budgets page gets for a user and a month: one per
    budget of the user for that month, under the key of its category. *)
Definition month_budgets (s : Store) (user_id : Z) (m : date) : list (Z * Budget.t) :=
  map (fun b => (Budget.category_id b, b))
      (filter (fun b => (Budget.user_id b =? user_id) && date_eqb (Budget.month b) m)
              (budgets s)).

(** The budgets page of the month that the form redirects to. *)
Definition budgets_page_request (month_str : string) : Request :=
  mkRequest GET [("month"%string, month_str)] [].

(** The fields of the forms of users and categories. *)
Definition name_field (req : Request) : string :=
  strip (or_empty (form_get (form req) "name"%string)).

Definition email_field (req : Request) : option string :=
  let e := strip (or_empty (form_get (form req) "email"%string)) in
  if nonempty e then Some e else None.

(** Carol signs up, and makes a category Food of her own. *)
Definition carol_request : Request :=
  mkRequest POST [] [("name", "Carol"); ("email", " carol@example.org ")]%string.

Definition food_request : Request := mkRequest POST [] [("name", " Food ")]%string.

(** The no-break space (U+00A0) and the ideographic space (U+3000), in
    UTF-8. *)
Definition no_break_space : string :=
  String (ascii_of_nat 194) (String (ascii_of_nat 160) EmptyString).

Definition ideographic_space : string :=
  String (ascii_of_nat 227) (String (ascii_of_nat 128)
    (String (ascii_of_nat 128) EmptyString)).

(** The last month of the calendar. *)
Definition last_month (d : date) : Prop := year d = MAXYEAR /\ month d = 12.

(** The user that the URL of a request names. *)
Definition call_user (c : Call) : option Z :=
  match c with
  | call_index | call_create_user _ => None
  | call_dashboard u | call_delete_user u | call_manage_categories u _
  | call_manage_budgets u _ | call_create_expense u _ | call_list_expenses u
  | call_monthly_report u _ => Some u
  end.

(** A budget for December 9999, and an expense of that month. *)
Definition last_store : Store :=
  mkStore [alice] [food] [Budget.mk 1 1 1 (mkDate 9999 12 1) 100] [].

Definition last_request : Request := expense_request "1" "5" "9999-12-24".

(** Two stores in which a user is the same, with the same categories,
    budgets and expenses. *)
Definition same_for (user_id : Z) (s s' : Store) : Prop :=
  get_user s' user_id = get_user s user_id /\
  categories_of s' user_id = categories_of s user_id /\
  budgets_of s' user_id = budgets_of s user_id /\
  expenses_of s' user_id = expenses_of s user_id.

(* ===================================================================== *)
(** ** Floats as numbers *)
(* ===================================================================== *)








(** A budget form with 120 for Food and [nan] for Travel. *)
Definition nan_budget_request : Request :=
  mkRequest POST []
    [ ("month", "2024-03"); ("budget_1", "120"); ("budget_2", "nan") ]%string.


(* ===================================================================== *)
(** * Properties *)
(* ===================================================================== *)

(** ** The concrete built-ins on sample texts *)

Example py_float_samples :
  py_float_of_string "0.01" = Some 0x1.47ae147ae147bp-7%float /\
  py_float_of_string " 12.50 " = Some 12.5%float /\
  py_float_of_string "1e3" = Some 1000%float /\
  py_float_of_string "1_000.5" = Some 1000.5%float /\
  py_float_of_string "-0" = Some (-0)%float /\
  py_float_of_string "0.1" = Some 0x1.999999999999ap-4%float /\
  py_float_of_string "1e400" = Some infinity /\
  py_float_of_string "-Infinity" = Some neg_infinity /\
  py_float_of_string "nan" = Some nan /\
  py_float_of_string "abc" = None /\
  py_float_of_string EmptyString = None /\
  py_float_of_string "1_" = None /\
  py_float_of_string "." = None /\
  py_float_of_string "1e" = None.
Proof. vm_compute. repeat split. Qed.

Example strptime_samples :
  py_strptime_Ym "2024-02" = Some (mkDate 2024 2 1) /\
  py_strptime_Ym "2024-2" = Some (mkDate 2024 2 1) /\
  py_strptime_Ym "2024-13" = None /\
  py_strptime_Ym "24-02" = None /\
  py_strptime_Ym "0000-02" = None /\
  py_strptime_Ym "2024-02-01" = None /\
  py_strptime_Ymd "2024-02-29" = Some (mkDate 2024 2 29) /\
  py_strptime_Ymd "2023-02-29" = None /\
  py_strptime_Ymd "2024-1-5" = Some (mkDate 2024 1 5) /\
  py_strptime_Ymd EmptyString = None.
Proof. vm_compute. repeat split. Qed.

(** ** Dates *)

Lemma days_in_month_ge_28 (y m : Z) : 28 <= days_in_month y m.
Proof.
  unfold days_in_month.
  destruct (m =? 2); [destruct (is_leap y); lia|].
  destruct ((m =? 4) || (m =? 6) || (m =? 9) || (m =? 11)); lia.
Qed.

Lemma valid_ymd_iff (y m d : Z) :
  valid_ymd y m d = true <->
  MINYEAR <= y <= MAXYEAR /\ 1 <= m <= 12 /\ 1 <= d <= days_in_month y m.
Proof.
  unfold valid_ymd. rewrite !andb_true_iff, !Z.leb_le. lia.
Qed.

Lemma date_new_first (y m : Z) :
  MINYEAR <= y <= MAXYEAR -> 1 <= m <= 12 ->
  date_new y m 1 = Some (mkDate y m 1).
Proof.
  intros Hy Hm. unfold date_new.
  assert (H : valid_ymd y m 1 = true).
  { apply valid_ymd_iff. pose proof (days_in_month_ge_28 y m). lia. }
  now rewrite H.
Qed.

Lemma date_new_valid (y m d : Z) (x : date) :
  date_new y m d = Some x -> x = mkDate y m d /\ valid_date x = true.
Proof.
  unfold date_new. destruct (valid_ymd y m d) eqn:E; [|discriminate].
  intros [= <-]. split; [reflexivity | exact E].
Qed.

(** [d.replace(day=1)] does not raise on a valid date. *)
Lemma replace_day1_valid (d : date) :
  valid_date d = true ->
  date_new (year d) (month d) 1 = Some (replace_day1 d) /\
  valid_date (replace_day1 d) = true.
Proof.
  unfold valid_date. intros H. apply valid_ymd_iff in H.
  assert (E : date_new (year d) (month d) 1 = Some (replace_day1 d))
    by (apply date_new_first; lia).
  split; [exact E|]. now apply date_new_valid in E.
Qed.

Lemma next_month_within_year (y m d : Z) :
  MINYEAR <= y <= MAXYEAR -> 1 <= m < 12 ->
  _next_month (mkDate y m d) = Some (mkDate y (m + 1) 1).
Proof.
  intros Hy Hm. unfold _next_month. simpl.
  replace (m =? 12) with false by (symmetry; apply Z.eqb_neq; lia).
  apply date_new_first; lia.
Qed.

Lemma next_month_december (y d : Z) :
  MINYEAR <= y + 1 <= MAXYEAR ->
  _next_month (mkDate y 12 d) = Some (mkDate (y + 1) 1 1).
Proof.
  intros Hy. unfold _next_month. simpl. apply date_new_first; lia.
Qed.

(** [k] steps from month [m] of year [y] that stay inside the year. *)
Lemma next_month_iter_within_year (k : nat) : forall (y m d : Z),
  MINYEAR <= y <= MAXYEAR -> 1 <= m -> m + Z.of_nat k <= 12 ->
  (k <> O -> next_month_iter k (mkDate y m d) = Some (mkDate y (m + Z.of_nat k) 1)).
Proof.
  induction k as [|k IH]; intros y m d Hy Hm Hk Hnz; [congruence|].
  cbn [next_month_iter]. rewrite next_month_within_year by lia.
  destruct k as [|k'].
  - reflexivity.
  - rewrite IH by (try lia; congruence). f_equal. f_equal. lia.
Qed.

Lemma next_month_iter_add (a b : nat) : forall d,
  next_month_iter (a + b) d =
  match next_month_iter a d with
  | Some d' => next_month_iter b d'
  | None => None
  end.
Proof.
  induction a as [|a IH]; intros d; [reflexivity|].
  cbn [Nat.add next_month_iter]. destruct (_next_month d); [apply IH | reflexivity].
Qed.

Lemma next_month_iter_to_month (k : nat) (y m d : Z) :
  MINYEAR <= y <= MAXYEAR -> 1 <= m -> m + Z.of_nat k <= 12 -> d = 1 ->
  next_month_iter k (mkDate y m d) = Some (mkDate y (m + Z.of_nat k) 1).
Proof.
  intros Hy Hm Hk ->. destruct k as [|k].
  - cbn. do 2 f_equal. lia.
  - apply next_month_iter_within_year; [lia | lia | lia | congruence].
Qed.

(** C3 (as amended): for a month [m] (the first day of a calendar month)
    whose following year is still a year of the calendar
    ([year m < MAXYEAR = 9999]), twelve applications of [_next_month] give
    [m] one year later; and when [m] is a December, [_next_month m] is
    January 1 of the next year. *)
Theorem next_month_twelve_times (m : date)
    (Hvalid : valid_date m = true) (Hfirst : day m = 1) (Hyear : year m < MAXYEAR) :
  next_month_iter 12 m = Some (shift_year m) /\
  (month m = 12 -> _next_month m = Some (mkDate (year m + 1) 1 1)).
Proof.
  destruct m as [y mo d]. unfold valid_date in Hvalid. cbn [year month day] in *.
  apply valid_ymd_iff in Hvalid. destruct Hvalid as (Hy & Hm & _).
  unfold MINYEAR, MAXYEAR in *. subst d. split.
  - unfold shift_year. cbn [year month day].
    replace 12%nat with (Z.to_nat (12 - mo) + (1 + Z.to_nat (mo - 1)))%nat by lia.
    rewrite next_month_iter_add.
    rewrite next_month_iter_to_month by (unfold MINYEAR, MAXYEAR; lia).
    replace (mo + Z.of_nat (Z.to_nat (12 - mo))) with 12 by lia.
    cbn [Nat.add next_month_iter].
    rewrite next_month_december by (unfold MINYEAR, MAXYEAR; lia).
    rewrite next_month_iter_to_month by (unfold MINYEAR, MAXYEAR; lia).
    do 2 f_equal. lia.
  - intros ->. apply next_month_december. unfold MINYEAR, MAXYEAR. lia.
Qed.

Lemma next_month_twelve_times_witness :
  next_month_iter 12 (mkDate 2024 12 1) = Some (mkDate 2025 12 1) /\
  _next_month (mkDate 2024 12 1) = Some (mkDate 2025 1 1).
Proof.
  destruct (next_month_twelve_times (mkDate 2024 12 1)) as [H1 H2];
    [reflexivity | reflexivity | reflexivity |].
  split; [exact H1 | exact (H2 eq_refl)].
Defined.

(** C3 as stated fails in the last year of the calendar: [date(10000, 1, 1)]
    raises [ValueError], so [_next_month] of December 9999 is not January
    10000, and twelve applications from any month of 9999 raise as well. *)
Lemma next_month_december_9999 :
  valid_date (mkDate 9999 12 1) = true /\
  _next_month (mkDate 9999 12 1) = None /\
  _next_month (mkDate 9999 12 1) <> Some (mkDate (9999 + 1) 1 1) /\
  valid_date (mkDate 9999 3 1) = true /\
  next_month_iter 12 (mkDate 9999 3 1) <> Some (shift_year (mkDate 9999 3 1)).
Proof. repeat split; try reflexivity; vm_compute; discriminate. Qed.

Lemma date_ltb_lt (a b : date) : date_ltb a b = true <-> date_lt a b.
Proof.
  unfold date_ltb, date_lt.
  rewrite !orb_true_iff, !andb_true_iff, !orb_true_iff, !andb_true_iff,
          !Z.ltb_lt, !Z.eqb_eq.
  tauto.
Qed.

Lemma date_eqb_eq (a b : date) : date_eqb a b = true <-> a = b.
Proof.
  unfold date_eqb. rewrite !andb_true_iff, !Z.eqb_eq.
  destruct a, b; cbn. split; [intros [[-> ->] ->]; reflexivity | intros [= -> -> ->]; auto].
Qed.

Lemma date_leb_le (a b : date) : date_leb a b = true <-> date_le a b.
Proof.
  unfold date_leb, date_le. now rewrite orb_true_iff, date_ltb_lt, date_eqb_eq.
Qed.

(** The days of a calendar month are the dates from its first day up to,
    and excluding, the first day that [_next_month] returns. *)
Lemma month_interval (m hi d : date) :
  valid_date m = true -> day m = 1 -> valid_date d = true ->
  _next_month m = Some hi ->
  (date_le m d /\ date_lt d hi <-> year d = year m /\ month d = month m).
Proof.
  intros Hm H1 Hd Hn. unfold valid_date in *.
  apply valid_ymd_iff in Hm. apply valid_ymd_iff in Hd.
  unfold _next_month in Hn.
  assert (Hback : year d = year m /\ month d = month m -> date_lt m d \/ m = d).
  { intros [Ey Em]. destruct (Z.eq_dec (day m) (day d)) as [Ed|Ed].
    - right. destruct m, d; cbn in *; congruence.
    - left. unfold date_lt. lia. }
  destruct (Z.eqb_spec (month m) 12) as [E|E];
    apply date_new_valid in Hn; destruct Hn as [-> _];
    unfold date_le; split.
  - intros [[H|H] H']; [|subst d]; unfold date_lt in *; cbn [year month day] in *; lia.
  - intros H. split; [auto|]. unfold date_lt; cbn [year month day]. lia.
  - intros [[H|H] H']; [|subst d]; unfold date_lt in *; cbn [year month day] in *; lia.
  - intros H. split; [auto|]. unfold date_lt; cbn [year month day]. lia.
Qed.

(** ** The store *)

(** The user that [get_or_404] returns is a user of the store, has the key
    asked for, and that key is one the store can hold. *)
Lemma get_user_lookup (s : Store) (user_id : Z) (u : User.t) :
  get_user s user_id = Some u -> get_or_404 s user_id = Found u.
Proof.
  unfold get_user. destruct (get_or_404 s user_id); congruence.
Qed.

Lemma get_user_find (s : Store) (user_id : Z) :
  user_id <= MAX_KEY ->
  get_user s user_id = find (fun u => User.id u =? user_id) (users s).
Proof.
  intros H. unfold get_user, get_or_404.
  replace (user_id <=? MAX_KEY) with true by (symmetry; now apply Z.leb_le).
  now destruct (find _ (users s)).
Qed.

Lemma get_user_fits (s : Store) (user_id : Z) (u : User.t) :
  get_user s user_id = Some u -> user_id <= MAX_KEY.
Proof.
  unfold get_user, get_or_404.
  destruct (Z.leb_spec user_id MAX_KEY); [auto | discriminate].
Qed.

Lemma get_user_found (s : Store) (user_id : Z) (u : User.t) :
  get_user s user_id = Some u ->
  find (fun x => User.id x =? user_id) (users s) = Some u.
Proof.
  intros H. rewrite <- get_user_find; [exact H | now apply get_user_fits in H].
Qed.

Lemma get_user_id (s : Store) (user_id : Z) (u : User.t) :
  get_user s user_id = Some u -> User.id u = user_id.
Proof.
  intros H. apply get_user_found, find_some in H. now apply Z.eqb_eq.
Qed.

(** Two stores that find the same user under a key answer alike. *)
Lemma get_user_same (s s' : Store) (k : Z) :
  (k <= MAX_KEY ->
   find (fun u => User.id u =? k) (users s') = find (fun u => User.id u =? k) (users s)) ->
  get_user s' k = get_user s k.
Proof.
  intros H. unfold get_user, get_or_404.
  destruct (Z.leb_spec k MAX_KEY); [now rewrite H | reflexivity].
Qed.

Lemma get_or_404_same (s s' : Store) (k : Z) :
  get_user s' k = get_user s k -> get_or_404 s' k = get_or_404 s k.
Proof.
  unfold get_user, get_or_404. destruct (k <=? MAX_KEY); [|reflexivity].
  destruct (find _ (users s')), (find _ (users s)); congruence.
Qed.

(** What [get_or_404] answers, in terms of [get_user]. *)
Lemma get_or_404_cases (s : Store) (user_id : Z) :
  (exists u, get_or_404 s user_id = Found u /\ get_user s user_id = Some u) \/
  (get_or_404 s user_id = Missing /\ get_user s user_id = None /\ user_id <= MAX_KEY) \/
  (get_or_404 s user_id = Overflow /\ get_user s user_id = None /\ MAX_KEY < user_id).
Proof.
  unfold get_user, get_or_404.
  destruct (Z.leb_spec user_id MAX_KEY).
  - destruct (find _ (users s)) as [u|]; [left; eauto | right; left; auto].
  - right. right. auto.
Qed.

Ltac lookup s u user Hu :=
  let L := fresh "Hlk" in
  destruct (get_or_404 s u) as [user| |] eqn:L;
  [ assert (Hu : get_user s u = Some user) by (unfold get_user; now rewrite L)
  | | ].

(** ** C1: the budget status *)

(** C1: with [remaining = budgetAmount - spent], the status is EXCEEDED
    when [remaining < 0]; otherwise NEAR_LIMIT when [budgetAmount > 0] and
    [remaining <= 0.1 * budgetAmount]; otherwise OK; a budget of zero with
    zero spent is OK. The alert of [create_expense] is the report of that
    same status. *)
Theorem BudgetStatus_cases (spent budgetAmount : float) :
  let remaining := PrimFloat.sub budgetAmount spent in
  (flt remaining 0 -> BudgetStatus spent budgetAmount = exceeded) /\
  (~ flt remaining 0 ->
   flt 0 budgetAmount /\ fle remaining (PrimFloat.mul tenth budgetAmount) ->
   BudgetStatus spent budgetAmount = near_limit) /\
  (~ flt remaining 0 ->
   ~ (flt 0 budgetAmount /\ fle remaining (PrimFloat.mul tenth budgetAmount)) ->
   BudgetStatus spent budgetAmount = ok) /\
  BudgetStatus 0 0 = ok /\
  (forall (c : Category.t) (b : Budget.t),
     Budget.amount b = budgetAmount ->
     budget_alert c b spent = alert_for c remaining (BudgetStatus spent budgetAmount)).
Proof.
  unfold flt, fle, tenth, BudgetStatus, budget_alert. cbv zeta.
  repeat split.
  - intros ->. reflexivity.
  - intros Hn [-> ->]. destruct (PrimFloat.ltb _ _); [contradiction | reflexivity].
  - intros Hn Hc. destruct (PrimFloat.ltb (PrimFloat.sub _ _) _); [contradiction|].
    destruct (PrimFloat.ltb 0 budgetAmount); [|reflexivity].
    destruct (PrimFloat.leb _ _); [exfalso; auto | reflexivity].
  - intros c b ->.
    destruct (PrimFloat.ltb (PrimFloat.sub _ _) _); [reflexivity|].
    destruct (PrimFloat.ltb 0 budgetAmount && PrimFloat.leb _ _); reflexivity.
Qed.

(** The examples of the specification, computed. *)
Example BudgetStatus_examples :
  BudgetStatus 120 100 = exceeded /\
  PrimFloat.abs (PrimFloat.sub 100 120) = 20%float /\
  BudgetStatus 95 100 = near_limit /\
  BudgetStatus 90 100 = near_limit /\
  BudgetStatus 50 100 = ok /\
  BudgetStatus 0 0 = ok /\
  BudgetStatus 5 0 = exceeded.
Proof. vm_compute. repeat split. Qed.

(** ** C2: the monthly spend *)

Lemma expense_matches_counted (user_id : Z) (category_id : option Z) (m hi : date)
    (e : Expense.t) :
  expense_matches user_id category_id m hi e = true <->
  counted user_id category_id m hi e.
Proof.
  unfold expense_matches, counted.
  rewrite !andb_true_iff, Z.eqb_eq, date_leb_le, date_ltb_lt.
  destruct category_id as [c|].
  - rewrite Z.eqb_eq. split.
    + intros [[[Hu Hc] Hl] Hh]. repeat split; auto. now intros c' [= <-].
    + intros (Hu & Hc & Hl & Hh). repeat split; auto.
  - split.
    + intros [[[Hu _] Hl] Hh]. repeat split; auto. discriminate.
    + intros (Hu & _ & Hl & Hh). repeat split; auto.
Qed.




Lemma next_month_none_iff (d : date) :
  valid_date d = true -> (_next_month d = None <-> last_month d).
Proof.
  intros Hv. unfold valid_date in Hv. apply valid_ymd_iff in Hv.
  destruct Hv as (Hy & Hm & _). unfold last_month, MINYEAR, MAXYEAR in *.
  unfold _next_month. destruct (Z.eqb_spec (month d) 12) as [E|E].
  - destruct (Z.eq_dec (year d) 9999) as [Ey|Ey].
    + rewrite Ey. cbn. tauto.
    + rewrite date_new_first by (unfold MINYEAR, MAXYEAR; lia).
      split; [discriminate | lia].
  - rewrite date_new_first by (unfold MINYEAR, MAXYEAR; lia).
    split; [discriminate | lia].
Qed.








Example MonthlySpend_samples :
  MonthlySpend env0 sample_store 1 (Some 1) march = Some 95%float /\
  MonthlySpend env0 sample_store 1 None march = Some 107.5%float /\
  MonthlySpend env0 sample_store 1 (Some 1) april = Some 7%float /\
  MonthlySpend env0 sample_store 1 (Some 2) april = Some 0%float /\
  MonthlySpend env0 sample_store 1 None (mkDate 9999 12 1) = None.
Proof. vm_compute. repeat split. Qed.

Lemma Forall2_map_row {A B : Type} (f : A -> B) (P : A -> B -> Prop) (l : list A) :
  (forall x, In x l -> P x (f x)) -> Forall2 P l (map f l).
Proof.
  induction l as [|x l IH]; intros H; cbn; constructor.
  - apply H. now left.
  - apply IH. intros y Hy. apply H. now right.
Qed.

(** The figures of [monthly_report] are these monthly spends: the total
    over all categories, and one per category of the user. *)
Lemma monthly_report_spends (env : PyEnv) (s : Store) (user_id : Z) (user : User.t)
    (req : Request) (hi : date) :
  get_user s user_id = Some user ->
  _next_month (month_param env (form_get (args req) "month")) = Some hi ->
  exists total rows,
    response (monthly_report env s user_id req)
    = Render (monthly_report_html user (month_param env (form_get (args req) "month"))
                                  total rows) /\
    MonthlySpend env s user_id None (month_param env (form_get (args req) "month"))
    = Some total /\
    map row_category rows = categories_of s user_id /\
    forall r, In r rows ->
      MonthlySpend env s user_id (Some (Category.id (row_category r)))
                   (month_param env (form_get (args req) "month"))
      = Some (row_spent r) /\
      row_status r = BudgetStatus (row_spent r) (row_budget r).
Proof.
  intros Huser Hhi. unfold monthly_report, MonthlySpend.
  rewrite (get_user_lookup _ _ _ Huser), Hhi, (get_user_id _ _ _ Huser). cbn [response].
  eexists _, _. split; [reflexivity|]. split; [reflexivity|]. split.
  - rewrite map_map. cbn [report_row row_category]. apply map_id.
  - intros r Hr. apply in_map_iff in Hr. destruct Hr as (c & <- & _).
    split; reflexivity.
Qed.

(** ** C4: one budget for each (user, category, month) *)

Lemma find_hd_filter {A : Type} (f : A -> bool) (l : list A) :
  find f l = hd_error (filter f l).
Proof.
  induction l as [|x l IH]; cbn; [reflexivity|]. now destruct (f x).
Qed.

Lemma filter_map_same {A : Type} (f : A -> bool) (g : A -> A) (l : list A) :
  (forall x, f (g x) = f x) -> filter f (map g l) = map g (filter f l).
Proof.
  intros H. induction l as [|x l IH]; cbn; [reflexivity|].
  rewrite H. destruct (f x); cbn; now rewrite IH.
Qed.

Lemma budget_matches_assign (user_id category_id : Z) (m : date) (b r : Budget.t)
    (a : float) :
  budget_matches user_id category_id m
    (if Budget.id r =? Budget.id b then set_amount r a else r)
  = budget_matches user_id category_id m r.
Proof. now destruct (Budget.id r =? Budget.id b). Qed.

Lemma budget_matches_new (u c u' c' : Z) (m m' : date) (i : Z) (a : float) :
  budget_matches u' c' m' (Budget.mk i u c m a) = true ->
  u = u' /\ c = c' /\ m = m'.
Proof.
  unfold budget_matches. cbn. rewrite !andb_true_iff, !Z.eqb_eq, date_eqb_eq. tauto.
Qed.

Lemma budget_matches_refl (u c : Z) (m : date) (i : Z) (a : float) :
  budget_matches u c m (Budget.mk i u c m a) = true.
Proof.
  unfold budget_matches. cbn. rewrite !Z.eqb_refl. cbn. now apply date_eqb_eq.
Qed.

(** The rows of any triple after an upsert: the same rows with, possibly,
    a new amount assigned, or one more row when the triple had none. *)
Lemma budgets_for_upsert (bs : list Budget.t) (u c : Z) (m : date) (a : float)
    (u' c' : Z) (m' : date) :
  (exists b, find_budget bs u c m = Some b /\
     budgets_for (upsert_budget bs u c m a) u' c' m'
     = map (fun r => if Budget.id r =? Budget.id b then set_amount r a else r)
           (budgets_for bs u' c' m')) \/
  (find_budget bs u c m = None /\
   budgets_for (upsert_budget bs u c m a) u' c' m'
   = budgets_for bs u' c' m' ++
     (if budget_matches u' c' m' (Budget.mk (next_id Budget.id bs) u c m a)
      then [Budget.mk (next_id Budget.id bs) u c m a] else [])).
Proof.
  unfold upsert_budget, budgets_for.
  destruct (find_budget bs u c m) as [b|] eqn:E.
  - left. exists b. split; [reflexivity|].
    apply filter_map_same. intros r. apply budget_matches_assign.
  - right. split; [reflexivity|]. rewrite filter_app. cbn.
    now destruct (budget_matches u' c' m' _).
Qed.

Lemma upsert_budget_unique (bs : list Budget.t) (u c : Z) (m : date) (a : float) :
  unique_budgets bs -> unique_budgets (upsert_budget bs u c m a).
Proof.
  intros Hu u' c' m'.
  destruct (budgets_for_upsert bs u c m a u' c' m') as [(b & _ & ->)|[Hnone ->]].
  - rewrite length_map. apply Hu.
  - rewrite length_app.
    destruct (budget_matches u' c' m' _) eqn:E; cbn.
    + apply budget_matches_new in E. destruct E as (<- & <- & <-).
      unfold find_budget in Hnone. rewrite find_hd_filter in Hnone.
      unfold budgets_for. destruct (filter _ bs); [cbn; lia | discriminate].
    + specialize (Hu u' c' m'). lia.
Qed.

(** After an upsert the triple has exactly one row, with the amount given. *)
Lemma upsert_budget_row (bs : list Budget.t) (u c : Z) (m : date) (a : float) :
  unique_budgets bs ->
  exists b, budgets_for (upsert_budget bs u c m a) u c m = [b] /\ Budget.amount b = a.
Proof.
  intros Hu.
  destruct (budgets_for_upsert bs u c m a u c m) as [(b & Hb & ->)|[Hnone ->]].
  - unfold find_budget in Hb. rewrite find_hd_filter in Hb.
    specialize (Hu u c m). unfold budgets_for in *.
    destruct (filter _ bs) as [|x [|y l]]; cbn in *; try discriminate; try lia.
    injection Hb as ->. rewrite Z.eqb_refl. eexists. split; reflexivity.
  - unfold find_budget in Hnone. rewrite find_hd_filter in Hnone.
    unfold budgets_for. rewrite budget_matches_refl.
    destruct (filter _ bs); [|discriminate]. eexists. split; reflexivity.
Qed.

Lemma upsert_all_unique (ops : list (Z * Z * date * float)) : forall bs,
  unique_budgets bs -> unique_budgets (upsert_all ops bs).
Proof.
  unfold upsert_all.
  induction ops as [|[[[u c] m] a] ops IH]; intros bs Hu; cbn; [exact Hu|].
  apply IH. now apply upsert_budget_unique.
Qed.

Lemma unique_budgets_nil : unique_budgets [].
Proof. intros u c m. cbn. lia. Qed.

(** C4: in a table with at most one budget per (user, category, month),
    two upserts for a triple, with whatever amounts, leave exactly one row
    for it, holding the second amount; and every sequence of upserts keeps
    the table with at most one budget per triple, as it is from the empty
    table on. *)
Theorem upsert_budget_twice (bs : list Budget.t) (u c : Z) (m : date) (a1 a2 : float)
    (Hunique : unique_budgets bs) :
  (exists b,
     budgets_for (upsert_budget (upsert_budget bs u c m a1) u c m a2) u c m = [b] /\
     Budget.amount b = a2) /\
  (forall ops, unique_budgets (upsert_all ops bs)) /\
  (forall ops, unique_budgets (upsert_all ops [])).
Proof.
  split; [|split].
  - apply upsert_budget_row. now apply upsert_budget_unique.
  - intros ops. now apply upsert_all_unique.
  - intros ops. apply upsert_all_unique, unique_budgets_nil.
Qed.

Lemma upsert_budget_twice_witness :
  unique_budgets (budgets sample_store) /\
  exists b,
    budgets_for
      (upsert_budget (upsert_budget (budgets sample_store) 1 1 march 120) 1 1 march 150)
      1 1 march = [b] /\
    Budget.amount b = 150%float.
Proof.
  assert (H : unique_budgets (budgets sample_store)).
  { change (budgets sample_store)
      with (upsert_all [(1, 1, march, 100%float); (2, 3, march, 50%float)] []).
    apply upsert_all_unique, unique_budgets_nil. }
  split; [exact H|].
  exact (proj1 (upsert_budget_twice (budgets sample_store) 1 1 march 120 150 H)).
Defined.

(** ** C8: the batch of [manage_budgets] *)

(** A float that is at least zero is not below zero. *)
Lemma fle_zero_not_below (a : float) : fle 0 a -> PrimFloat.ltb a 0 = false.
Proof.
  unfold fle. rewrite leb_spec, ltb_spec. unfold SFleb, SFltb.
  change (Prim2SF 0) with (S754_zero false).
  destruct (Prim2SF a) as [s|s| |s m e]; cbn; try reflexivity; try discriminate.
  - now destruct s.
  - now destruct s.
Qed.

Lemma next_id_above {A : Type} (id : A -> Z) (rows : list A) (x : A) :
  In x rows -> id x < next_id id rows.
Proof.
  unfold next_id. induction rows as [|y rows IH]; cbn [fold_right map In]; [tauto|].
  intros [->|H]; [lia | specialize (IH H); lia].
Qed.

Lemma upsert_budget_keys (bs : list Budget.t) (u c : Z) (m : date) (a : float) :
  budget_keys_unique bs -> budget_keys_unique (upsert_budget bs u c m a).
Proof.
  unfold budget_keys_unique, upsert_budget. intros H.
  destruct (find_budget bs u c m) as [b|].
  - rewrite map_map.
    replace (map _ bs) with (map Budget.id bs); [exact H|].
    apply map_ext. intros r. now destruct (Budget.id r =? Budget.id b).
  - rewrite map_app. cbn [map Budget.id].
    apply NoDup_app; [exact H | repeat constructor; cbn; tauto |].
    intros x Hx [<-|[]]. apply in_map_iff in Hx. destruct Hx as (r & Hr & Hin).
    apply (next_id_above Budget.id) in Hin. lia.
Qed.

Lemma NoDup_map_inj {A B : Type} (f : A -> B) (l : list A) (x y : A) :
  NoDup (map f l) -> In x l -> In y l -> f x = f y -> x = y.
Proof.
  induction l as [|z l IH]; cbn; [tauto|].
  intros Hnd Hx Hy E. inversion Hnd as [|? ? Hnotin Hnd']; subst.
  destruct Hx as [->|Hx], Hy as [->|Hy]; auto.
  - exfalso. apply Hnotin. rewrite E. now apply in_map.
  - exfalso. apply Hnotin. rewrite <- E. now apply in_map.
Qed.

(** An upsert for one category leaves the rows of another category alone. *)
Lemma upsert_budget_other (bs : list Budget.t) (u c k : Z) (m : date) (a : float) :
  budget_keys_unique bs -> c <> k ->
  budgets_for (upsert_budget bs u c m a) u k m = budgets_for bs u k m.
Proof.
  intros Hk Hck.
  destruct (budgets_for_upsert bs u c m a u k m) as [(b & Hb & ->)|[_ ->]].
  - rewrite <- (map_id (budgets_for bs u k m)) at 2.
    apply map_ext_in. intros r Hr.
    destruct (Z.eqb_spec (Budget.id r) (Budget.id b)) as [E|]; [|reflexivity].
    exfalso. unfold budgets_for in Hr. apply filter_In in Hr. destruct Hr as [Hin Hm].
    apply find_some in Hb. destruct Hb as [Hinb Hmb].
    assert (r = b) by (eapply NoDup_map_inj; eauto). subst r.
    unfold budget_matches in *.
    rewrite !andb_true_iff, !Z.eqb_eq in Hm, Hmb. lia.
  - destruct (budget_matches u k m _) eqn:E; [|apply app_nil_r].
    apply budget_matches_new in E. tauto.
Qed.

Section Batch.

Variables (env : PyEnv) (f : Form) (u : Z) (m : date).

Let step := budget_step env f u m.

Lemma stored_real_not_below (a : float) :
  PrimFloat.ltb a 0 = false -> PrimFloat.ltb (stored_real a) 0 = false.
Proof. unfold stored_real. now destruct (PrimFloat.eqb a 0). Qed.

(** What one iteration does to the budgets. *)
Lemma budget_step_budgets (acc : list Budget.t * list Flash) (c : Category.t) :
  fst (step acc c) = fst acc \/
  exists raw a,
    form_get f (budget_field c) = Some raw /\ py_float env raw = Some a /\
    PrimFloat.ltb a 0 = false /\
    fst (step acc c) = upsert_budget (fst acc) u (Category.id c) m (stored_real a).
Proof.
  unfold step, budget_step.
  destruct (form_get f (budget_field c)) as [raw|]; [|now left].
  destruct (nonempty (strip raw)); [|now left].
  destruct (py_float env raw) as [a|] eqn:Ea; [|now left].
  destruct (PrimFloat.ltb a 0) eqn:El; [now left|].
  right. exists raw, a. auto.
Qed.

Lemma budget_step_ok (acc : list Budget.t * list Flash) (c : Category.t) :
  table_ok (fst acc) -> table_ok (fst (step acc c)).
Proof.
  intros [Hu Hk].
  destruct (budget_step_budgets acc c) as [->|(raw & a & _ & _ & _ & ->)].
  - now split.
  - split; [now apply upsert_budget_unique | now apply upsert_budget_keys].
Qed.

Lemma budget_step_other (acc : list Budget.t * list Flash) (c : Category.t) (k : Z) :
  table_ok (fst acc) -> Category.id c <> k ->
  budgets_for (fst (step acc c)) u k m = budgets_for (fst acc) u k m.
Proof.
  intros [_ Hk] Hne.
  destruct (budget_step_budgets acc c) as [->|(raw & a & _ & _ & _ & ->)];
    [reflexivity | now apply upsert_budget_other].
Qed.

Lemma budget_field_id (c c' : Category.t) :
  Category.id c' = Category.id c -> budget_field c' = budget_field c.
Proof. unfold budget_field. now intros ->. Qed.

Lemma budget_step_flashes (acc : list Budget.t * list Flash) (c : Category.t) (x : Flash) :
  In x (snd acc) -> In x (snd (step acc c)).
Proof.
  unfold step, budget_step. intros H.
  destruct (form_get f (budget_field c)) as [raw|]; [|exact H].
  destruct (nonempty (strip raw)); [|exact H].
  destruct (py_float env raw) as [a|]; [destruct (PrimFloat.ltb a 0)|];
    cbn [snd]; auto; apply in_or_app; now left.
Qed.

Lemma batch_flashes (cats : list Category.t) : forall acc x,
  In x (snd acc) -> In x (snd (fold_left step cats acc)).
Proof.
  induction cats as [|c cats IH]; intros acc x H; cbn; [exact H|].
  apply IH. now apply budget_step_flashes.
Qed.

(** The loop raises once the session holds a NaN, and not otherwise. *)
Lemma budget_loop_unflushed (cats : list Category.t) : forall acc,
  exists flashed, budget_loop env f u m cats acc true = Raised flashed.
Proof.
  induction cats as [|c cats IH]; intros acc; cbn [budget_loop]; [eauto|].
  destruct (accepted_amount env f c); eauto.
Qed.

Lemma budget_loop_raised (cats : list Category.t) : forall acc,
  batch_raises env f cats = true ->
  exists flashed, budget_loop env f u m cats acc false = Raised flashed.
Proof.
  unfold batch_raises.
  induction cats as [|c cats IH]; intros acc H; cbn in H; [discriminate|].
  cbn [budget_loop]. unfold submits_nan in H.
  destruct (accepted_amount env f c) as [a|]; [|now apply IH].
  destruct (PrimFloat.is_nan a); [apply budget_loop_unflushed | now apply IH].
Qed.

Lemma budget_loop_saved (cats : list Category.t) : forall acc,
  batch_raises env f cats = false ->
  budget_loop env f u m cats acc false
  = Saved (fst (fold_left step cats acc)) (snd (fold_left step cats acc)).
Proof.
  unfold batch_raises.
  induction cats as [|c cats IH]; intros acc H; cbn in H; [reflexivity|].
  apply orb_false_iff in H. destruct H as [Hc H].
  cbn [budget_loop fold_left]. unfold submits_nan in Hc.
  destruct (accepted_amount env f c) as [a|]; [rewrite Hc|]; now apply IH.
Qed.

Lemma budget_loop_cases (cats : list Category.t) (acc : list Budget.t * list Flash) :
  (exists flashed, budget_loop env f u m cats acc false = Raised flashed) \/
  budget_loop env f u m cats acc false
  = Saved (fst (fold_left step cats acc)) (snd (fold_left step cats acc)).
Proof.
  destruct (batch_raises env f cats) eqn:Hr;
    [left; now apply budget_loop_raised | right; now apply budget_loop_saved].
Qed.

Lemma batch_ok (cats : list Category.t) : forall acc,
  table_ok (fst acc) -> table_ok (fst (fold_left step cats acc)).
Proof.
  induction cats as [|c cats IH]; intros acc H; cbn; [exact H|].
  apply IH. now apply budget_step_ok.
Qed.

Section OneCategory.

Variables (c : Category.t) (raw : string).
Hypothesis Hraw : form_get f (budget_field c) = Some raw.
Hypothesis Hpresent : strip raw <> EmptyString.

Lemma nonempty_strip : nonempty (strip raw) = true.
Proof. destruct (strip raw); [congruence | reflexivity]. Qed.

(** A malformed or negative amount: the iteration of any category with
    this key flashes the error and writes nothing. *)
Lemma budget_step_rejected (acc : list Budget.t * list Flash) (c' : Category.t) :
  py_float env raw = None \/ (exists a, py_float env raw = Some a /\ flt a 0) ->
  Category.id c' = Category.id c ->
  step acc c' =
  (fst acc, snd acc ++ [(MsgInvalidBudgetAmount (Category.name c'), error)]).
Proof.
  intros Hbad Hid. unfold step, budget_step.
  rewrite (budget_field_id c c' Hid), Hraw, nonempty_strip.
  destruct Hbad as [->|(a & -> & Ha)]; [reflexivity|].
  unfold flt in Ha. now rewrite Ha.
Qed.

Lemma batch_rejected (cats : list Category.t) : forall acc,
  py_float env raw = None \/ (exists a, py_float env raw = Some a /\ flt a 0) ->
  table_ok (fst acc) ->
  budgets_for (fst (fold_left step cats acc)) u (Category.id c) m
  = budgets_for (fst acc) u (Category.id c) m /\
  (In c cats ->
   In (MsgInvalidBudgetAmount (Category.name c), error)
      (snd (fold_left step cats acc))).
Proof.
  induction cats as [|c' cats IH]; intros acc Hbad Hok; cbn [fold_left].
  - split; [reflexivity | intros []].
  - destruct (IH (step acc c') Hbad (budget_step_ok acc c' Hok)) as [IH1 IH2].
    split.
    + rewrite IH1.
      destruct (Z.eq_dec (Category.id c') (Category.id c)) as [E|E].
      * now rewrite (budget_step_rejected acc c' Hbad E).
      * now apply budget_step_other.
    + intros [->|Hin]; [|now apply IH2].
      apply batch_flashes. rewrite (budget_step_rejected acc c Hbad eq_refl).
      cbn [snd]. apply in_or_app. right. now left.
Qed.

(** A well-formed amount that is not below zero: the iteration of any
    category with this key upserts it. *)
Lemma budget_step_accepted (acc : list Budget.t * list Flash) (c' : Category.t) (a : float) :
  py_float env raw = Some a -> PrimFloat.ltb a 0 = false ->
  Category.id c' = Category.id c ->
  step acc c' = (upsert_budget (fst acc) u (Category.id c) m (stored_real a), snd acc).
Proof.
  intros Ha Hl Hid. unfold step, budget_step.
  now rewrite (budget_field_id c c' Hid), Hraw, nonempty_strip, Ha, Hl, Hid.
Qed.

Lemma batch_accepted (a : float) (cats : list Category.t) : forall acc,
  py_float env raw = Some a -> PrimFloat.ltb a 0 = false ->
  table_ok (fst acc) ->
  In c cats \/ holds_amount u (Category.id c) m (stored_real a) (fst acc) ->
  holds_amount u (Category.id c) m (stored_real a) (fst (fold_left step cats acc)).
Proof.
  induction cats as [|c' cats IH]; intros acc Ha Hl Hok Hc; cbn [fold_left].
  - destruct Hc as [[]|H]. exact H.
  - apply IH; auto using budget_step_ok.
    destruct (Z.eq_dec (Category.id c') (Category.id c)) as [E|E].
    + right. rewrite (budget_step_accepted acc c' a Ha Hl E). cbn [fst].
      apply upsert_budget_row, Hok.
    + destruct Hc as [[->|Hin]|H]; [congruence | now left | right].
      unfold holds_amount. now rewrite budget_step_other.
Qed.

End OneCategory.

End Batch.

Lemma sample_table_ok :
  unique_budgets (budgets sample_store) /\ budget_keys_unique (budgets sample_store).
Proof.
  split.
  - change (budgets sample_store)
      with (upsert_all [(1, 1, march, 100%float); (2, 3, march, 50%float)] []).
    apply upsert_all_unique, unique_budgets_nil.
  - unfold budget_keys_unique. cbn. repeat constructor; cbn; intuition discriminate.
Qed.

(** X21: the batch of [manage_budgets], when no field reads as NaN: each
    malformed or negative amount is reported and skipped, each amount that
    is at least zero is saved as the one budget of its category and month,
    and the batch is committed and acknowledged. *)
Theorem manage_budgets_batch (env : PyEnv) (s : Store) (user_id : Z) (req : Request)
    (user : User.t) (month_str : string) (m : date)
    (Huser : get_user s user_id = Some user)
    (Hpost : method req = POST)
    (Hmonth : form_get (form req) "month" = Some month_str)
    (Hparse : strptime_Ym env month_str = Some m)
    (Hclean : batch_raises env (form req) (categories_of s user_id) = false)
    (Htable : unique_budgets (budgets s) /\ budget_keys_unique (budgets s)) :
  let out := manage_budgets env s user_id req in
  response out = Redirect (to_manage_budgets user_id (Some m)) /\
  In (MsgBudgetsSaved, success) (flashes out) /\
  forall (c : Category.t) (raw : string),
    In c (categories_of s user_id) ->
    form_get (form req) (budget_field c) = Some raw ->
    strip raw <> EmptyString ->
    (py_float env raw = None \/ (exists a, py_float env raw = Some a /\ flt a 0) ->
     In (MsgInvalidBudgetAmount (Category.name c), error) (flashes out) /\
     budgets_for (budgets (store out)) user_id (Category.id c) m
     = budgets_for (budgets s) user_id (Category.id c) m) /\
    (forall a, py_float env raw = Some a -> fle 0 a ->
     exists b,
       budgets_for (budgets (store out)) user_id (Category.id c) m = [b] /\
       Budget.amount b = stored_real a).
Proof.
  intros out. subst out. unfold manage_budgets.
  rewrite (get_user_lookup _ _ _ Huser), Hpost, Hmonth, Hparse.
  rewrite (get_user_id _ _ _ Huser), (budget_loop_saved _ _ _ _ _ _ Hclean).
  cbn [response flashes store with_budgets budgets].
  split; [reflexivity|]. split; [apply in_or_app; right; now left|].
  intros c raw Hc Hraw Hpresent. split.
  - intros Hbad.
    destruct (batch_rejected env (form req) user_id m c raw Hraw Hpresent
                (categories_of s user_id) (budgets s, []) Hbad Htable) as [H1 H2].
    split; [apply in_or_app; left; now apply H2 | exact H1].
  - intros a Ha Hle.
    apply (batch_accepted env (form req) user_id m c raw Hraw Hpresent a
             (categories_of s user_id) (budgets s, []) Ha
             (fle_zero_not_below a Hle) Htable).
    now left.
Qed.

Lemma manage_budgets_batch_witness :
  (unique_budgets (budgets sample_store) /\ budget_keys_unique (budgets sample_store)) /\
  batch_raises env0 (form budget_request) (categories_of sample_store 1) = false /\
  response (manage_budgets env0 sample_store 1 budget_request)
  = Redirect (to_manage_budgets 1 (Some march)) /\
  In (MsgBudgetsSaved, success) (flashes (manage_budgets env0 sample_store 1 budget_request)) /\
  In (MsgInvalidBudgetAmount "Travel", error)
     (flashes (manage_budgets env0 sample_store 1 budget_request)) /\
  budgets_for (budgets (store (manage_budgets env0 sample_store 1 budget_request))) 1 2 march
  = [] /\
  exists b,
    budgets_for (budgets (store (manage_budgets env0 sample_store 1 budget_request))) 1 1 march
    = [b] /\
    Budget.amount b = 120%float.
Proof.
  pose proof (manage_budgets_batch env0 sample_store 1 budget_request alice
                "2024-03" march eq_refl eq_refl eq_refl eq_refl eq_refl sample_table_ok)
    as (Hresp & Hsaved & Hcat).
  split; [exact sample_table_ok|]. split; [reflexivity|].
  split; [exact Hresp|]. split; [exact Hsaved|].
  destruct (Hcat travel "-5"%string) as [Hbad _];
    [cbn; tauto | reflexivity | discriminate |].
  destruct Hbad as [Hflash Hrows];
    [right; exists (-5)%float; split; reflexivity|].
  destruct (Hcat food "120"%string) as [_ Hgood];
    [cbn; tauto | reflexivity | discriminate |].
  split; [exact Hflash|]. split; [exact Hrows|].
  exact (Hgood 120%float eq_refl eq_refl).
Defined.

(** A field that reads as NaN is taken for an amount, as [nan < 0] is
    false; the budget cannot be written, and the request ends in an
    uncaught exception with nothing of the batch committed, whatever the
    other fields. *)
Lemma manage_budgets_nan_raises (env : PyEnv) (s : Store) (user_id : Z) (req : Request)
    (user : User.t) (month_str : string) (m : date) (c : Category.t) :
  get_user s user_id = Some user -> method req = POST ->
  form_get (form req) "month" = Some month_str ->
  strptime_Ym env month_str = Some m ->
  In c (categories_of s user_id) ->
  submits_nan env (form req) c = true ->
  response (manage_budgets env s user_id req) = ServerError /\
  store (manage_budgets env s user_id req) = s.
Proof.
  intros Huser Hpost Hmonth Hparse Hc Hnan. unfold manage_budgets.
  rewrite (get_user_lookup _ _ _ Huser), Hpost, Hmonth, Hparse.
  rewrite (get_user_id _ _ _ Huser).
  destruct (budget_loop_raised env (form req) user_id m (categories_of s user_id)
              (budgets s, [])) as [flashed ->]; [|split; reflexivity].
  unfold batch_raises. apply existsb_exists. eauto.
Qed.

(** C8 at the amount [nan]: the batch does not survive every malformed
    amount. For Food at 120 and Travel at [nan], [float("nan")] is a float
    and [nan < 0] is false, so Travel is taken for an amount: no error
    names it, its budget cannot be written, and the request ends in the
    uncaught exception of the commit. Nothing of the batch is committed:
    the budget of Food stays at 100, and no success is flashed. With -5 for
    Travel, next to it, the error is reported and Food is saved. *)
Theorem manage_budgets_nan_batch :
  py_float env0 "nan" = Some nan /\
  PrimFloat.ltb nan 0 = false /\
  submits_nan env0 (form nan_budget_request) travel = true /\
  manage_budgets env0 sample_store 1 nan_budget_request
  = mkOutcome ServerError [] sample_store /\
  budgets_for (budgets sample_store) 1 1 march = [Budget.mk 1 1 1 march 100] /\
  manage_budgets env0 sample_store 1 budget_request
  = mkOutcome (Redirect (to_manage_budgets 1 (Some march)))
              [ (MsgInvalidBudgetAmount "Travel", error); (MsgBudgetsSaved, success) ]
              (with_budgets sample_store
                 [ Budget.mk 1 1 1 march 120; Budget.mk 2 2 3 march 50 ]).
Proof. vm_compute. repeat split. Qed.

Example manage_budgets_sample :
  manage_budgets env0 sample_store 1 budget_request =
  mkOutcome (Redirect (to_manage_budgets 1 (Some march)))
            [ (MsgInvalidBudgetAmount "Travel", error); (MsgBudgetsSaved, success) ]
            (with_budgets sample_store
               [ Budget.mk 1 1 1 march 120; Budget.mk 2 2 3 march 50 ]).
Proof. vm_compute. reflexivity. Qed.

(** Whatever the request, [manage_budgets] leaves the budgets a table. *)
Lemma manage_budgets_table_ok (env : PyEnv) (s : Store) (user_id : Z) (req : Request) :
  table_ok (budgets s) -> table_ok (budgets (store (manage_budgets env s user_id req))).
Proof.
  intros Hok. unfold manage_budgets.
  destruct (get_or_404 s user_id) as [user| |]; [|exact Hok..].
  destruct (method req); [exact Hok|].
  destruct (form_get (form req) "month") as [month_str|]; [|exact Hok].
  destruct (strptime_Ym env month_str) as [m|]; [|exact Hok].
  destruct (batch_raises env (form req) (categories_of s (User.id user))) eqn:Hr.
  - destruct (budget_loop_raised env (form req) (User.id user) m _ (budgets s, []) Hr)
      as [flashed ->]. exact Hok.
  - rewrite (budget_loop_saved _ _ _ _ _ _ Hr).
    cbn [store with_budgets budgets]. now apply batch_ok.
Qed.

(** ** C5: deleting a user *)

Lemma filter_out_same {A : Type} (key : A -> Z) (k : Z) (l : list A) :
  filter (fun x => key x =? k) (filter (fun x => negb (key x =? k)) l) = [].
Proof.
  induction l as [|x l IH]; cbn; [reflexivity|].
  destruct (key x =? k) eqn:E; cbn; [exact IH | now rewrite E].
Qed.

Lemma filter_out_other {A : Type} (key : A -> Z) (k k' : Z) (l : list A) :
  k' <> k ->
  filter (fun x => key x =? k') (filter (fun x => negb (key x =? k)) l)
  = filter (fun x => key x =? k') l.
Proof.
  intros Hne. induction l as [|x l IH]; cbn; [reflexivity|].
  destruct (Z.eqb_spec (key x) k) as [E|E]; cbn.
  - replace (key x =? k') with false by (symmetry; apply Z.eqb_neq; lia). exact IH.
  - destruct (key x =? k'); now rewrite IH.
Qed.

Lemma find_out_same {A : Type} (key : A -> Z) (k : Z) (l : list A) :
  find (fun x => key x =? k) (filter (fun x => negb (key x =? k)) l) = None.
Proof.
  rewrite find_hd_filter. now rewrite filter_out_same.
Qed.

Lemma find_out_other {A : Type} (key : A -> Z) (k k' : Z) (l : list A) :
  k' <> k ->
  find (fun x => key x =? k') (filter (fun x => negb (key x =? k)) l)
  = find (fun x => key x =? k') l.
Proof.
  intros Hne. now rewrite !find_hd_filter, filter_out_other.
Qed.

(** C5: when the store holds the user, [delete_user] leaves no expense,
    budget or category of the user and no row of the user; what every
    other user owns is as before; and the committed store is the store of
    before until the last statement, the commit, makes the whole deletion
    visible at once. *)
Theorem delete_user_cascade (s : Store) (user_id : Z) (user : User.t)
    (Huser : get_user s user_id = Some user) :
  let s' := store (delete_user s user_id) in
  (expenses_of s' user_id = [] /\ budgets_of s' user_id = [] /\
   categories_of s' user_id = [] /\ get_user s' user_id = None) /\
  (forall other, other <> user_id ->
     expenses_of s' other = expenses_of s other /\
     budgets_of s' other = budgets_of s other /\
     categories_of s' other = categories_of s other /\
     get_user s' other = get_user s other) /\
  (forall n, (n < List.length (delete_user_stmts user))%nat ->
     committed (run (firstn n (delete_user_stmts user)) (begin s)) = s) /\
  committed (run (delete_user_stmts user) (begin s)) = s'.
Proof.
  intros s'. subst s'. unfold delete_user. rewrite (get_user_lookup _ _ _ Huser). cbn [store].
  unfold delete_user_stmts. rewrite (get_user_id _ _ _ Huser).
  unfold run, begin, expenses_of, budgets_of, categories_of.
  cbn [fold_left exec exec_working committed working users categories budgets expenses].
  split; [|split; [|split]].
  - repeat split.
    + apply (filter_out_same Expense.user_id).
    + apply (filter_out_same Budget.user_id).
    + apply (filter_out_same Category.user_id).
    + rewrite get_user_find by exact (get_user_fits _ _ _ Huser).
      apply (find_out_same User.id).
  - intros other Hne. repeat split.
    + now apply (filter_out_other Expense.user_id).
    + now apply (filter_out_other Budget.user_id).
    + now apply (filter_out_other Category.user_id).
    + apply get_user_same. intros _. now apply (find_out_other User.id).
  - intros n Hn. cbn [List.length] in Hn.
    do 5 (destruct n as [|n]; [reflexivity|]). lia.
  - reflexivity.
Qed.

Lemma delete_user_cascade_witness :
  get_user sample_store 1 = Some alice /\
  store (delete_user sample_store 1)
  = mkStore [bob] [books] [Budget.mk 2 2 3 march 50]
            [Expense.mk 5 2 3 (mkDate 2024 3 7) 20 None] /\
  expenses_of (store (delete_user sample_store 1)) 1 = [] /\
  expenses_of (store (delete_user sample_store 1)) 2 = expenses_of sample_store 2.
Proof.
  destruct (delete_user_cascade sample_store 1 alice eq_refl)
    as ((He & _) & Hother & _).
  split; [reflexivity|]. split; [reflexivity|]. split; [exact He|].
  apply (Hother 2). discriminate.
Defined.

(** ** C6 and C7: recording an expense *)

Lemma budget_alert_status (c : Category.t) (b : Budget.t) (spent : float) :
  budget_alert c b spent
  = alert_for c (PrimFloat.sub (Budget.amount b) spent)
              (BudgetStatus spent (Budget.amount b)).
Proof.
  unfold budget_alert, BudgetStatus, alert_for. cbv zeta.
  destruct (PrimFloat.ltb (PrimFloat.sub _ _) _); [reflexivity|].
  destruct (PrimFloat.ltb 0 (Budget.amount b) && PrimFloat.leb _ _); reflexivity.
Qed.

(** The three validations, in the order of the source: each failure
    redirects to the form with one error and writes nothing. *)
Lemma create_expense_rejects (env : PyEnv) (s : Store) (user_id : Z) (req : Request)
    (user : User.t) :
  get_user s user_id = Some user -> method req = POST ->
  py_float env (amount_field req) = None \/
  (exists a, py_float env (amount_field req) = Some a /\ fle a 0) \/
  strptime_Ymd env (date_field req) = None \/
  find_category env s (form_get (form req) "category_id") user_id = None ->
  response (create_expense env s user_id req) = Redirect (to_create_expense user_id) /\
  store (create_expense env s user_id req) = s /\
  exists msg, flashes (create_expense env s user_id req) = [(msg, error)].
Proof.
  intros Huser Hpost Hbad. unfold create_expense.
  rewrite (get_user_lookup _ _ _ Huser), Hpost, (get_user_id _ _ _ Huser).
  fold (amount_field req). fold (date_field req).
  destruct (py_float env (amount_field req)) as [a|] eqn:Ea.
  2:{ cbn. eauto. }
  destruct (PrimFloat.leb a 0) eqn:El.
  { cbn. eauto. }
  destruct (strptime_Ymd env (date_field req)) as [d|] eqn:Ed.
  2:{ cbn. eauto. }
  destruct (find_category env s _ user_id) as [c|] eqn:Ec.
  2:{ cbn. eauto. }
  exfalso. destruct Hbad as [H|[(a' & H & Hle)|[H|H]]]; try discriminate.
  injection H as <-. unfold fle in Hle. congruence.
Qed.

(** What a successful request did. *)
Lemma create_expense_success (env : PyEnv) (s : Store) (user_id : Z) (req : Request) :
  response (create_expense env s user_id req) = Redirect (to_list_expenses user_id) ->
  exists (user : User.t) (a : float) (d : date) (c : Category.t),
    get_user s user_id = Some user /\
    py_float env (amount_field req) = Some a /\ PrimFloat.leb a 0 = false /\
    strptime_Ymd env (date_field req) = Some d /\
    find_category env s (form_get (form req) "category_id") user_id = Some c /\
    let s' := add_expense s (new_expense s user_id c a d req) in
    store (create_expense env s user_id req) = s' /\
    match find_budget (budgets s) user_id (Category.id c) (replace_day1 d) with
    | Some b =>
        exists hi, _next_month (replace_day1 d) = Some hi /\
          flashes (create_expense env s user_id req)
          = budget_alert c b (sum_expenses env (expenses s') user_id (Some (Category.id c))
                                           (replace_day1 d) hi)
            ++ [(MsgExpenseRecorded, success)]
    | None => flashes (create_expense env s user_id req) = [(MsgExpenseRecorded, success)]
    end.
Proof.
  unfold create_expense.
  lookup s user_id user Huser; [|discriminate..].
  rewrite (get_user_id _ _ _ Huser).
  destruct (method req); [discriminate|].
  fold (amount_field req). fold (date_field req). fold (description_field req).
  destruct (py_float env (amount_field req)) as [a|] eqn:Ea; [|discriminate].
  destruct (PrimFloat.leb a 0) eqn:El; [discriminate|].
  destruct (strptime_Ymd env (date_field req)) as [d|] eqn:Ed; [|discriminate].
  destruct (find_category env s _ user_id) as [c|] eqn:Ec; [|discriminate].
  destruct (PrimFloat.is_nan a) eqn:En; [discriminate|].
  fold (new_expense s user_id c a d req).
  cbn [budgets add_expense].
  intros Hresp. exists user, a, d, c.
  do 5 (split; [solve [reflexivity | assumption]|]).
  cbv zeta.
  destruct (find_budget (budgets s) user_id (Category.id c) (replace_day1 d)) as [b|].
  - destruct (_next_month (replace_day1 d)) as [hi|]; [|discriminate].
    split; [reflexivity|]. exists hi. split; reflexivity.
  - split; reflexivity.
Qed.

(** C7 (as amended): a successful [create_expense] has added the expense
    to the store; when a budget exists for the user, the category of the
    expense and the month of its date, the status of that category and
    month, as [monthly_report] computes it on the store with the expense
    in it, is what the request reports besides its success (a warning for
    EXCEEDED, an information for NEAR_LIMIT, nothing for OK); when no such
    budget exists, no status is evaluated and the success alone is
    reported. *)
Theorem create_expense_reports_status (env : PyEnv) (s : Store) (user_id : Z)
    (req : Request)
    (Hsuccess : response (create_expense env s user_id req)
                = Redirect (to_list_expenses user_id)) :
  exists (c : Category.t) (a : float) (d : date),
    find_category env s (form_get (form req) "category_id") user_id = Some c /\
    py_float env (amount_field req) = Some a /\
    strptime_Ymd env (date_field req) = Some d /\
    store (create_expense env s user_id req)
    = mkStore (users s) (categories s) (budgets s)
              (expenses s ++ [new_expense s user_id c a d req]) /\
    match find_budget (budgets (store (create_expense env s user_id req)))
                      user_id (Category.id c) (replace_day1 d) with
    | Some b =>
        exists (hi : date) (row : ReportRow),
          _next_month (replace_day1 d) = Some hi /\
          row = report_row env (store (create_expense env s user_id req)) user_id
                           (replace_day1 d) hi c /\
          row_budget row = Budget.amount b /\
          MonthlySpend env (store (create_expense env s user_id req)) user_id
                       (Some (Category.id c)) (replace_day1 d) = Some (row_spent row) /\
          flashes (create_expense env s user_id req)
          = alert_for c (row_remaining row) (row_status row)
            ++ [(MsgExpenseRecorded, success)]
    | None =>
        flashes (create_expense env s user_id req) = [(MsgExpenseRecorded, success)]
    end.
Proof.
  destruct (create_expense_success env s user_id req Hsuccess)
    as (user & a & d & c & _ & Ha & _ & Hd & Hc & Hstore & Hflash).
  exists c, a, d. do 3 (split; [assumption|]).
  rewrite Hstore. split; [reflexivity|].
  cbn [budgets add_expense].
  destruct (find_budget (budgets s) user_id (Category.id c) (replace_day1 d))
    as [b|] eqn:Eb; [|exact Hflash].
  destruct Hflash as (hi & Hhi & Hflash).
  exists hi, (report_row env (add_expense s (new_expense s user_id c a d req)) user_id
                         (replace_day1 d) hi c).
  split; [exact Hhi|]. split; [reflexivity|].
  unfold report_row, MonthlySpend.
  cbn [budgets add_expense row_budget row_spent row_remaining row_status].
  rewrite Eb, Hhi. split; [reflexivity|]. split; [reflexivity|].
  rewrite Hflash. now rewrite budget_alert_status.
Qed.

Lemma create_expense_reports_status_witness :
  response food_outcome = Redirect (to_list_expenses 1) /\
  exists (c : Category.t) (a : float) (d : date),
    find_category env0 sample_store (Some "1"%string) 1 = Some c /\
    py_float env0 "10" = Some a /\
    strptime_Ymd env0 "2024-03-12" = Some d /\
    store food_outcome
    = mkStore (users sample_store) (categories sample_store) (budgets sample_store)
              (expenses sample_store
               ++ [new_expense sample_store 1 c a d
                     (expense_request "1" "10" "2024-03-12")]) /\
    match find_budget (budgets (store food_outcome)) 1 (Category.id c) (replace_day1 d) with
    | Some b =>
        exists (hi : date) (row : ReportRow),
          _next_month (replace_day1 d) = Some hi /\
          row = report_row env0 (store food_outcome) 1 (replace_day1 d) hi c /\
          row_budget row = Budget.amount b /\
          MonthlySpend env0 (store food_outcome) 1 (Some (Category.id c)) (replace_day1 d)
          = Some (row_spent row) /\
          flashes food_outcome
          = alert_for c (row_remaining row) (row_status row)
            ++ [(MsgExpenseRecorded, success)]
    | None => flashes food_outcome = [(MsgExpenseRecorded, success)]
    end.
Proof.
  split; [reflexivity|].
  exact (create_expense_reports_status env0 sample_store 1
           (expense_request "1" "10" "2024-03-12") eq_refl).
Defined.

Example food_outcome_run :
  flashes food_outcome
  = [ (MsgBudgetExceeded "Food" 5, warning); (MsgExpenseRecorded, success) ].
Proof. vm_compute. reflexivity. Qed.

(** C7 as stated fails for a category without a budget: the request
    succeeds and reports no status, although the status of the category for
    that month (the one [monthly_report] shows, with a budget of 0.0 when
    none is set) is EXCEEDED. *)
Lemma create_expense_without_budget :
  response travel_outcome = Redirect (to_list_expenses 1) /\
  flashes travel_outcome = [(MsgExpenseRecorded, success)] /\
  find_budget (budgets (store travel_outcome)) 1 (Category.id travel) march = None /\
  _next_month march = Some april /\
  row_spent (report_row env0 (store travel_outcome) 1 march april travel) = 42.5%float /\
  row_status (report_row env0 (store travel_outcome) 1 march april travel) = exceeded.
Proof. vm_compute. repeat split. Qed.

(** C6 at the amount [nan]: [float("nan")] is a float and [nan <= 0] is
    false, so the amount passes the check although [nan] is not a strictly
    positive number. No validation error is reported: the expense cannot be
    written, and the request ends in the uncaught exception of the commit,
    with nothing stored. The amount zero, next to it, is refused. *)
Theorem create_expense_nan_uncaught :
  py_float env0 (amount_field (expense_request "1" "nan" "2024-03-12")) = Some nan /\
  PrimFloat.leb nan 0 = false /\
  nan_outcome = mkOutcome ServerError [] sample_store /\
  create_expense env0 sample_store 1 (expense_request "1" "0" "2024-03-12")
  = mkOutcome (Redirect (to_create_expense 1)) [(MsgAmountNotPositive, error)]
              sample_store.
Proof. vm_compute. repeat split. Qed.

(** The slip is the same in every store: an amount that reads as NaN,
    with a date and a category that pass, ends in the uncaught exception
    and writes nothing. *)
Lemma create_expense_nan (env : PyEnv) (s : Store) (user_id : Z) (req : Request)
    (user : User.t) (a : float) (d : date) (c : Category.t) :
  get_user s user_id = Some user -> method req = POST ->
  py_float env (amount_field req) = Some a -> PrimFloat.is_nan a = true ->
  strptime_Ymd env (date_field req) = Some d ->
  find_category env s (form_get (form req) "category_id") user_id = Some c ->
  create_expense env s user_id req = mkOutcome ServerError [] s.
Proof.
  intros Huser Hpost Ha Hnan Hd Hc. unfold create_expense.
  rewrite (get_user_lookup _ _ _ Huser), Hpost, (get_user_id _ _ _ Huser).
  fold (amount_field req). fold (date_field req). rewrite Ha.
  replace (PrimFloat.leb a 0) with false.
  - now rewrite Hd, Hc, Hnan.
  - symmetry. rewrite FloatAxioms.leb_spec. unfold SFleb, SFcompare.
    unfold PrimFloat.is_nan in Hnan. rewrite FloatAxioms.eqb_spec in Hnan.
    unfold SFeqb, SFcompare in Hnan.
    destruct (Prim2SF a) as [sg|sg| |sg ma ea]; try reflexivity.
    + now destruct sg.
    + now destruct sg.
    + destruct sg; rewrite Z.compare_refl, Pos.compare_refl in Hnan; discriminate.
Qed.

(** The other cases of C6, on the sample store: zero, a negative amount,
    text that is no number, an impossible date and a category of another
    user are refused and write nothing; 0.01 is accepted. *)
Example create_expense_samples :
  create_expense env0 sample_store 1 (expense_request "1" "0" "2024-03-12")
  = mkOutcome (Redirect (to_create_expense 1)) [(MsgAmountNotPositive, error)] sample_store /\
  create_expense env0 sample_store 1 (expense_request "1" "-3.5" "2024-03-12")
  = mkOutcome (Redirect (to_create_expense 1)) [(MsgAmountNotPositive, error)] sample_store /\
  create_expense env0 sample_store 1 (expense_request "1" "ten" "2024-03-12")
  = mkOutcome (Redirect (to_create_expense 1)) [(MsgAmountNotPositive, error)] sample_store /\
  create_expense env0 sample_store 1 (expense_request "1" "5" "2024-02-30")
  = mkOutcome (Redirect (to_create_expense 1)) [(MsgInvalidDate, error)] sample_store /\
  create_expense env0 sample_store 1 (expense_request "3" "5" "2024-03-12")
  = mkOutcome (Redirect (to_create_expense 1)) [(MsgInvalidCategory, error)] sample_store /\
  response (create_expense env0 sample_store 1 (expense_request "1" "0.01" "2024-03-12"))
  = Redirect (to_list_expenses 1) /\
  expenses (store (create_expense env0 sample_store 1
                     (expense_request "1" "0.01" "2024-03-12")))
  = expenses sample_store
    ++ [Expense.mk 6 1 1 (mkDate 2024 3 12) 0x1.47ae147ae147bp-7 (Some "lunch"%string)].
Proof. vm_compute. repeat split. Qed.

(** ** C9: the list of recent expenses *)

Lemma date_le_fields (a b : date) :
  date_le a b <->
  year a < year b \/
  (year a = year b /\ (month a < month b \/ (month a = month b /\ day a <= day b))).
Proof.
  unfold date_le, date_lt. split.
  - intros [H| ->]; lia.
  - intros H. destruct (Z.eq_dec (day a) (day b)) as [E|E]; [|left; lia].
    destruct (Z.eq_dec (month a) (month b)) as [E'|E']; [|left; lia].
    destruct (Z.eq_dec (year a) (year b)) as [E''|E'']; [|left; lia].
    right. destruct a, b; cbn in *; congruence.
Qed.

Lemma date_le_trans (a b c : date) : date_le a b -> date_le b c -> date_le a c.
Proof. rewrite !date_le_fields. lia. Qed.

Lemma date_ltb_false_le (a b : date) : date_ltb a b = false -> date_le b a.
Proof.
  intros H. rewrite date_le_fields.
  assert (Hn : ~ date_lt a b) by (rewrite <- date_ltb_lt; congruence).
  unfold date_lt in Hn. lia.
Qed.

Lemma date_lt_le (a b : date) : date_lt a b -> date_le a b.
Proof. now left. Qed.

Lemma insert_desc_perm (e : Expense.t) (l : list Expense.t) :
  Permutation (insert_desc e l) (e :: l).
Proof.
  induction l as [|x l IH]; cbn; [reflexivity|].
  destruct (date_ltb (Expense.date e) (Expense.date x)); [|reflexivity].
  rewrite IH. apply perm_swap.
Qed.

Lemma insert_desc_sorted (e : Expense.t) (l : list Expense.t) :
  StronglySorted not_older l -> StronglySorted not_older (insert_desc e l).
Proof.
  induction 1 as [|x l Hs IH Hx]; cbn.
  - repeat constructor.
  - destruct (date_ltb (Expense.date e) (Expense.date x)) eqn:E.
    + constructor; [exact IH|].
      rewrite Forall_forall. intros y Hy.
      apply (Permutation_in _ (insert_desc_perm e l)) in Hy.
      destruct Hy as [<-|Hy].
      * apply date_lt_le. now apply date_ltb_lt.
      * rewrite Forall_forall in Hx. now apply Hx.
    + apply date_ltb_false_le in E.
      constructor; [now constructor|].
      constructor; [exact E|].
      rewrite Forall_forall in *. intros y Hy.
      unfold not_older in *. eapply date_le_trans; [apply Hx, Hy | exact E].
Qed.

Lemma order_by_date_desc_perm (l : list Expense.t) :
  Permutation (order_by_date_desc l) l.
Proof.
  induction l as [|e l IH]; cbn; [reflexivity|].
  rewrite insert_desc_perm. now constructor.
Qed.

Lemma order_by_date_desc_sorted (l : list Expense.t) :
  StronglySorted not_older (order_by_date_desc l).
Proof.
  induction l as [|e l IH]; cbn; [constructor | now apply insert_desc_sorted].
Qed.

(** The first [n] rows of a sorted list are sorted and come before the
    others. *)
Lemma StronglySorted_firstn {A : Type} (R : A -> A -> Prop) (n : nat) : forall l,
  StronglySorted R l ->
  StronglySorted R (firstn n l) /\
  (forall x y, In x (firstn n l) -> In y (skipn n l) -> R x y).
Proof.
  induction n as [|n IH]; intros l Hs.
  - cbn. split; [constructor | intros x y []].
  - destruct l as [|a l]; cbn.
    + split; [constructor | intros x y []].
    + apply StronglySorted_inv in Hs. destruct Hs as [Hs Ha].
      destruct (IH l Hs) as [IH1 IH2]. split.
      * constructor; [exact IH1|].
        rewrite Forall_forall in *. intros y Hy. apply Ha.
        rewrite <- (firstn_skipn n l). apply in_or_app. now left.
      * intros x y [<-|Hx] Hy; [|now apply IH2].
        rewrite Forall_forall in Ha. apply Ha.
        rewrite <- (firstn_skipn n l). apply in_or_app. now right.
Qed.

(** C9: the page lists at most 50 expenses, all of the user, from the most
    recent date down; the expenses of the user that it omits are none more
    recent than any listed one. *)
Theorem list_expenses_recent (s : Store) (user_id : Z) (user : User.t)
    (Huser : get_user s user_id = Some user) :
  exists (listed omitted : list Expense.t) (cats : list (Z * Category.t)),
    response (list_expenses s user_id) = Render (expenses_html user listed cats) /\
    (List.length listed <= 50)%nat /\
    List.length listed = Nat.min 50 (List.length (expenses_of s user_id)) /\
    Permutation (expenses_of s user_id) (listed ++ omitted) /\
    StronglySorted not_older listed /\
    (forall x y, In x listed -> In y omitted -> not_older x y).
Proof.
  unfold list_expenses. rewrite (get_user_lookup _ _ _ Huser), (get_user_id _ _ _ Huser). cbn [response].
  unfold recent_expenses. fold (expenses_of s user_id).
  set (sorted := order_by_date_desc (expenses_of s user_id)).
  exists (firstn 50 sorted), (skipn 50 sorted), 
         (dict_of Category.id (categories_of s user_id)).
  destruct (StronglySorted_firstn not_older 50 sorted
              (order_by_date_desc_sorted _)) as [H1 H2].
  split; [reflexivity|]. split; [apply firstn_le_length|].
  split.
  { rewrite length_firstn. unfold sorted.
    now rewrite (Permutation_length (order_by_date_desc_perm _)). }
  split; [|split; assumption].
  rewrite firstn_skipn. symmetry. apply order_by_date_desc_perm.
Qed.

Lemma list_expenses_recent_witness :
  get_user busy_store 1 = Some alice /\
  exists (listed omitted : list Expense.t) (cats : list (Z * Category.t)),
    response (list_expenses busy_store 1) = Render (expenses_html alice listed cats) /\
    (List.length listed <= 50)%nat /\
    List.length listed = Nat.min 50 (List.length (expenses_of busy_store 1)) /\
    Permutation (expenses_of busy_store 1) (listed ++ omitted) /\
    StronglySorted not_older listed /\
    (forall x y, In x listed -> In y omitted -> not_older x y).
Proof.
  split; [reflexivity|].
  exact (list_expenses_recent busy_store 1 alice eq_refl).
Defined.

Example recent_expenses_sample :
  List.length (expenses_of busy_store 1) = 60%nat /\
  List.length (recent_expenses busy_store 1) = 50%nat /\
  map Expense.id (firstn 3 (recent_expenses busy_store 1)) = [60; 59; 58] /\
  map Expense.id (skipn 47 (recent_expenses busy_store 1)) = [13; 12; 11] /\
  map Expense.id (recent_expenses sample_store 1) = [4; 2; 3; 1].
Proof. vm_compute. repeat split. Qed.

(** ** C10: a month parameter that does not parse *)

Lemma dict_set_fresh {V : Type} (d : list (Z * V)) (k : Z) (v : V) :
  ~ In k (map fst d) -> dict_set d k v = d ++ [(k, v)].
Proof.
  induction d as [|[k' v'] d IH]; cbn; [reflexivity|].
  intros H. destruct (Z.eqb_spec k' k) as [E|E]; [tauto|].
  rewrite IH; [reflexivity | tauto].
Qed.

(** A dict built from rows of different keys has one item per row, in the
    order of the rows. *)
Lemma dict_of_distinct {A : Type} (key : A -> Z) (rows : list A) :
  NoDup (map key rows) -> dict_of key rows = map (fun r => (key r, r)) rows.
Proof.
  unfold dict_of.
  assert (G : forall rows d,
            NoDup (map fst d ++ map key rows) ->
            fold_left (fun d r => dict_set d (key r) r) rows d
            = d ++ map (fun r => (key r, r)) rows).
  { clear rows. induction rows as [|r rows IH]; intros d H; cbn.
    - now rewrite app_nil_r.
    - cbn in H. rewrite dict_set_fresh.
      + rewrite IH; [now rewrite <- app_assoc|].
        rewrite map_app. cbn. rewrite <- app_assoc. exact H.
      + apply NoDup_remove_2 in H. intros Hin. apply H, in_or_app. now left. }
  intros H. apply (G rows []). exact H.
Qed.

Lemma unique_budgets_tail (b : Budget.t) (bs : list Budget.t) :
  unique_budgets (b :: bs) -> unique_budgets bs.
Proof.
  intros H u c m. specialize (H u c m). unfold budgets_for in *. cbn in H.
  destruct (budget_matches u c m b); cbn in H; lia.
Qed.

Lemma month_budgets_distinct (bs : list Budget.t) (u : Z) (m : date) :
  unique_budgets bs ->
  NoDup (map Budget.category_id
           (filter (fun b => (Budget.user_id b =? u) && date_eqb (Budget.month b) m) bs)).
Proof.
  induction bs as [|b bs IH]; intros H; cbn [filter map]; [constructor|].
  pose proof (IH (unique_budgets_tail b bs H)) as IH'.
  destruct ((Budget.user_id b =? u) && date_eqb (Budget.month b) m) eqn:E;
    [|exact IH'].
  cbn [map]. constructor; [|exact IH'].
  intros Hin. apply in_map_iff in Hin. destruct Hin as (r & Hr & Hin).
  apply filter_In in Hin. destruct Hin as [Hin Er].
  specialize (H u (Budget.category_id b) m). unfold budgets_for in H. cbn in H.
  assert (Eb : budget_matches u (Budget.category_id b) m b = true).
  { unfold budget_matches. apply andb_true_iff in E. destruct E as [-> ->].
    now rewrite Z.eqb_refl. }
  rewrite Eb in H. cbn in H.
  assert (In r (filter (budget_matches u (Budget.category_id b) m) bs)).
  { apply filter_In. split; [exact Hin|]. unfold budget_matches.
    apply andb_true_iff in Er. destruct Er as [-> ->]. rewrite Hr.
    now rewrite Z.eqb_refl. }
  destruct (filter (budget_matches u (Budget.category_id b) m) bs);
    [contradiction | cbn in H; lia].
Qed.

Lemma month_param_fallback (env : PyEnv) (str : string) :
  strptime_Ym env str = None ->
  month_param env (Some str) = replace_day1 (today env).
Proof.
  intros H. unfold month_param. rewrite H. now destruct (nonempty str).
Qed.

Lemma next_month_of_today (env : PyEnv) :
  valid_date (today env) = true -> year (today env) < MAXYEAR ->
  exists hi, _next_month (replace_day1 (today env)) = Some hi.
Proof.
  intros Hv Hy. unfold valid_date in Hv. apply valid_ymd_iff in Hv.
  destruct (Z.eq_dec (month (today env)) 12) as [E|E]; eexists; unfold replace_day1.
  - rewrite E. apply next_month_december. unfold MINYEAR, MAXYEAR in *. lia.
  - apply next_month_within_year; lia.
Qed.

(** C10: when the [month] parameter does not parse, [monthly_report] and
    the GET of [manage_budgets] answer as they do without the parameter:
    they flash nothing, write nothing and render their page for the first
    day of the current month. The report shows the monthly spend of the
    user for that month and, for each category of the user in turn, its
    monthly spend, its budget of that month (0.0 without one), what
    remains and the status; the budgets page shows the categories of the
    user and the budgets of the user for that month by category. *)
Theorem unparsed_month_falls_back (env : PyEnv) (s : Store) (user_id : Z)
    (user : User.t) (req : Request) (str : string)
    (Huser : get_user s user_id = Some user)
    (Htoday : valid_date (today env) = true)
    (Hyear : year (today env) < MAXYEAR)
    (Harg : form_get (args req) "month" = Some str)
    (Hparse : strptime_Ym env str = None) :
  (monthly_report env s user_id req = monthly_report env s user_id (without_args req) /\
   exists total rows,
     monthly_report env s user_id req
     = mkOutcome (Render (monthly_report_html user (replace_day1 (today env)) total rows))
                 [] s /\
     MonthlySpend env s user_id None (replace_day1 (today env)) = Some total /\
     Forall2 (fun c r =>
                row_category r = c /\
                MonthlySpend env s user_id (Some (Category.id c))
                             (replace_day1 (today env)) = Some (row_spent r) /\
                row_budget r
                = match find_budget (budgets s) user_id (Category.id c)
                                    (replace_day1 (today env)) with
                  | Some b => Budget.amount b
                  | None => 0%float
                  end /\
                row_remaining r = PrimFloat.sub (row_budget r) (row_spent r) /\
                row_status r = BudgetStatus (row_spent r) (row_budget r))
             (categories_of s user_id) rows) /\
  (method req = GET ->
   manage_budgets env s user_id req = manage_budgets env s user_id (without_args req) /\
   manage_budgets env s user_id req
   = mkOutcome
       (Render (budgets_html user (categories_of s user_id) (replace_day1 (today env))
                  (dict_of Budget.category_id
                     (filter (fun b => (Budget.user_id b =? user_id) &&
                                       date_eqb (Budget.month b) (replace_day1 (today env)))
                             (budgets s)))))
       [] s /\
   (unique_budgets (budgets s) ->
    manage_budgets env s user_id req
    = mkOutcome
        (Render (budgets_html user (categories_of s user_id) (replace_day1 (today env))
                   (month_budgets s user_id (replace_day1 (today env)))))
        [] s)).
Proof.
  destruct (next_month_of_today env Htoday Hyear) as [hi Hhi].
  split.
  - unfold monthly_report, without_args. cbn [args form_get].
    rewrite (get_user_lookup _ _ _ Huser), Harg, (month_param_fallback env str Hparse).
    cbn [month_param]. rewrite Hhi, (get_user_id _ _ _ Huser).
    split; [reflexivity|]. eexists _, _. split; [reflexivity|].
    unfold MonthlySpend. rewrite Hhi. split; [reflexivity|].
    apply Forall2_map_row. intros c _. unfold report_row.
    cbn [row_category row_spent row_budget row_remaining row_status].
    repeat split.
  - intros Hget. unfold manage_budgets, without_args. cbn [args form_get method].
    rewrite (get_user_lookup _ _ _ Huser), Harg, Hget,
      (month_param_fallback env str Hparse), (get_user_id _ _ _ Huser).
    cbn [month_param].
    split; [reflexivity|]. split; [reflexivity|].
    intros Hunique. unfold month_budgets. rewrite dict_of_distinct; [reflexivity|].
    now apply month_budgets_distinct.
Qed.

Lemma unparsed_month_falls_back_witness :
  strptime_Ym env0 "2024-13" = None /\
  monthly_report env0 sample_store 1 bad_month_request
  = monthly_report env0 sample_store 1 (without_args bad_month_request) /\
  monthly_report env0 sample_store 1 bad_month_request
  = mkOutcome
      (Render (monthly_report_html alice (mkDate 2024 6 1) 0
                 [ mkRow food 0 0 0 ok; mkRow travel 0 0 0 ok ]))
      [] sample_store /\
  manage_budgets env0 sample_store 1 bad_month_request
  = mkOutcome (Render (budgets_html alice [food; travel] (mkDate 2024 6 1) []))
              [] sample_store.
Proof.
  destruct (unparsed_month_falls_back env0 sample_store 1 alice bad_month_request
              "2024-13" eq_refl eq_refl eq_refl eq_refl eq_refl)
    as ((Hsame & total & rows & Hpage & Htotal & Hrows) & Hbudgets).
  destruct (Hbudgets eq_refl) as (_ & Hbpage & _).
  split; [reflexivity|]. split; [exact Hsame|]. split; [|exact Hbpage].
  rewrite Hpage. f_equal.
  injection Htotal as <-.
  inversion Hrows as [|c1 r1 l1 l1' H1 Hrows1]; subst.
  inversion Hrows1 as [|c2 r2 l2 l2' H2 Hrows2]; subst.
  inversion Hrows2; subst.
  destruct r1 as [c1 b1 s1 rem1 st1], r2 as [c2 b2 s2 rem2 st2].
  cbn [row_category row_spent row_budget row_remaining row_status] in H1, H2.
  destruct H1 as (-> & [= <-] & -> & -> & ->), H2 as (-> & [= <-] & -> & -> & ->).
  reflexivity.
Defined.

Example monthly_report_sample :
  response (monthly_report env0 sample_store 1
              (mkRequest GET [("month", "2024-03")]%string []))
  = Render (monthly_report_html alice march 107.5
              [ mkRow food 100 95 5 near_limit;
                mkRow travel 0 12.5 (-12.5) exceeded ]) /\
  response (monthly_report env0 sample_store 1
              (mkRequest GET [("month", "9999-12")]%string []))
  = ServerError.
Proof. vm_compute. repeat split. Qed.

(* ===================================================================== *)
(** * Properties of the routes together *)
(* ===================================================================== *)

(** ** What a request can write *)

Lemma get_user_In (s : Store) (user_id : Z) (u : User.t) :
  get_user s user_id = Some u -> In u (users s).
Proof. intros H. apply get_user_found in H. now apply find_some in H. Qed.

Lemma delete_user_store (s : Store) (user_id : Z) (user : User.t) :
  get_user s user_id = Some user ->
  store (delete_user s user_id) = without_user s (User.id user).
Proof. intros H. unfold delete_user. now rewrite (get_user_lookup _ _ _ H). Qed.

Lemma find_category_owned (env : PyEnv) (s : Store) (raw : option string)
    (user_id : Z) (c : Category.t) :
  find_category env s raw user_id = Some c ->
  In c (categories s) /\ Category.user_id c = user_id.
Proof.
  unfold find_category. destruct raw as [r|]; [|discriminate].
  destruct (key_of_text env r) as [k|]; [|discriminate].
  intros H. apply find_some in H. destruct H as [Hin H].
  apply andb_true_iff in H. destruct H as [_ H]. now apply Z.eqb_eq in H.
Qed.

Lemma create_expense_writes (env : PyEnv) (s : Store) (user_id : Z) (req : Request) :
  writes env s (store (create_expense env s user_id req)).
Proof.
  unfold create_expense.
  lookup s user_id user Hu; [|constructor..].
  destruct (method req); [constructor|].
  destruct (py_float env _) as [a|]; [|constructor].
  destruct (PrimFloat.leb a 0) eqn:El; [constructor|].
  destruct (strptime_Ymd env _) as [d|] eqn:Ed; [|constructor].
  destruct (find_category env s _ (User.id user)) as [c|] eqn:Ec; [|constructor].
  destruct (PrimFloat.is_nan a); [constructor|].
  apply find_category_owned in Ec. destruct Ec as [Hc Hcu].
  apply get_user_In in Hu.
  match goal with
  | |- context [add_expense s ?e] =>
      assert (W : writes env s (add_expense s e))
        by (eapply (writes_expense env s user c e); eauto)
  end.
  cbv zeta. destruct (find_budget _ _ _ _); [|exact W].
  destruct (_next_month _); exact W.
Qed.

Lemma manage_budgets_writes (env : PyEnv) (s : Store) (user_id : Z) (req : Request) :
  writes env s (store (manage_budgets env s user_id req)).
Proof.
  unfold manage_budgets.
  lookup s user_id user Hu; [|constructor..].
  destruct (method req); [constructor|].
  destruct (form_get (form req) "month") as [month_str|]; [|constructor].
  destruct (strptime_Ym env month_str) as [m|] eqn:Em; [|constructor].
  destruct (batch_raises env (form req) (categories_of s (User.id user))) eqn:Hr.
  - destruct (budget_loop_raised env (form req) (User.id user) m _ (budgets s, []) Hr)
      as [flashed ->]. constructor.
  - rewrite (budget_loop_saved _ _ _ _ _ _ Hr).
    cbn [store]. eapply writes_budgets; eauto using get_user_In.
Qed.

Lemma create_user_writes (env : PyEnv) (s : Store) (req : Request) :
  writes env s (account_store (create_user s req)).
Proof.
  unfold create_user. destruct (method req); [constructor|].
  cbv zeta.
  destruct (nonempty (strip (or_empty (form_get (form req) "name")))) eqn:En;
    [|constructor].
  cbn [User.email].
  destruct (nonempty (strip (or_empty (form_get (form req) "email")))).
  - destruct (email_taken s _) eqn:Et; [constructor|].
    cbn [account_store]. apply writes_user; cbn; auto. now intros e [= <-].
  - cbn [account_store]. apply writes_user; cbn; auto. discriminate.
Qed.

Lemma manage_categories_writes (env : PyEnv) (s : Store) (user_id : Z) (req : Request) :
  writes env s (account_store (manage_categories s user_id req)).
Proof.
  unfold manage_categories.
  lookup s user_id user Hu; [|constructor..].
  destruct (method req); [constructor|]. cbv zeta.
  destruct (nonempty (strip (or_empty (form_get (form req) "name")))) eqn:En;
    [|constructor].
  destruct (find_category_named s (User.id user) _) eqn:Ef; [constructor|].
  cbn [account_store]. apply (writes_category env s user); cbn; auto.
  now apply get_user_In in Hu.
Qed.

Lemma handle_writes (env : PyEnv) (s : Store) (c : Call) :
  writes env s (handle env s c).
Proof.
  destruct c as [|req|u|u|u req|u req|u req|u|u req]; cbn [handle].
  - constructor.
  - apply create_user_writes.
  - unfold dashboard. destruct (get_or_404 s u); constructor.
  - lookup s u user Hu.
    + rewrite (delete_user_store s u user Hu).
      apply writes_deletion. now apply get_user_In in Hu.
    + unfold delete_user. rewrite Hlk. constructor.
    + unfold delete_user. rewrite Hlk. constructor.
  - apply manage_categories_writes.
  - apply manage_budgets_writes.
  - apply create_expense_writes.
  - unfold list_expenses. destruct (get_or_404 s u); constructor.
  - unfold monthly_report. destruct (get_or_404 s u); [|constructor..].
    destruct (_next_month _); constructor.
Qed.

(** ** Invariants of the store *)

Lemma handle_all_invariant (E : PyEnv -> Prop) (Inv : Store -> Prop) :
  (forall env s s', E env -> writes env s s' -> Inv s -> Inv s') ->
  forall calls s,
    Forall (fun ec => E (fst ec)) calls -> Inv s -> Inv (handle_all s calls).
Proof.
  intros Hstep. unfold handle_all.
  induction calls as [|[env c] calls IH]; intros s HE Hs; cbn; [exact Hs|].
  inversion HE as [|? ? He HE']; subst. apply IH; [exact HE'|].
  eapply Hstep; [exact He | apply handle_writes | exact Hs].
Qed.

Lemma Forall_any_env (calls : list (PyEnv * Call)) :
  Forall (fun ec => (fun _ : PyEnv => True) (fst ec)) calls.
Proof. apply Forall_forall. intros; exact I. Qed.

Lemma NoDup_map_snoc {A : Type} (id : A -> Z) (l : list A) (x : A) :
  NoDup (map id l) -> id x = next_id id l -> NoDup (map id (l ++ [x])).
Proof.
  intros Hnd Hx. rewrite map_app. cbn [map].
  apply NoDup_app; [exact Hnd | repeat constructor; cbn; tauto |].
  intros k Hk [<-|[]]. apply in_map_iff in Hk. destruct Hk as (r & Hr & Hin).
  apply (next_id_above id) in Hin. lia.
Qed.

Lemma filter_keeps_keys_apart {K R : Type} (key : R -> K) (keep : R -> bool)
    (rows : list R) (Hrows : NoDup (map key rows)) :
  NoDup (map key (filter keep rows)).
Proof.
  induction rows as [|x rows IH]; cbn; [constructor|].
  inversion Hrows as [|? ? Hnotin Hnd]; subst.
  destruct (keep x); cbn; [|auto]. constructor; [|auto].
  intros Hin. apply Hnotin. apply in_map_iff in Hin. destruct Hin as (y & Hy & Hin).
  apply filter_In in Hin. apply in_map_iff. exists y. tauto.
Qed.

(** The rows of the budgets after an upsert. *)
Lemma upsert_budget_In (bs : list Budget.t) (u c : Z) (m : date) (a : float)
    (r : Budget.t) :
  In r (upsert_budget bs u c m a) ->
  (exists r0, In r0 bs /\ (r = r0 \/ r = set_amount r0 a)) \/
  r = Budget.mk (next_id Budget.id bs) u c m a.
Proof.
  unfold upsert_budget. destruct (find_budget bs u c m) as [b|].
  - intros H. apply in_map_iff in H. destruct H as (r0 & Hr & Hin).
    left. exists r0. split; [exact Hin|].
    destruct (Budget.id r0 =? Budget.id b); auto.
  - intros H. apply in_app_or in H. destruct H as [H|[H|[]]]; [left | right; auto].
    exists r. auto.
Qed.

(** A property of budgets that assignments of accepted amounts keep, and
    that the rows inserted for the categories at hand have, holds of the
    budgets after the batch when it held before. *)
Lemma batch_Forall (P : Budget.t -> Prop) (env : PyEnv) (f : Form) (u : Z) (m : date)
    (cats : list Category.t) :
  (forall r a, P r -> PrimFloat.ltb a 0 = false -> P (set_amount r a)) ->
  (forall c a i, In c cats -> PrimFloat.ltb a 0 = false ->
                 P (Budget.mk i u (Category.id c) m a)) ->
  forall acc, Forall P (fst acc) ->
    Forall P (fst (fold_left (budget_step env f u m) cats acc)).
Proof.
  intros Hset. induction cats as [|c cats IH]; intros Hnew acc Hacc; cbn; [exact Hacc|].
  apply IH; [intros c' a i Hc'; apply Hnew; now right|].
  destruct (budget_step_budgets env f u m acc c) as [->|(raw & a & _ & _ & Ha & ->)];
    [exact Hacc|].
  apply stored_real_not_below in Ha.
  rewrite Forall_forall in *. intros r Hr.
  apply upsert_budget_In in Hr.
  destruct Hr as [(r0 & Hin & [->| ->])| ->]; auto. apply Hnew; [now left | exact Ha].
Qed.

Lemma batch_keys (env : PyEnv) (f : Form) (u : Z) (m : date) (cats : list Category.t) :
  forall acc, budget_keys_unique (fst acc) ->
    budget_keys_unique (fst (fold_left (budget_step env f u m) cats acc)).
Proof.
  induction cats as [|c cats IH]; intros acc Hacc; cbn; [exact Hacc|].
  apply IH.
  destruct (budget_step_budgets env f u m acc c) as [->|(raw & a & _ & _ & _ & ->)];
    [exact Hacc | now apply upsert_budget_keys].
Qed.

Lemma batch_unique (env : PyEnv) (f : Form) (u : Z) (m : date) (cats : list Category.t) :
  forall acc, unique_budgets (fst acc) ->
    unique_budgets (fst (fold_left (budget_step env f u m) cats acc)).
Proof.
  induction cats as [|c cats IH]; intros acc Hacc; cbn; [exact Hacc|].
  apply IH.
  destruct (budget_step_budgets env f u m acc c) as [->|(raw & a & _ & _ & _ & ->)];
    [exact Hacc | now apply upsert_budget_unique].
Qed.

Lemma writes_keys_unique (env : PyEnv) (s s' : Store) :
  writes env s s' -> keys_unique s -> keys_unique s'.
Proof.
  intros W (Hu & Hc & Hb & He).
  destruct W; unfold keys_unique;
    cbn [users categories budgets expenses add_user add_category with_budgets
         add_expense without_user];
    repeat split; auto using NoDup_map_snoc, filter_keeps_keys_apart.
  now apply batch_keys.
Qed.

(** X1: primary keys. When no two rows of a table share their [id], no
    request makes two rows share it; so the keys are unique in every store
    that the routes build from the empty database. *)
Theorem keys_unique_kept :
  (forall env s c, keys_unique s -> keys_unique (handle env s c)) /\
  (forall calls, keys_unique (handle_all empty_store calls)).
Proof.
  split.
  - intros env s c. apply (writes_keys_unique env), handle_writes.
  - intros calls.
    apply (handle_all_invariant (fun _ => True) keys_unique).
    + intros env s s' _. apply writes_keys_unique.
    + apply Forall_any_env.
    + repeat split; constructor.
Qed.

Lemma category_of_owner_more (s s' : Store) (u k : Z) :
  (forall c, In c (categories s) -> In c (categories s')) ->
  category_of_owner s u k -> category_of_owner s' u k.
Proof. intros H (c & Hin & Hid & Hu). exists c. auto. Qed.

Lemma category_of_owner_after_deletion (s : Store) (gone u k : Z) :
  u <> gone -> category_of_owner s u k -> category_of_owner (without_user s gone) u k.
Proof.
  intros Hne (c & Hin & Hid & Hu). exists c. repeat split; auto.
  cbn [categories without_user]. apply filter_In. split; [exact Hin|].
  apply negb_true_iff, Z.eqb_neq. congruence.
Qed.

Lemma writes_references_ok (env : PyEnv) (s s' : Store) :
  writes env s s' -> references_ok s -> references_ok s'.
Proof.
  intros W (Hc & Hb & He).
  destruct W as [|u _ _ _|user c Huser _ Hcu _ _|user f month_str m Huser _
                 |user c e date_str Huser Hcin Hcu _ Heu Hec _ _|user Huser].
  - repeat split; assumption.
  - repeat split; cbn [users categories budgets expenses add_user]; auto.
    intros c Hin. destruct (Hc c Hin) as (u0 & Hu0 & E). exists u0.
    split; [apply in_or_app; now left | exact E].
  - repeat split; cbn [users categories budgets expenses add_category].
    + intros c0 Hin. apply in_app_or in Hin. destruct Hin as [Hin|[<-|[]]].
      * apply (Hc c0 Hin).
      * exists user. auto.
    + intros b Hin. apply (category_of_owner_more s); [|now apply Hb].
      intros c0 H0. apply in_or_app. now left.
    + intros e Hin. apply (category_of_owner_more s); [|now apply He].
      intros c0 H0. apply in_or_app. now left.
  - repeat split; cbn [users categories budgets expenses with_budgets]; auto.
    apply Forall_forall.
    apply (batch_Forall
             (fun b => category_of_owner (with_budgets s
                          (fst (fold_left (budget_step env f (User.id user) m)
                                  (categories_of s (User.id user)) (budgets s, []))))
                         (Budget.user_id b) (Budget.category_id b))).
    + intros r a Hr _. exact Hr.
    + intros c a i Hin _. unfold categories_of in Hin. apply filter_In in Hin.
      destruct Hin as [Hin Hu]. apply Z.eqb_eq in Hu. exists c. auto.
    + apply Forall_forall. intros b Hin. now apply Hb.
  - repeat split; cbn [users categories budgets expenses add_expense]; auto.
    intros e0 Hin. apply in_app_or in Hin. destruct Hin as [Hin|[<-|[]]].
    + now apply He.
    + exists c. repeat split; auto; congruence.
  - repeat split; cbn [budgets expenses].
    + intros c Hin. cbn [categories without_user] in Hin. apply filter_In in Hin.
      destruct Hin as [Hin Hne]. apply negb_true_iff, Z.eqb_neq in Hne.
      destruct (Hc c Hin) as (u0 & Hu0 & E). exists u0. split; [|exact E].
      cbn [users without_user]. apply filter_In. split; [exact Hu0|].
      apply negb_true_iff, Z.eqb_neq. congruence.
    + intros b Hin. cbn [without_user budgets] in Hin. apply filter_In in Hin.
      destruct Hin as [Hin Hne]. apply negb_true_iff, Z.eqb_neq in Hne.
      apply category_of_owner_after_deletion; auto.
    + intros e Hin. cbn [without_user expenses] in Hin. apply filter_In in Hin.
      destruct Hin as [Hin Hne]. apply negb_true_iff, Z.eqb_neq in Hne.
      apply category_of_owner_after_deletion; auto.
Qed.

(** X2: foreign keys. When every category belongs to a user of the store,
    and every budget and every expense to a category of its own user, each
    request leaves a store of which that holds again; it holds of every
    store that the routes build from the empty database. *)
Theorem references_kept :
  (forall env s c, references_ok s -> references_ok (handle env s c)) /\
  (forall calls, references_ok (handle_all empty_store calls)).
Proof.
  split.
  - intros env s c. apply (writes_references_ok env), handle_writes.
  - intros calls.
    apply (handle_all_invariant (fun _ => True) references_ok).
    + intros env s s' _. apply writes_references_ok.
    + apply Forall_any_env.
    + repeat split; intros x [].
Qed.

Lemma writes_names_unique (env : PyEnv) (s s' : Store) :
  writes env s s' -> names_unique s -> names_unique s'.
Proof.
  unfold names_unique. intros W H.
  destruct W as [| | user c _ _ Hcu _ Hnone | | |];
    cbn [categories add_user add_category with_budgets add_expense without_user];
    auto using filter_keeps_keys_apart.
  rewrite map_app. cbn [map].
  apply NoDup_app; [exact H | repeat constructor; cbn; tauto |].
  intros k Hk [<-|[]]. apply in_map_iff in Hk. destruct Hk as (x & Hx & Hin).
  injection Hx as Hxu Hxn.
  unfold find_category_named in Hnone.
  apply (find_none _ _ Hnone) in Hin.
  apply andb_false_iff in Hin. destruct Hin as [Hin|Hin].
  - apply Z.eqb_neq in Hin. congruence.
  - apply String.eqb_neq in Hin. congruence.
Qed.

(** X3: category names. When no user has two categories of one name, no
    request gives a user a second category of a name; so it holds of every
    store that the routes build from the empty database. *)
Theorem category_names_kept :
  (forall env s c, names_unique s -> names_unique (handle env s c)) /\
  (forall calls, names_unique (handle_all empty_store calls)).
Proof.
  split.
  - intros env s c. apply (writes_names_unique env), handle_writes.
  - intros calls.
    apply (handle_all_invariant (fun _ => True) names_unique).
    + intros env s s' _. apply writes_names_unique.
    + apply Forall_any_env.
    + constructor.
Qed.

Lemma NoDup_app_apart {A : Type} (l1 l2 : list A) (x : A) :
  NoDup (l1 ++ l2) -> In x l1 -> ~ In x l2.
Proof.
  induction l1 as [|a l1 IH]; cbn; [tauto|].
  intros H [->|Hin] H2.
  - inversion H as [|? ? Hnotin _]; subst. apply Hnotin, in_or_app. now right.
  - inversion H; subst. now apply IH.
Qed.

Lemma emails_of_filter (p : User.t -> bool) (us : list User.t) :
  NoDup (emails_of us) -> NoDup (emails_of (filter p us)).
Proof.
  unfold emails_of. induction us as [|u us IH]; cbn [filter flat_map]; [auto|].
  intros H. pose proof (IH (NoDup_app_remove_l _ _ H)) as IH'.
  destruct (p u); [|exact IH']. cbn [flat_map].
  apply NoDup_app; [now apply NoDup_app_remove_r in H | exact IH' |].
  intros e He He'. apply (NoDup_app_apart _ _ e H He).
  apply in_flat_map in He'. destruct He' as (x & Hx & Hex).
  apply filter_In in Hx. apply in_flat_map. exists x. tauto.
Qed.

Lemma email_taken_false (s : Store) (e : string) :
  email_taken s e = false -> ~ In e (emails_of (users s)).
Proof.
  unfold email_taken, emails_of. intros H Hin.
  apply in_flat_map in Hin. destruct Hin as (u & Hu & He).
  assert (Hex : existsb (fun u => match User.email u with
                                  | Some e' => String.eqb e' e
                                  | None => false
                                  end) (users s) = true).
  { apply existsb_exists. exists u. split; [exact Hu|].
    destruct (User.email u) as [e'|]; [|destruct He].
    destruct He as [->|[]]. apply String.eqb_refl. }
  congruence.
Qed.

Lemma writes_emails_unique (env : PyEnv) (s s' : Store) :
  writes env s s' -> emails_unique s -> emails_unique s'.
Proof.
  unfold emails_unique. intros W H.
  destruct W as [|u _ _ Hfree| | | |];
    cbn [users add_user add_category with_budgets add_expense without_user];
    auto using emails_of_filter.
  unfold emails_of. rewrite flat_map_app. cbn [flat_map]. rewrite app_nil_r.
  apply NoDup_app; [exact H | |].
  - destruct (User.email u); repeat constructor; cbn; tauto.
  - intros e He Hu. destruct (User.email u) as [e'|]; [|destruct Hu].
    destruct Hu as [->|[]]. now apply (email_taken_false s e (Hfree e eq_refl)).
Qed.

(** X4: addresses. When the addresses of the users that have one are all
    different, no request adds a user with the address of another (the
    commit of such a user fails); so they are different in every store that
    the routes build from the empty database. *)
Theorem emails_kept :
  (forall env s c, emails_unique s -> emails_unique (handle env s c)) /\
  (forall calls, emails_unique (handle_all empty_store calls)).
Proof.
  split.
  - intros env s c. apply (writes_emails_unique env), handle_writes.
  - intros calls.
    apply (handle_all_invariant (fun _ => True) emails_unique).
    + intros env s s' _. apply writes_emails_unique.
    + apply Forall_any_env.
    + constructor.
Qed.

Lemma Forall_snoc {A : Type} (P : A -> Prop) (l : list A) (x : A) :
  Forall P l -> P x -> Forall P (l ++ [x]).
Proof. intros Hl Hx. apply Forall_app. split; [exact Hl | now constructor]. Qed.

Lemma Forall_filter_keep {A : Type} (P : A -> Prop) (p : A -> bool) (l : list A) :
  Forall P l -> Forall P (filter p l).
Proof.
  rewrite !Forall_forall. intros H x Hx. apply filter_In in Hx. now apply H.
Qed.

Lemma writes_validated (env : PyEnv) (s s' : Store) :
  writes env s s' -> validated s -> validated s'.
Proof.
  intros W (Hu & Hc & Hb & He).
  destruct W; unfold validated;
    cbn [users categories budgets expenses add_user add_category with_budgets
         add_expense without_user];
    repeat split; auto using Forall_snoc, Forall_filter_keep.
  apply (batch_Forall (fun b => PrimFloat.ltb (Budget.amount b) 0 = false)); auto.
Qed.

(** X5: validation. When the names of the users and of the categories are
    not empty, no expense has an amount [<= 0] and no budget an amount
    [< 0], each request leaves a store of which that holds again; so it
    holds of every store that the routes build from the empty database. *)
Theorem validation_kept :
  (forall env s c, validated s -> validated (handle env s c)) /\
  (forall calls, validated (handle_all empty_store calls)).
Proof.
  split.
  - intros env s c. apply (writes_validated env), handle_writes.
  - intros calls.
    apply (handle_all_invariant (fun _ => True) validated).
    + intros env s s' _. apply writes_validated.
    + apply Forall_any_env.
    + repeat split; constructor.
Qed.

Lemma writes_unique_budgets (env : PyEnv) (s s' : Store) :
  writes env s s' -> unique_budgets (budgets s) -> unique_budgets (budgets s').
Proof.
  intros W H.
  destruct W as [| | |user f month_str m _ _| |user _];
    cbn [budgets add_user add_category with_budgets add_expense without_user]; auto.
  - now apply batch_unique.
  - intros u c m. specialize (H u c m). unfold budgets_for in *.
    assert (L : forall l : list Budget.t,
              (List.length (filter (budget_matches u c m)
                 (filter (fun b => negb (Z.eqb (Budget.user_id b) (User.id user))) l))
               <= List.length (filter (budget_matches u c m) l))%nat).
    { induction l as [|b l IH]; cbn; [lia|].
      destruct (negb (Budget.user_id b =? User.id user)); cbn;
        destruct (budget_matches u c m b); cbn; lia. }
    specialize (L (budgets s)). lia.
Qed.

(** X6: one budget per triple. When no user has two budgets for one
    category and month, no request (handled one after the other) creates a
    second one; so every store that the routes build from the empty
    database has at most one budget per (user, category, month). *)
Theorem unique_budgets_kept :
  (forall env s c, unique_budgets (budgets s) -> unique_budgets (budgets (handle env s c))) /\
  (forall calls, unique_budgets (budgets (handle_all empty_store calls))).
Proof.
  split.
  - intros env s c. apply (writes_unique_budgets env), handle_writes.
  - intros calls.
    apply (handle_all_invariant (fun _ => True) (fun s => unique_budgets (budgets s))).
    + intros env s s' _. apply writes_unique_budgets.
    + apply Forall_any_env.
    + apply unique_budgets_nil.
Qed.

Lemma writes_months_normal (env : PyEnv) (s s' : Store) :
  strptime_sound env -> writes env s s' -> months_normal s -> months_normal s'.
Proof.
  unfold months_normal. intros [Hym _] W H.
  destruct W as [| | |user f month_str m _ Hm| |user _];
    cbn [budgets add_user add_category with_budgets add_expense without_user];
    auto using Forall_filter_keep.
  apply (batch_Forall (fun b => day (Budget.month b) = 1)); auto.
  intros c a i _ _. cbn. now apply (Hym month_str).
Qed.

(** The concrete [strptime] gives valid dates, and first days for months. *)
Lemma py_strptime_sound (d : date) : strptime_sound (py d).
Proof.
  split; intros str x; cbn [strptime_Ym strptime_Ymd py].
  - unfold py_strptime_Ym.
    destruct (parse_Y str) as [[y s1]|]; [|discriminate].
    destruct (parse_dash s1) as [s2|]; [|discriminate].
    destruct (parse_m s2) as [[m [|? ?]]|]; try discriminate.
    intros H. apply date_new_valid in H. destruct H as [-> H]. now split.
  - unfold py_strptime_Ymd.
    destruct (parse_Y str) as [[y s1]|]; [|discriminate].
    destruct (parse_dash s1) as [s2|]; [|discriminate].
    destruct (parse_m s2) as [[m s3]|]; [|discriminate].
    destruct (parse_dash s3) as [s4|]; [|discriminate].
    destruct (parse_d s4) as [[dd [|? ?]]|]; try discriminate.
    intros H. now apply date_new_valid in H.
Qed.

(** X7: the month of a budget. In environments whose [strptime] gives the
    first day of the month for ["%Y-%m"], every budget of every store that
    the routes build from the empty database has a month that is a first
    day, as the docstring of [Budget] says. *)
Theorem budget_months_kept (calls : list (PyEnv * Call))
    (Henv : Forall (fun ec => strptime_sound (fst ec)) calls) :
  months_normal (handle_all empty_store calls) /\
  (forall env s c, In (env, c) calls -> months_normal s -> months_normal (handle env s c)).
Proof.
  split.
  - apply (handle_all_invariant strptime_sound months_normal); auto.
    + intros env s s'. apply writes_months_normal.
    + constructor.
  - intros env s c Hin. rewrite Forall_forall in Henv.
    apply (writes_months_normal env); [apply (Henv _ Hin) | apply handle_writes].
Qed.

Lemma budget_months_kept_witness :
  Forall (fun ec => strptime_sound (fst ec)) sample_history /\
  handle_all empty_store sample_history
  = mkStore [alice] [food] [Budget.mk 1 1 1 march 100]
            [Expense.mk 1 1 1 (mkDate 2024 3 5) 40 (Some "lunch"%string)] /\
  months_normal (handle_all empty_store sample_history).
Proof.
  assert (H : Forall (fun ec => strptime_sound (fst ec)) sample_history)
    by (repeat (apply Forall_cons; [exact (py_strptime_sound (mkDate 2024 6 15))|]);
        apply Forall_nil).
  split; [exact H|]. split; [vm_compute; reflexivity|].
  exact (proj1 (budget_months_kept sample_history H)).
Defined.

(** ** Requests that read *)

(** X8: the requests that only read (the index, the dashboard, the list of
    expenses, the report, and every GET) leave the store as it is, whatever
    their parameters, also when they end in a 404 or in an error. *)
Theorem reads_write_nothing (env : PyEnv) (s : Store) (c : Call) :
  reads_only c = true -> handle env s c = s.
Proof.
  destruct c as [|req|u|u|u req|u req|u req|u|u req]; cbn [reads_only handle];
    try discriminate.
  - reflexivity.
  - unfold create_user. destruct (method req); [reflexivity | discriminate].
  - intros _. unfold dashboard. now destruct (get_or_404 s u).
  - unfold manage_categories. destruct (get_or_404 s u); [|reflexivity..].
    destruct (method req); [reflexivity | discriminate].
  - unfold manage_budgets. destruct (get_or_404 s u); [|reflexivity..].
    destruct (method req); [reflexivity | discriminate].
  - unfold create_expense. destruct (get_or_404 s u); [|reflexivity..].
    destruct (method req); [reflexivity | discriminate].
  - intros _. unfold list_expenses. now destruct (get_or_404 s u).
  - intros _. unfold monthly_report. destruct (get_or_404 s u); [|reflexivity..].
    now destruct (_next_month _).
Qed.

Lemma reads_write_nothing_witness :
  handle env0 sample_store (call_monthly_report 1 bad_month_request) = sample_store /\
  handle env0 sample_store (call_manage_budgets 1 bad_month_request) = sample_store.
Proof.
  split.
  - exact (reads_write_nothing env0 sample_store
             (call_monthly_report 1 bad_month_request) eq_refl).
  - exact (reads_write_nothing env0 sample_store
             (call_manage_budgets 1 bad_month_request) eq_refl).
Defined.

(** ** After a deletion *)

Lemma get_or_404_missing (s : Store) (user_id : Z) :
  user_id <= MAX_KEY ->
  find (fun u => User.id u =? user_id) (users s) = None ->
  get_or_404 s user_id = Missing.
Proof.
  intros Hfit Hnone. unfold get_or_404. rewrite Hnone.
  now replace (user_id <=? MAX_KEY) with true by (symmetry; now apply Z.leb_le).
Qed.

Lemma unknown_user (env : PyEnv) (s : Store) (user_id : Z) (req : Request) :
  get_or_404 s user_id = Missing ->
  dashboard s user_id = mkAccount AccountNotFound [] s /\
  manage_categories s user_id req = mkAccount AccountNotFound [] s /\
  delete_user s user_id = mkOutcome NotFound [] s /\
  manage_budgets env s user_id req = mkOutcome NotFound [] s /\
  create_expense env s user_id req = mkOutcome NotFound [] s /\
  list_expenses s user_id = mkOutcome NotFound [] s /\
  monthly_report env s user_id req = mkOutcome NotFound [] s.
Proof.
  intros H.
  unfold dashboard, manage_categories, delete_user, manage_budgets, create_expense,
    list_expenses, monthly_report.
  rewrite H. repeat split.
Qed.

(** X9: once [delete_user] has deleted a user, every route of that user
    answers 404, flashes nothing and writes nothing, whatever the request;
    deleting the user again is one of them. The users of other keys are
    found as before. *)
Theorem deleted_user_is_gone (env : PyEnv) (s : Store) (user_id : Z) (user : User.t)
    (req : Request) (Huser : get_user s user_id = Some user) :
  let s' := store (delete_user s user_id) in
  (dashboard s' user_id = mkAccount AccountNotFound [] s' /\
   manage_categories s' user_id req = mkAccount AccountNotFound [] s' /\
   delete_user s' user_id = mkOutcome NotFound [] s' /\
   manage_budgets env s' user_id req = mkOutcome NotFound [] s' /\
   create_expense env s' user_id req = mkOutcome NotFound [] s' /\
   list_expenses s' user_id = mkOutcome NotFound [] s' /\
   monthly_report env s' user_id req = mkOutcome NotFound [] s') /\
  (forall other, other <> user_id -> get_user s' other = get_user s other).
Proof.
  intros s'. subst s'. rewrite (delete_user_store s user_id user Huser).
  rewrite (get_user_id _ _ _ Huser). split.
  - apply unknown_user.
    apply get_or_404_missing; [exact (get_user_fits _ _ _ Huser)|].
    unfold without_user. cbn [users]. apply (find_out_same User.id).
  - intros other Hne. apply get_user_same. intros _.
    unfold without_user. cbn [users]. now apply (find_out_other User.id).
Qed.

Lemma deleted_user_is_gone_witness :
  get_user sample_store 1 = Some alice /\
  list_expenses (store (delete_user sample_store 1)) 1
  = mkOutcome NotFound [] (store (delete_user sample_store 1)) /\
  delete_user (store (delete_user sample_store 1)) 1
  = mkOutcome NotFound [] (store (delete_user sample_store 1)) /\
  get_user (store (delete_user sample_store 1)) 2 = Some bob.
Proof.
  destruct (deleted_user_is_gone env0 sample_store 1 alice budget_request eq_refl)
    as ((_ & _ & Hdel & _ & _ & Hlist & _) & Hother).
  split; [reflexivity|]. split; [exact Hlist|]. split; [exact Hdel|].
  rewrite (Hother 2); [reflexivity | discriminate].
Defined.

(** ** The month of a date *)

(** X10: [_next_month] raises for one month only, December 9999. For every
    other valid date it returns a valid date that is the first day of a
    month and later than the date, and every valid date from the given one
    up to the returned one (excluded) is of the year and month of the given
    one: the returned day is the first one past its month. *)
Theorem next_month_first_day_after (d : date) (Hvalid : valid_date d = true) :
  (_next_month d = None <-> year d = MAXYEAR /\ month d = 12) /\
  (forall hi, _next_month d = Some hi ->
     valid_date hi = true /\ day hi = 1 /\ date_lt d hi /\
     forall x, valid_date x = true -> date_le d x -> date_lt x hi ->
               year x = year d /\ month x = month d).
Proof.
  unfold valid_date in Hvalid. apply valid_ymd_iff in Hvalid.
  destruct Hvalid as (Hy & Hm & Hd). unfold MINYEAR, MAXYEAR in *.
  unfold _next_month. destruct (Z.eqb_spec (month d) 12) as [E|E].
  - destruct (Z.eq_dec (year d) 9999) as [Ey|Ey].
    + rewrite Ey. cbn. split; [tauto|]. discriminate.
    + rewrite date_new_first by (unfold MINYEAR, MAXYEAR; lia).
      split; [split; [discriminate | lia]|].
      intros hi [= <-]. split; [|split; [reflexivity|split]].
      * unfold valid_date. cbn. apply valid_ymd_iff.
        pose proof (days_in_month_ge_28 (year d + 1) 1).
        unfold MINYEAR, MAXYEAR. lia.
      * unfold date_lt. cbn. lia.
      * intros x Hx Hle Hlt. unfold valid_date in Hx. apply valid_ymd_iff in Hx.
        apply date_le_fields in Hle. unfold date_lt in Hlt. cbn in Hlt. lia.
  - rewrite date_new_first by (unfold MINYEAR, MAXYEAR; lia).
    split; [split; [discriminate | lia]|].
    intros hi [= <-]. split; [|split; [reflexivity|split]].
    + unfold valid_date. cbn. apply valid_ymd_iff.
      pose proof (days_in_month_ge_28 (year d) (month d + 1)).
      unfold MINYEAR, MAXYEAR. lia.
    + unfold date_lt. cbn. lia.
    + intros x Hx Hle Hlt. unfold valid_date in Hx. apply valid_ymd_iff in Hx.
      apply date_le_fields in Hle. unfold date_lt in Hlt. cbn in Hlt. lia.
Qed.

Lemma next_month_first_day_after_witness :
  valid_date (mkDate 2024 2 29) = true /\
  _next_month (mkDate 2024 2 29) = Some (mkDate 2024 3 1) /\
  date_lt (mkDate 2024 2 29) (mkDate 2024 3 1) /\
  (_next_month (mkDate 9999 12 31) = None <-> 9999 = MAXYEAR /\ 12 = 12).
Proof.
  destruct (next_month_first_day_after (mkDate 2024 2 29) eq_refl) as [_ H].
  destruct (H (mkDate 2024 3 1) eq_refl) as (_ & _ & Hlt & _).
  split; [reflexivity|]. split; [reflexivity|]. split; [exact Hlt|].
  exact (proj1 (next_month_first_day_after (mkDate 9999 12 31) eq_refl)).
Defined.

(** X11: the expenses of a monthly sum. For a month [m] that is a valid
    first day, with [hi = _next_month m], the filter of the sums of
    [monthly_report] (and of [create_expense], whose month is the first day
    of the month of the expense) takes an expense of a valid date exactly
    when it is of the user, of the category when one is asked for, and
    dated in the year and month of [m]. *)
Theorem monthly_sum_is_calendar_month (user_id : Z) (category_id : option Z)
    (m hi : date) (e : Expense.t)
    (Hm : valid_date m = true) (Hfirst : day m = 1) (Hnext : _next_month m = Some hi)
    (He : valid_date (Expense.date e) = true) :
  expense_matches user_id category_id m hi e = true <->
  Expense.user_id e = user_id /\
  (forall c, category_id = Some c -> Expense.category_id e = c) /\
  year (Expense.date e) = year m /\ month (Expense.date e) = month m.
Proof.
  rewrite expense_matches_counted. unfold counted.
  pose proof (month_interval m hi (Expense.date e) Hm Hfirst He Hnext) as H.
  tauto.
Qed.

Lemma monthly_sum_is_calendar_month_witness :
  expense_matches 1 (Some 1) march april
    (Expense.mk 2 1 1 (mkDate 2024 3 31) 55 (Some "dinner"%string)) = true /\
  expense_matches 1 (Some 1) march april
    (Expense.mk 4 1 1 (mkDate 2024 4 1) 7 None) = false.
Proof.
  split.
  - apply (monthly_sum_is_calendar_month 1 (Some 1) march april); try reflexivity.
    cbn. repeat split; try reflexivity. now intros c [= <-].
  - reflexivity.
Defined.

(** ** From the form to the pages *)

(** X12: a recorded expense is on the list. When [create_expense] succeeds
    for a user who had fewer than 50 expenses, the list of expenses, to
    which the response redirects, shows the new expense and all the
    former ones of the user. *)
Theorem recorded_expense_is_listed (env : PyEnv) (s : Store) (user_id : Z)
    (req : Request)
    (Hsuccess : response (create_expense env s user_id req)
                = Redirect (to_list_expenses user_id))
    (Hfew : (List.length (expenses_of s user_id) < 50)%nat) :
  exists e,
    expenses (store (create_expense env s user_id req)) = expenses s ++ [e] /\
    Expense.user_id e = user_id /\
    In e (recent_expenses (store (create_expense env s user_id req)) user_id) /\
    (forall x, In x (expenses_of s user_id) ->
       In x (recent_expenses (store (create_expense env s user_id req)) user_id)).
Proof.
  destruct (create_expense_success env s user_id req Hsuccess)
    as (user & a & d & c & _ & _ & _ & _ & _ & Hstore & _).
  rewrite Hstore. exists (new_expense s user_id c a d req).
  split; [reflexivity|]. split; [reflexivity|].
  unfold recent_expenses, expenses_of in *. cbn [expenses add_expense].
  rewrite filter_app. cbn [filter].
  change (Expense.user_id (new_expense s user_id c a d req)) with user_id.
  rewrite Z.eqb_refl.
  set (mine := filter (fun e => Expense.user_id e =? user_id) (expenses s)) in *.
  set (e := new_expense s user_id c a d req).
  assert (Hall : firstn 50 (order_by_date_desc (mine ++ [e]))
                 = order_by_date_desc (mine ++ [e])).
  { apply firstn_all2.
    rewrite (Permutation_length (order_by_date_desc_perm _)), length_app. cbn. lia. }
  rewrite Hall.
  split; [|intros x Hx];
    apply (Permutation_in _ (Permutation_sym (order_by_date_desc_perm _)));
    apply in_or_app; [right; now left | now left].
Qed.

Lemma recorded_expense_is_listed_witness :
  response food_outcome = Redirect (to_list_expenses 1) /\
  (List.length (expenses_of sample_store 1) < 50)%nat /\
  exists e,
    expenses (store food_outcome) = expenses sample_store ++ [e] /\
    Expense.user_id e = 1 /\
    In e (recent_expenses (store food_outcome) 1) /\
    (forall x, In x (expenses_of sample_store 1) ->
       In x (recent_expenses (store food_outcome) 1)).
Proof.
  split; [reflexivity|]. split; [cbn; lia|].
  apply (recorded_expense_is_listed env0 sample_store 1
           (expense_request "1" "10" "2024-03-12") eq_refl).
  cbn. lia.
Defined.

(** An upsert for a triple leaves the rows of every other triple alone. *)
Lemma upsert_budget_frame (bs : list Budget.t) (u c : Z) (m : date) (a : float)
    (u' c' : Z) (m' : date) :
  budget_keys_unique bs -> (u, c, m) <> (u', c', m') ->
  budgets_for (upsert_budget bs u c m a) u' c' m' = budgets_for bs u' c' m'.
Proof.
  intros Hk Hne.
  destruct (budgets_for_upsert bs u c m a u' c' m') as [(b & Hb & ->)|[_ ->]].
  - rewrite <- (map_id (budgets_for bs u' c' m')) at 2.
    apply map_ext_in. intros r Hr.
    destruct (Z.eqb_spec (Budget.id r) (Budget.id b)) as [E|]; [|reflexivity].
    exfalso. unfold budgets_for in Hr. apply filter_In in Hr. destruct Hr as [Hin Hm].
    apply find_some in Hb. destruct Hb as [Hinb Hmb].
    assert (r = b) by (eapply NoDup_map_inj; eauto). subst r.
    unfold budget_matches in *.
    rewrite !andb_true_iff, !Z.eqb_eq, date_eqb_eq in Hm, Hmb.
    apply Hne. destruct Hm as [[<- <-] <-], Hmb as [[<- <-] <-]. reflexivity.
  - destruct (budget_matches u' c' m' _) eqn:E; [|apply app_nil_r].
    apply budget_matches_new in E. destruct E as (<- & <- & <-). congruence.
Qed.

(** The budgets of a triple after the batch, when the iterations of the
    categories of that triple write nothing. *)
Lemma batch_frame (env : PyEnv) (f : Form) (u : Z) (m : date) (u' k : Z) (m' : date)
    (cats : list Category.t) :
  (forall c, In c cats -> (u, Category.id c, m) = (u', k, m') ->
             forall acc, fst (budget_step env f u m acc c) = fst acc) ->
  forall acc, budget_keys_unique (fst acc) ->
    budgets_for (fst (fold_left (budget_step env f u m) cats acc)) u' k m'
    = budgets_for (fst acc) u' k m'.
Proof.
  induction cats as [|c cats IH]; intros Hquiet acc Hk; cbn [fold_left]; [reflexivity|].
  assert (Hk' : budget_keys_unique (fst (budget_step env f u m acc c))).
  { destruct (budget_step_budgets env f u m acc c) as [->|(raw & a & _ & _ & _ & ->)];
      [exact Hk | now apply upsert_budget_keys]. }
  rewrite IH; [|intros c' Hc'; apply Hquiet; now right | exact Hk'].
  destruct (budget_step_budgets env f u m acc c) as [->|(raw & a & _ & _ & _ & E)];
    [reflexivity|].
  destruct (Z.eq_dec u u') as [Eu|Eu].
  - destruct (Z.eq_dec (Category.id c) k) as [Ec|Ec].
    + destruct (date_eqb m m') eqn:Em.
      * apply date_eqb_eq in Em. subst.
        now rewrite (Hquiet c (or_introl eq_refl) eq_refl).
      * rewrite E. apply upsert_budget_frame; [exact Hk|].
        intros [= _ _ Hm]. apply date_eqb_eq in Hm. congruence.
    + rewrite E. apply upsert_budget_frame; [exact Hk | congruence].
  - rewrite E. apply upsert_budget_frame; [exact Hk | congruence].
Qed.

(** X13: what a budget form leaves alone. A POST of [manage_budgets]
    changes no user, category or expense; it changes no budget of another
    user, no budget of a month other than the one the form names (none at
    all when the month is absent or does not parse), and no budget of a
    category whose field is absent or blank. *)
Theorem manage_budgets_frame (env : PyEnv) (s : Store) (user_id : Z) (req : Request)
    (Hkeys : budget_keys_unique (budgets s)) :
  let s' := store (manage_budgets env s user_id req) in
  (users s' = users s /\ categories s' = categories s /\ expenses s' = expenses s) /\
  (forall u' c' m', u' <> user_id ->
     budgets_for (budgets s') u' c' m' = budgets_for (budgets s) u' c' m') /\
  (forall u' c' m',
     (forall str, form_get (form req) "month" = Some str ->
                  strptime_Ym env str <> Some m') ->
     budgets_for (budgets s') u' c' m' = budgets_for (budgets s) u' c' m') /\
  (forall c m',
     match form_get (form req) (budget_field c) with
     | Some raw => strip raw = EmptyString
     | None => True
     end ->
     budgets_for (budgets s') user_id (Category.id c) m'
     = budgets_for (budgets s) user_id (Category.id c) m').
Proof.
  intros s'. subst s'. unfold manage_budgets.
  lookup s user_id user Hu; [|cbn; auto..].
  rewrite (get_user_id _ _ _ Hu).
  destruct (method req); [cbn; auto|].
  destruct (form_get (form req) "month") as [month_str|] eqn:Hm; [|cbn; auto].
  destruct (strptime_Ym env month_str) as [m|] eqn:Hp; [|cbn; auto].
  destruct (budget_loop_cases env (form req) user_id m (categories_of s user_id)
              (budgets s, [])) as [[flashed ->]| ->]; [cbn; auto|].
  cbn [store with_budgets users categories budgets expenses].
  split; [auto|]. split; [|split].
  - intros u' c' m' Hne. apply batch_frame; [|exact Hkeys].
    intros c _ [= E _ _]. congruence.
  - intros u' c' m' Hmonth. apply batch_frame; [|exact Hkeys].
    intros c _ [= _ _ E]. subst m'. now destruct (Hmonth month_str eq_refl).
  - intros c m' Hblank. apply batch_frame; [|exact Hkeys].
    intros c0 _ [= Ec _] acc. unfold budget_step.
    rewrite (budget_field_id c c0 Ec).
    destruct (form_get (form req) (budget_field c)) as [raw|]; [|reflexivity].
    now rewrite Hblank.
Qed.

Lemma manage_budgets_frame_witness :
  budget_keys_unique (budgets sample_store) /\
  budgets_for (budgets (store (manage_budgets env0 sample_store 1 budget_request)))
              2 3 march
  = [Budget.mk 2 2 3 march 50] /\
  expenses (store (manage_budgets env0 sample_store 1 budget_request))
  = expenses sample_store.
Proof.
  destruct (manage_budgets_frame env0 sample_store 1 budget_request
              (proj2 sample_table_ok)) as ((_ & _ & He) & Hother & _).
  split; [exact (proj2 sample_table_ok)|]. split; [|exact He].
  rewrite (Hother 2 3 march); [reflexivity | discriminate].
Defined.

(** X14: a saved budget is the budget of the report. After a POST of
    [manage_budgets] for the month [m] in which no field reads as NaN, a
    category of the user whose field holds an amount that parses and is
    not below zero has that amount, as the store holds it (a negative zero
    is kept as zero), as its budget in the row that [monthly_report]
    computes for [m], and as the budget that [create_expense] compares the
    month's spending with. *)
Theorem saved_budget_in_report (env : PyEnv) (s : Store) (user_id : Z) (req : Request)
    (user : User.t) (month_str : string) (m hi : date) (c : Category.t)
    (raw : string) (a : float)
    (Huser : get_user s user_id = Some user)
    (Hpost : method req = POST)
    (Hmonth : form_get (form req) "month" = Some month_str)
    (Hparse : strptime_Ym env month_str = Some m)
    (Htable : table_ok (budgets s))
    (Hc : In c (categories_of s user_id))
    (Hraw : form_get (form req) (budget_field c) = Some raw)
    (Hpresent : strip raw <> EmptyString)
    (Ha : py_float env raw = Some a)
    (Hok : PrimFloat.ltb a 0 = false)
    (Hclean : batch_raises env (form req) (categories_of s user_id) = false) :
  let s' := store (manage_budgets env s user_id req) in
  row_budget (report_row env s' user_id m hi c) = stored_real a /\
  exists b, find_budget (budgets s') user_id (Category.id c) m = Some b /\
            Budget.amount b = stored_real a.
Proof.
  intros s'. subst s'. unfold manage_budgets.
  rewrite (get_user_lookup _ _ _ Huser), Hpost, Hmonth, Hparse, (get_user_id _ _ _ Huser).
  rewrite (budget_loop_saved _ _ _ _ _ _ Hclean).
  cbn [store]. unfold report_row, with_budgets. cbn [row_budget budgets].
  destruct (batch_accepted env (form req) user_id m c raw Hraw Hpresent a
              (categories_of s user_id) (budgets s, []) Ha Hok Htable
              (or_introl Hc)) as (b & Hb & Hamount).
  unfold find_budget. rewrite find_hd_filter.
  unfold budgets_for in Hb. rewrite Hb. cbn. split; [exact Hamount | eauto].
Qed.

Lemma saved_budget_in_report_witness :
  table_ok (budgets sample_store) /\
  batch_raises env0 (form budget_request) (categories_of sample_store 1) = false /\
  stored_real 120 = 120%float /\
  row_budget (report_row env0 (store (manage_budgets env0 sample_store 1 budget_request))
                         1 march april food) = 120%float /\
  row_status (report_row env0 (store (manage_budgets env0 sample_store 1 budget_request))
                         1 march april food) = ok.
Proof.
  split; [exact sample_table_ok|]. split; [reflexivity|]. split; [reflexivity|].
  split; [|reflexivity].
  exact (proj1 (saved_budget_in_report env0 sample_store 1 budget_request alice
                  "2024-03" march april food "120" 120 eq_refl eq_refl eq_refl eq_refl
                  sample_table_ok (or_introl eq_refl) eq_refl
                  ltac:(discriminate) eq_refl eq_refl eq_refl)).
Defined.

(** X15: the budgets page. For a store with at most one budget per (user,
    category, month), the GET of [manage_budgets] renders, for the month of
    its query string (the first day of the current month when there is none
    or it does not parse), the categories of the user and exactly the
    budgets of the user for that month, each under the key of its category;
    it flashes nothing and writes nothing. *)
Theorem budgets_page_shows_month (env : PyEnv) (s : Store) (user_id : Z) (req : Request)
    (user : User.t)
    (Huser : get_user s user_id = Some user)
    (Hget : method req = GET)
    (Hunique : unique_budgets (budgets s)) :
  manage_budgets env s user_id req
  = mkOutcome
      (Render (budgets_html user (categories_of s user_id)
                 (month_param env (form_get (args req) "month"))
                 (month_budgets s user_id
                    (month_param env (form_get (args req) "month")))))
      [] s.
Proof.
  unfold manage_budgets. rewrite (get_user_lookup _ _ _ Huser), Hget, (get_user_id _ _ _ Huser).
  unfold month_budgets. rewrite dict_of_distinct; [reflexivity|].
  now apply month_budgets_distinct.
Qed.

Lemma budgets_page_shows_month_witness :
  unique_budgets (budgets sample_store) /\
  manage_budgets env0 sample_store 1 (budgets_page_request "2024-03")
  = mkOutcome
      (Render (budgets_html alice [food; travel] march [(1, Budget.mk 1 1 1 march 100)]))
      [] sample_store.
Proof.
  split; [exact (proj1 sample_table_ok)|].
  exact (budgets_page_shows_month env0 sample_store 1 (budgets_page_request "2024-03")
           alice eq_refl eq_refl (proj1 sample_table_ok)).
Defined.

(** ** Users and categories *)

Lemma find_snoc {A : Type} (f : A -> bool) (l : list A) (x : A) :
  find f (l ++ [x]) =
  match find f l with
  | Some y => Some y
  | None => if f x then Some x else None
  end.
Proof.
  induction l as [|y l IH]; cbn; [reflexivity|]. now destruct (f y).
Qed.

Lemma get_user_fresh (s : Store) : get_user s (next_id User.id (users s)) = None.
Proof.
  destruct (get_user s _) as [u|] eqn:E; [|reflexivity].
  pose proof (get_user_id _ _ _ E) as Hid. apply get_user_In in E.
  apply (next_id_above User.id) in E. lia.
Qed.

(** X16: a user who signs up is found. A POST of [create_user] with a name
    that is not blank (white space of Unicode counts as blank) and an
    address that is blank or that no user has adds one user, with the
    stripped name, an address only when one was given, and a key that no
    user had; while the keys fit the integers of the store, the dashboard
    of that key shows the new user, and every other key finds what it found
    before. *)
Theorem created_user_is_found (s : Store) (req : Request)
    (Hpost : method req = POST)
    (Hname : name_field req <> EmptyString)
    (Hfree : forall e, email_field req = Some e -> email_taken s e = false)
    (Hkey : next_id User.id (users s) <= MAX_KEY) :
  exists u,
    create_user s req
    = mkAccount (AccountRedirect to_home) [(MsgUserCreated, success)] (add_user s u) /\
    User.name u = name_field req /\ User.email u = email_field req /\
    get_user s (User.id u) = None /\
    dashboard (add_user s u) (User.id u)
    = mkAccount (AccountRender (dashboard_html u)) [] (add_user s u) /\
    (forall k, k <> User.id u -> get_user (add_user s u) k = get_user s k).
Proof.
  exists (User.mk (next_id User.id (users s)) (name_field req) (email_field req)).
  cbn [User.id User.name User.email].
  assert (Hfound : forall k,
            get_user (add_user s (User.mk (next_id User.id (users s))
                                          (name_field req) (email_field req))) k
            = match get_user s k with
              | Some y => Some y
              | None => if next_id User.id (users s) =? k
                        then Some (User.mk (next_id User.id (users s))
                                           (name_field req) (email_field req))
                        else None
              end).
  { intros k. unfold get_user, get_or_404, add_user. cbn [users]. rewrite find_snoc.
    destruct (Z.leb_spec k MAX_KEY).
    { destruct (find _ (users s)); [reflexivity|]. cbn [User.id].
      now destruct (next_id User.id (users s) =? k). }
    now replace (next_id User.id (users s) =? k) with false
      by (symmetry; apply Z.eqb_neq; lia). }
  split; [|split; [reflexivity|split; [reflexivity|split; [apply get_user_fresh|split]]]].
  - unfold create_user. rewrite Hpost. fold (name_field req). cbv zeta.
    destruct (nonempty (name_field req)) eqn:En;
      [|destruct (name_field req); [congruence | discriminate]].
    cbn [User.email]. fold (email_field req).
    destruct (email_field req) as [e|]; [|reflexivity].
    now rewrite (Hfree e eq_refl).
  - unfold dashboard. erewrite get_user_lookup; [reflexivity|].
    now rewrite Hfound, get_user_fresh, Z.eqb_refl.
  - intros k Hk. rewrite Hfound. destruct (get_user s k); [reflexivity|].
    destruct (Z.eqb_spec (next_id User.id (users s)) k); [congruence | reflexivity].
Qed.

Lemma created_user_is_found_witness :
  name_field carol_request <> EmptyString /\
  next_id User.id (users sample_store) <= MAX_KEY /\
  exists u,
    create_user sample_store carol_request
    = mkAccount (AccountRedirect to_home) [(MsgUserCreated, success)]
                (add_user sample_store u) /\
    User.name u = "Carol"%string /\
    User.email u = Some "carol@example.org"%string /\
    get_user sample_store (User.id u) = None /\
    dashboard (add_user sample_store u) (User.id u)
    = mkAccount (AccountRender (dashboard_html u)) [] (add_user sample_store u) /\
    (forall k, k <> User.id u -> get_user (add_user sample_store u) k = get_user sample_store k).
Proof.
  split; [discriminate|]. split; [discriminate|].
  apply (created_user_is_found sample_store carol_request eq_refl).
  - discriminate.
  - intros e [= <-]. reflexivity.
  - discriminate.
Defined.

(** What [create_user] refuses: a blank name is an error of the form, and
    an address that a user has already makes the commit fail; neither
    writes. *)
Example create_user_refusals :
  create_user sample_store (mkRequest POST [] [("name", "   ")]%string)
  = mkAccount (AccountRedirect to_create_user) [(MsgNameRequired, error)] sample_store /\
  create_user sample_store
    (mkRequest POST [] [("name", "Robert"); ("email", "bob@example.org")]%string)
  = mkAccount AccountError [] sample_store.
Proof. vm_compute. split; reflexivity. Qed.

(** [strip] removes the white space of Unicode, not only that of ASCII: a
    name of no-break spaces is blank, and a name followed by one is the
    name. *)
Example strip_samples :
  strip (String.append no_break_space (String.append " Dave" ideographic_space))
  = "Dave"%string /\
  strip (String.append no_break_space ideographic_space) = EmptyString /\
  strip "a b"%string = "a b"%string /\
  create_user sample_store (mkRequest POST [] [("name"%string, no_break_space)])
  = mkAccount (AccountRedirect to_create_user) [(MsgNameRequired, error)] sample_store /\
  account_flashes
    (manage_categories sample_store 1
       (mkRequest POST [] [("name"%string, String.append "Food" no_break_space)]))
  = [(MsgCategoryExists, error)].
Proof. vm_compute. repeat split. Qed.

Lemma find_category_named_iff (s : Store) (user_id : Z) (name : string) :
  find_category_named s user_id name = None <->
  forall c, In c (categories_of s user_id) -> Category.name c <> name.
Proof.
  unfold find_category_named, categories_of. split.
  - intros H c Hin E. apply filter_In in Hin. destruct Hin as [Hin Hu].
    apply (find_none _ _ H) in Hin. rewrite Hu in Hin. cbn in Hin.
    apply String.eqb_neq in Hin. contradiction.
  - intros H. destruct (find _ (categories s)) as [c|] eqn:E; [|reflexivity].
    apply find_some in E. destruct E as [Hin E]. apply andb_true_iff in E.
    destruct E as [Eu En]. apply String.eqb_eq in En.
    exfalso. apply (H c); [|exact En]. apply filter_In. auto.
Qed.

(** X17: category names are per user. For a user of the store and a name
    that is not blank, a POST of [manage_categories] adds a category of
    that name to the user exactly when the user has none of that name:
    then the categories of the user are the former ones and the new one,
    and those of every other user are unchanged; otherwise the request
    flashes that the category exists and writes nothing. A category of
    that name of another user does not matter. *)
Theorem category_added_unless_named (s : Store) (user_id : Z) (req : Request)
    (user : User.t)
    (Huser : get_user s user_id = Some user)
    (Hpost : method req = POST)
    (Hname : name_field req <> EmptyString) :
  let out := manage_categories s user_id req in
  account_response out = AccountRedirect (to_manage_categories user_id) /\
  ((exists c, In c (categories_of s user_id) /\ Category.name c = name_field req) ->
   account_store out = s /\ account_flashes out = [(MsgCategoryExists, error)]) /\
  ((forall c, In c (categories_of s user_id) -> Category.name c <> name_field req) ->
   account_flashes out = [(MsgCategoryCreated, success)] /\
   categories_of (account_store out) user_id
   = categories_of s user_id
     ++ [Category.mk (next_id Category.id (categories s)) (name_field req) user_id] /\
   (forall other, other <> user_id ->
      categories_of (account_store out) other = categories_of s other)).
Proof.
  intros out. subst out. unfold manage_categories.
  rewrite (get_user_lookup _ _ _ Huser), Hpost, (get_user_id _ _ _ Huser). fold (name_field req). cbv zeta.
  destruct (nonempty (name_field req)) eqn:En;
    [|destruct (name_field req); [congruence | discriminate]].
  destruct (find_category_named s user_id (name_field req)) as [existing|] eqn:Ef.
  - cbn. split; [reflexivity|]. split; [auto|].
    intros Hnone. apply find_category_named_iff in Hnone. congruence.
  - cbn [account_response account_store account_flashes].
    split; [reflexivity|]. split.
    + intros (c & Hin & Hc).
      apply (proj1 (find_category_named_iff s user_id (name_field req)) Ef) in Hin.
      contradiction.
    + intros _. split; [reflexivity|].
      unfold categories_of, add_category. cbn [categories].
      rewrite !filter_app. cbn [filter Category.user_id]. rewrite Z.eqb_refl.
      split; [reflexivity|].
      intros other Hne. rewrite filter_app. cbn [filter Category.user_id].
      replace (user_id =? other) with false by (symmetry; apply Z.eqb_neq; lia).
      apply app_nil_r.
Qed.

Lemma category_added_unless_named_witness :
  get_user sample_store 2 = Some bob /\
  name_field food_request = "Food"%string /\
  categories_of (account_store (manage_categories sample_store 2 food_request)) 2
  = [books; Category.mk 4 "Food" 2] /\
  account_store (manage_categories sample_store 1 food_request) = sample_store /\
  account_flashes (manage_categories sample_store 1 food_request)
  = [(MsgCategoryExists, error)].
Proof.
  destruct (category_added_unless_named sample_store 2 food_request bob
              eq_refl eq_refl ltac:(discriminate)) as (_ & _ & Hadd).
  destruct (category_added_unless_named sample_store 1 food_request alice
              eq_refl eq_refl ltac:(discriminate)) as (_ & Hdup & _).
  split; [reflexivity|]. split; [reflexivity|].
  split.
  - apply Hadd. intros c [<-|[]]. discriminate.
  - apply Hdup. exists food. split; [cbn; tauto | reflexivity].
Defined.

(** ** The end of the calendar *)


Lemma month_param_valid (env : PyEnv) (month_str : option string) :
  strptime_sound env -> valid_date (today env) = true ->
  valid_date (month_param env month_str) = true.
Proof.
  intros [Hym _] Ht. unfold month_param.
  pose proof (proj2 (replace_day1_valid (today env) Ht)) as Hr.
  destruct month_str as [str|]; [|exact Hr].
  destruct (nonempty str); [|exact Hr].
  destruct (strptime_Ym env str) as [m|] eqn:E; [|exact Hr].
  now apply (Hym str).
Qed.

(** X18: the report of the last month. For a user of the store, with a
    [strptime] that gives valid dates, [monthly_report] ends in an uncaught
    error exactly when its month is December 9999; for every other month it
    renders the report, with one row per category of the user in the order
    of the categories, and flashes nothing. *)
Theorem report_fails_only_in_last_month (env : PyEnv) (s : Store) (user_id : Z)
    (req : Request) (user : User.t)
    (Huser : get_user s user_id = Some user)
    (Hsound : strptime_sound env)
    (Htoday : valid_date (today env) = true) :
  let m := month_param env (form_get (args req) "month") in
  (response (monthly_report env s user_id req) = ServerError <-> last_month m) /\
  (~ last_month m ->
   exists total rows,
     monthly_report env s user_id req
     = mkOutcome (Render (monthly_report_html user m total rows)) [] s /\
     map row_category rows = categories_of s user_id).
Proof.
  intros m.
  pose proof (next_month_none_iff m (month_param_valid env _ Hsound Htoday)) as Hnone.
  unfold monthly_report. rewrite (get_user_lookup _ _ _ Huser), (get_user_id _ _ _ Huser). fold m.
  destruct (_next_month m) as [hi|].
  - split.
    + split; [discriminate|]. intros H. apply Hnone in H. discriminate.
    + intros _. eexists _, _. split; [reflexivity|].
      rewrite map_map. cbn [report_row row_category]. apply map_id.
  - split; [tauto|]. intros H. destruct H. now apply Hnone.
Qed.

Lemma report_fails_only_in_last_month_witness :
  strptime_sound env0 /\
  response (monthly_report env0 sample_store 1
              (mkRequest GET [("month", "9999-12")]%string [])) = ServerError /\
  exists total rows,
    monthly_report env0 sample_store 1 bad_month_request
    = mkOutcome (Render (monthly_report_html alice (mkDate 2024 6 1) total rows))
                [] sample_store /\
    map row_category rows = [food; travel].
Proof.
  split; [apply py_strptime_sound|]. split; [reflexivity|].
  apply (report_fails_only_in_last_month env0 sample_store 1 bad_month_request alice
           eq_refl (py_strptime_sound _) eq_refl).
  unfold last_month. cbn. intros [H _]. discriminate.
Defined.

(** X19: an error after the commit. For a user of the store, a POST of
    [create_expense] whose amount parses, is not at most zero and is not
    NaN, whose date parses to a day of December 9999 and whose category is
    one of the user with a budget for that month ends in an uncaught error
    that comes after the commit: nothing is flashed, and the expense is in
    the store although the response is an error. *)
Theorem create_expense_error_after_commit (env : PyEnv) (s : Store) (user_id : Z)
    (req : Request) (user : User.t) (a : float) (d : date) (c : Category.t)
    (b : Budget.t)
    (Huser : get_user s user_id = Some user)
    (Hpost : method req = POST)
    (Ha : py_float env (amount_field req) = Some a)
    (Hpositive : PrimFloat.leb a 0 = false)
    (Hnumber : PrimFloat.is_nan a = false)
    (Hd : strptime_Ymd env (date_field req) = Some d)
    (Hlast : last_month d)
    (Hc : find_category env s (form_get (form req) "category_id") user_id = Some c)
    (Hb : find_budget (budgets s) user_id (Category.id c) (replace_day1 d) = Some b) :
  create_expense env s user_id req
  = mkOutcome ServerError [] (add_expense s (new_expense s user_id c a d req)).
Proof.
  unfold create_expense.
  rewrite (get_user_lookup _ _ _ Huser), Hpost, (get_user_id _ _ _ Huser).
  fold (amount_field req). fold (date_field req). fold (description_field req).
  rewrite Ha, Hpositive, Hd, Hc, Hnumber.
  fold (new_expense s user_id c a d req). cbn [budgets add_expense]. cbv zeta.
  rewrite Hb.
  replace (_next_month (replace_day1 d)) with (@None date); [reflexivity|].
  symmetry. destruct Hlast as [Hy Hm]. unfold _next_month, replace_day1.
  cbn [year month]. rewrite Hy, Hm. reflexivity.
Qed.

Lemma create_expense_error_after_commit_witness :
  get_user last_store 1 = Some alice /\
  py_float env0 (amount_field last_request) = Some 5%float /\
  strptime_Ymd env0 (date_field last_request) = Some (mkDate 9999 12 24) /\
  last_month (mkDate 9999 12 24) /\
  create_expense env0 last_store 1 last_request
  = mkOutcome ServerError []
      (add_expense last_store
         (Expense.mk 1 1 1 (mkDate 9999 12 24) 5 (Some "lunch"%string))).
Proof.
  split; [reflexivity|]. split; [reflexivity|]. split; [reflexivity|].
  split; [split; reflexivity|].
  exact (create_expense_error_after_commit env0 last_store 1 last_request alice
           5 (mkDate 9999 12 24) food (Budget.mk 1 1 1 (mkDate 9999 12 1) 100)
           eq_refl eq_refl eq_refl eq_refl eq_refl eq_refl
           (conj eq_refl eq_refl) eq_refl eq_refl).
Defined.

(** ** One user and the others *)

Lemma same_for_refl (user_id : Z) (s : Store) : same_for user_id s s.
Proof. repeat split. Qed.

Lemma filter_within {A : Type} (f g : A -> bool) (l : list A) :
  (forall x, f x = true -> g x = true) -> filter f (filter g l) = filter f l.
Proof.
  intros H. induction l as [|x l IH]; cbn; [reflexivity|].
  destruct (g x) eqn:Eg; cbn; [now rewrite IH|].
  destruct (f x) eqn:Ef; [|exact IH]. apply H in Ef. congruence.
Qed.

Lemma filter_snoc_other {A : Type} (f : A -> bool) (l : list A) (x : A) :
  f x = false -> filter f (l ++ [x]) = filter f l.
Proof. intros H. rewrite filter_app. cbn. rewrite H. apply app_nil_r. Qed.

(** The sums and the budget of a user read the rows of that user only. *)
Lemma sum_expenses_of_user (env : PyEnv) (s : Store) (user_id : Z) (cat : option Z) (lo hi : date) :
  sum_expenses env (expenses s) user_id cat lo hi
  = sum_expenses env (expenses_of s user_id) user_id cat lo hi.
Proof.
  unfold sum_expenses, expenses_of. rewrite filter_within; [reflexivity|].
  intros e H. unfold expense_matches in H. rewrite !andb_true_iff in H. tauto.
Qed.

Lemma find_budget_of_user (s : Store) (user_id c : Z) (m : date) :
  find_budget (budgets s) user_id c m = find_budget (budgets_of s user_id) user_id c m.
Proof.
  unfold find_budget, budgets_of. rewrite !find_hd_filter, filter_within; [reflexivity|].
  intros b H. unfold budget_matches in H. rewrite !andb_true_iff in H. tauto.
Qed.

(** The pages of a user are the same in two stores that are the same for
    the user. *)
Lemma same_for_pages (user_id : Z) (s s' : Store) (env : PyEnv) (req : Request) :
  same_for user_id s s' ->
  response (list_expenses s' user_id) = response (list_expenses s user_id) /\
  response (monthly_report env s' user_id req)
  = response (monthly_report env s user_id req).
Proof.
  intros (Hu & Hc & Hb & He). split.
  - unfold list_expenses. rewrite (get_or_404_same _ _ _ Hu).
    lookup s user_id user Huser; [|reflexivity..].
    rewrite (get_user_id _ _ _ Huser). cbn [response].
    unfold recent_expenses. fold (expenses_of s' user_id). fold (expenses_of s user_id).
    now rewrite Hc, He.
  - unfold monthly_report. rewrite (get_or_404_same _ _ _ Hu).
    lookup s user_id user Huser; [|reflexivity..].
    rewrite (get_user_id _ _ _ Huser).
    destruct (_next_month _) as [hi|]; [|reflexivity]. cbn [response].
    rewrite (sum_expenses_of_user env s'), (sum_expenses_of_user env s), He, Hc.
    assert (R : forall c,
              report_row env s' user_id (month_param env (form_get (args req) "month")) hi c
              = report_row env s user_id (month_param env (form_get (args req) "month")) hi c).
    { intros c. unfold report_row.
      rewrite (sum_expenses_of_user env s'), (sum_expenses_of_user env s), He.
      now rewrite (find_budget_of_user s'), (find_budget_of_user s), Hb. }
    now rewrite (map_ext _ _ R).
Qed.

Lemma filter_assign_other (bs : list Budget.t) (b : Budget.t) (a : float) (user_id : Z) :
  budget_keys_unique bs -> In b bs -> Budget.user_id b <> user_id ->
  filter (fun r => Budget.user_id r =? user_id)
         (map (fun r => if Budget.id r =? Budget.id b then set_amount r a else r) bs)
  = filter (fun r => Budget.user_id r =? user_id) bs.
Proof.
  intros Hk Hb Hne.
  assert (G : forall l, incl l bs ->
            filter (fun r => Budget.user_id r =? user_id)
                   (map (fun r => if Budget.id r =? Budget.id b then set_amount r a else r) l)
            = filter (fun r => Budget.user_id r =? user_id) l).
  { induction l as [|r l IH]; intros Hl; cbn [map filter]; [reflexivity|].
    rewrite IH by (intros x Hx; apply Hl; now right).
    destruct (Z.eqb_spec (Budget.id r) (Budget.id b)) as [E|E]; [|reflexivity].
    assert (r = b) by (eapply NoDup_map_inj; eauto; apply Hl; now left). subst r.
    cbn [set_amount Budget.user_id].
    now replace (Budget.user_id b =? user_id) with false
      by (symmetry; apply Z.eqb_neq; exact Hne). }
  apply G, incl_refl.
Qed.

Lemma upsert_budget_of_other (bs : list Budget.t) (u c : Z) (m : date) (a : float)
    (user_id : Z) :
  budget_keys_unique bs -> u <> user_id ->
  filter (fun r => Budget.user_id r =? user_id) (upsert_budget bs u c m a)
  = filter (fun r => Budget.user_id r =? user_id) bs.
Proof.
  intros Hk Hne. unfold upsert_budget.
  destruct (find_budget bs u c m) as [b|] eqn:E.
  - apply find_some in E. destruct E as [Hin E].
    apply filter_assign_other; auto.
    unfold budget_matches in E. rewrite !andb_true_iff, !Z.eqb_eq in E.
    destruct E as [[-> _] _]. exact Hne.
  - apply filter_snoc_other. cbn. now apply Z.eqb_neq.
Qed.

Lemma batch_of_other (env : PyEnv) (f : Form) (u : Z) (m : date) (user_id : Z)
    (cats : list Category.t) :
  u <> user_id ->
  forall acc, budget_keys_unique (fst acc) ->
    filter (fun r => Budget.user_id r =? user_id)
           (fst (fold_left (budget_step env f u m) cats acc))
    = filter (fun r => Budget.user_id r =? user_id) (fst acc).
Proof.
  intros Hne. induction cats as [|c cats IH]; intros acc Hk; cbn [fold_left];
    [reflexivity|].
  destruct (budget_step_budgets env f u m acc c) as [E|(raw & a & _ & _ & _ & E)].
  - rewrite IH; rewrite E; auto.
  - rewrite IH; rewrite E; [now apply upsert_budget_of_other|].
    now apply upsert_budget_keys.
Qed.

(** X20: one user's requests and another user's data. A request to a route
    of one user (in a store whose budgets have a primary key) leaves every
    other user as found before, with the same categories, budgets and
    expenses; so the list of expenses and the monthly report of every other
    user are what they were. *)
Theorem other_users_untouched (env : PyEnv) (s : Store) (c : Call) (u user_id : Z)
    (Hcall : call_user c = Some u)
    (Hother : u <> user_id)
    (Hkeys : budget_keys_unique (budgets s)) :
  same_for user_id s (handle env s c) /\
  (forall env' req,
     response (list_expenses (handle env s c) user_id)
     = response (list_expenses s user_id) /\
     response (monthly_report env' (handle env s c) user_id req)
     = response (monthly_report env' s user_id req)).
Proof.
  assert (H : same_for user_id s (handle env s c)).
  { destruct c as [|req|u0|u0|u0 req|u0 req|u0 req|u0|u0 req];
      cbn [call_user] in Hcall; try discriminate; injection Hcall as ->;
      cbn [handle].
    - unfold dashboard. destruct (get_or_404 s u); apply same_for_refl.
    - lookup s u user Hu.
      + rewrite (delete_user_store s u user Hu), (get_user_id _ _ _ Hu).
        unfold same_for, categories_of, budgets_of, expenses_of, without_user.
        cbn [users categories budgets expenses].
        assert (user_id <> u) by congruence.
        repeat split.
        * apply get_user_same. intros _. cbn [users].
          now apply (find_out_other User.id).
        * now apply (filter_out_other Category.user_id).
        * now apply (filter_out_other Budget.user_id).
        * now apply (filter_out_other Expense.user_id).
      + unfold delete_user. rewrite Hlk. apply same_for_refl.
      + unfold delete_user. rewrite Hlk. apply same_for_refl.
    - unfold manage_categories.
      lookup s u user Hu; [|apply same_for_refl..].
      rewrite (get_user_id _ _ _ Hu).
      destruct (method req); [apply same_for_refl|]. cbv zeta.
      destruct (nonempty _); [|apply same_for_refl].
      destruct (find_category_named s u _); [apply same_for_refl|].
      cbn [account_store]. repeat split.
      unfold categories_of, add_category. cbn [categories].
      apply filter_snoc_other. cbn. now apply Z.eqb_neq.
    - unfold manage_budgets.
      lookup s u user Hu; [|apply same_for_refl..].
      rewrite (get_user_id _ _ _ Hu).
      destruct (method req); [apply same_for_refl|].
      destruct (form_get (form req) "month") as [month_str|]; [|apply same_for_refl].
      destruct (strptime_Ym env month_str) as [m|]; [|apply same_for_refl].
      destruct (budget_loop_cases env (form req) u m (categories_of s u)
                  (budgets s, [])) as [[flashed ->]| ->]; [apply same_for_refl|].
      cbn [store]. repeat split.
      unfold budgets_of, with_budgets. cbn [budgets].
      now apply batch_of_other.
    - unfold create_expense.
      lookup s u user Hu; [|apply same_for_refl..].
      rewrite (get_user_id _ _ _ Hu).
      destruct (method req); [apply same_for_refl|].
      destruct (py_float env _) as [a|]; [|apply same_for_refl].
      destruct (PrimFloat.leb a 0); [apply same_for_refl|].
      destruct (strptime_Ymd env _) as [d|]; [|apply same_for_refl].
      destruct (find_category env s _ u) as [cat|]; [|apply same_for_refl].
      destruct (PrimFloat.is_nan a); [apply same_for_refl|].
      assert (S : same_for user_id s
                    (add_expense s
                       (Expense.mk (next_id Expense.id (expenses s)) u (Category.id cat)
                          d a
                          (if nonempty (strip (or_empty
                                (form_get (form req) "description")))
                           then Some (strip (or_empty
                                (form_get (form req) "description")))
                           else None)))).
      { repeat split. unfold expenses_of, add_expense. cbn [expenses].
        apply filter_snoc_other. cbn. now apply Z.eqb_neq. }
      cbv zeta. destruct (find_budget _ _ _ _); [|exact S].
      destruct (_next_month _); exact S.
    - unfold list_expenses. destruct (get_or_404 s u); apply same_for_refl.
    - unfold monthly_report. destruct (get_or_404 s u); [|apply same_for_refl..].
      destruct (_next_month _); apply same_for_refl. }
  split; [exact H|]. intros env' req. now apply same_for_pages.
Qed.

Lemma other_users_untouched_witness :
  budget_keys_unique (budgets sample_store) /\
  same_for 2 sample_store (handle env0 sample_store (call_delete_user 1)) /\
  response (list_expenses (handle env0 sample_store (call_delete_user 1)) 2)
  = response (list_expenses sample_store 2).
Proof.
  destruct (other_users_untouched env0 sample_store (call_delete_user 1) 1 2
              eq_refl ltac:(discriminate) (proj2 sample_table_ok)) as [H1 H2].
  split; [exact (proj2 sample_table_ok)|]. split; [exact H1|].
  exact (proj1 (H2 env0 bad_month_request)).
Defined.
